(** * The Indianapolis trash-day resolution pipeline

    A shallow embedding of [server.py] (the FastMCP/httpx server) and of
    [indy_trash_server.py] (the older requests-based variant), and the
    properties of the three lookup stages and of the orchestrator
    [get_indy_trash_day].

    The three municipal services are the environment: an arbitrary state
    machine [http_get] answering each request.  Every request the code
    issues and every record it logs is kept in an explicit state, so that
    "no parcel call is made" or "one error is logged" are statements about
    that state. *)

From Stdlib Require Import String Ascii List Bool Arith ZArith Lia PrimFloat.
Import ListNotations.

Set Warnings "-register-all".
Local Open Scope list_scope.
Local Open Scope string_scope.

(** ** Python values

    What [response.json()] hands to the code: [None], booleans, integers,
    floats, strings, lists and string-keyed dictionaries.  A dictionary is
    the list of its items in insertion order; a key is looked up in the
    first item that carries it.  Strings are sequences of Rocq characters;
    the only character the code inspects is the space. *)

Inductive json : Type :=
| JNull
| JBool (b : bool)
| JInt (n : Z)
| JFloat (f : float)
| JStr (s : string)
| JList (items : list json)
| JObj (fields : list (string * json)).

Inductive pyexn : Type :=
| AttributeError
| TypeError
| KeyError
| IndexError
| ValueError
| HTTPStatusError (status_code : nat)
| RequestError
| RecursionError
| OtherException.

(** A computation on values that may raise. *)
Inductive exc (A : Type) : Type :=
| Ok (a : A)
| Err (e : pyexn).
Arguments Ok {A} a.
Arguments Err {A} e.

Definition exc_bind {A B : Type} (x : exc A) (k : A -> exc B) : exc B :=
  match x with
  | Ok a => k a
  | Err e => Err e
  end.

Declare Scope exc_scope.
Delimit Scope exc_scope with exc.
Notation "x <- c ;; k" := (exc_bind c (fun x => k))
  (at level 61, c at next level, right associativity) : exc_scope.

Module Py.

(** [bool(v)]: the test behind [if v], [not v] and [v and ...]. *)
Definition truthy (v : json) : bool :=
  match v with
  | JNull => false
  | JBool b => b
  | JInt n => negb (Z.eqb n 0)
  | JFloat f => negb (PrimFloat.eqb f 0%float)
  | JStr s => negb (String.eqb s "")
  | JList items => match items with [] => false | _ :: _ => true end
  | JObj fields => match fields with [] => false | _ :: _ => true end
  end.

Fixpoint lookup (key : string) (fields : list (string * json)) : option json :=
  match fields with
  | [] => None
  | (k, v) :: rest => if String.eqb k key then Some v else lookup key rest
  end.

Definition has_key (key : string) (fields : list (string * json)) : bool :=
  match lookup key fields with
  | Some _ => true
  | None => false
  end.

(** [needle in hay] on two strings: a substring test. *)
Fixpoint contains (needle hay : string) : bool :=
  if String.prefix needle hay then true
  else match hay with
       | EmptyString => false
       | String _ rest => contains needle rest
       end.

(** ["k" == v] for a string [k]: only an equal string is equal. *)
Definition str_eq (key : string) (v : json) : bool :=
  match v with
  | JStr s => String.eqb s key
  | _ => false
  end.

(** [key in v] with a string on the left: a key of a dictionary, an
    element of a list, a substring of a string; [TypeError] on a value
    that is not a container. *)
Definition in_ (key : string) (v : json) : exc bool :=
  match v with
  | JObj fields => Ok (has_key key fields)
  | JList items => Ok (existsb (str_eq key) items)
  | JStr s => Ok (contains key s)
  | JNull | JBool _ | JInt _ | JFloat _ => Err TypeError
  end.

(** [v[key]] with a string key: defined on dictionaries only. *)
Definition getitem (v : json) (key : string) : exc json :=
  match v with
  | JObj fields =>
      match lookup key fields with
      | Some x => Ok x
      | None => Err KeyError
      end
  | _ => Err TypeError
  end.

(** [v.get(key, default)]: only a dictionary has the method. *)
Definition get (v : json) (key : string) (default : json) : exc json :=
  match v with
  | JObj fields =>
      match lookup key fields with
      | Some x => Ok x
      | None => Ok default
      end
  | _ => Err AttributeError
  end.

Definition len (v : json) : exc nat :=
  match v with
  | JStr s => Ok (String.length s)
  | JList items => Ok (List.length items)
  | JObj fields => Ok (List.length fields)
  | JNull | JBool _ | JInt _ | JFloat _ => Err TypeError
  end.

(** [v[0]]: the first element of a list, the first character of a
    string; a dictionary parsed from JSON has no key [0]. *)
Definition item0 (v : json) : exc json :=
  match v with
  | JList (x :: _) => Ok x
  | JList [] => Err IndexError
  | JStr (String c _) => Ok (JStr (String c EmptyString))
  | JStr EmptyString => Err IndexError
  | JObj _ => Err KeyError
  | JNull | JBool _ | JInt _ | JFloat _ => Err TypeError
  end.

Definition is_list (v : json) : bool :=
  match v with
  | JList _ => true
  | _ => false
  end.

(** [all(key in v for key in keys)]: left to right, stopping at the
    first key that is absent. *)
Fixpoint all_in (keys : list string) (v : json) : exc bool :=
  match keys with
  | [] => Ok true
  | key :: rest =>
      (b <- in_ key v ;;
       if b then all_in rest v else Ok false)%exc
  end.

(** [s.split(sep)] for a one-character separator: every occurrence
    separates, empty pieces are kept, and the result is never empty. *)
Fixpoint split (sep : ascii) (s : string) : list string :=
  match s with
  | EmptyString => [EmptyString]
  | String c rest =>
      if Ascii.eqb c sep then EmptyString :: split sep rest
      else match split sep rest with
           | [] => [String c EmptyString]
           | piece :: pieces => String c piece :: pieces
           end
  end.

(** [sep.join(pieces)]. *)
Fixpoint join (sep : string) (pieces : list string) : string :=
  match pieces with
  | [] => EmptyString
  | [piece] => piece
  | piece :: rest => piece ++ sep ++ join sep rest
  end.

(** [l[:-1]]. *)
Definition but_last {A : Type} (l : list A) : list A := removelast l.

(** [format(v, "")] inside an f-string: a string is inserted as it is,
    any other value through [str], Python's built-in, which is taken as
    a parameter. *)
Definition format (py_str : json -> string) (v : json) : string :=
  match v with
  | JStr s => s
  | _ => py_str v
  end.

End Py.

(** ** Requests, log records and the state of a run *)

Inductive level : Type := INFO | WARNING | ERROR.

(** A logged f-string, piece by piece: literal text, an interpolated
    value, or the text of a caught exception. *)
Inductive piece : Type :=
| Lit (text : string)
| Val (v : json)
| Exn (e : pyexn).

Record log_record : Type := Log { levelname : level; message : list piece }.

Definition render_piece (py_str : json -> string) (exn_str : pyexn -> string)
  (p : piece) : string :=
  match p with
  | Lit text => text
  | Val v => Py.format py_str v
  | Exn e => exn_str e
  end.

(** The text a log record shows. *)
Definition render (py_str : json -> string) (exn_str : pyexn -> string)
  (r : log_record) : string :=
  String.concat EmptyString (map (render_piece py_str exn_str) (message r)).

(** A [GET] with its query parameters, in the order of the [params]
    dictionary. *)
Record request : Type := Get { url : string; params : list (string * json) }.

(** What came back: the status code, and what [response.json()] will do
    with the body. *)
Record response : Type := Response { status_code : nat; body : exc json }.

Record state (World : Type) : Type :=
  State { world : World; calls : list request; logs : list log_record }.
Arguments State {World} world calls logs.
Arguments world {World} s.
Arguments calls {World} s.
Arguments logs {World} s.

(** How a call ends: with a value, with an exception that nothing
    caught, or not within the fuel given to the recursion. *)
Inductive outcome (A : Type) : Type :=
| Returns (a : A)
| Raises (e : pyexn)
| OutOfFuel.
Arguments Returns {A} a.
Arguments Raises {A} e.
Arguments OutOfFuel {A}.

Definition M (World A : Type) : Type := state World -> outcome A * state World.

Definition ret {World A : Type} (a : A) : M World A :=
  fun st => (Returns a, st).

Definition bind {World A B : Type} (c : M World A) (k : A -> M World B) : M World B :=
  fun st =>
    match c st with
    | (Returns a, st') => k a st'
    | (Raises e, st') => (Raises e, st')
    | (OutOfFuel, st') => (OutOfFuel, st')
    end.

Definition raise {World A : Type} (e : pyexn) : M World A :=
  fun st => (Raises e, st).

Definition out_of_fuel {World A : Type} : M World A :=
  fun st => (OutOfFuel, st).

Definition lift {World A : Type} (x : exc A) : M World A :=
  match x with
  | Ok a => ret a
  | Err e => raise e
  end.

(** [try: body except ...: handler]: the handler sees what the body
    raised; what the handler itself raises is not caught again. *)
Definition try_except {World A : Type} (body : M World A) (handler : pyexn -> M World A)
  : M World A :=
  fun st =>
    match body st with
    | (Raises e, st') => handler e st'
    | other => other
    end.

Definition log {World : Type} (lvl : level) (msg : list piece) : M World unit :=
  fun st => (Returns tt, State (world st) (calls st) (logs st ++ [Log lvl msg])%list).

Declare Scope py_scope.
Delimit Scope py_scope with py.
Notation "x <- c ;; k" := (bind c (fun x => k))
  (at level 61, c at next level, right associativity) : py_scope.
Notation "c ;; k" := (bind c (fun _ => k))
  (at level 61, right associativity) : py_scope.

Section Client.

Context {World : Type}.

(** The services: whatever state they are in, they answer a request with
    a response or make the client raise, and move on. *)
Variable http_get : request -> World -> exc response * World.

(** [client.get(url, params=..., timeout=10.0)] (and [requests.get]): the
    request, that is the URL and the [params] dictionary handed to the
    client, goes out and is recorded; a timeout is one of the faults the
    environment may answer with.  Opening and closing the client around
    the call has no effect of its own here. *)
Definition client_get (req : request) : M World response :=
  fun st =>
    let (answer, w) := http_get req (world st) in
    let st' := State w (calls st ++ [req])%list (logs st) in
    match answer with
    | Ok r => (Returns r, st')
    | Err e => (Raises e, st')
    end.

(** [response.json()]. *)
Definition response_json (r : response) : M World json := lift (body r).

End Client.

(** ** server.py *)

Module Server.

Definition SEARCH_GIS_ADDRESS_URL : string := "https://www.indy.gov/api/v1/search_gis_address".
Definition PARCEL_URL : string := "https://www.indy.gov/api/v1/parcel".
Definition TRASH_PICKUP_URL : string := "https://www.indy.gov/api/v1/indy_trash_pickup".

(** httpx: [Response.is_success]. *)
Definition is_success (code : nat) : bool := Nat.leb 200 code && Nat.leb code 299.

Section Pipeline.

Context {World : Type}.
Variable http_get : request -> World -> exc response * World.
Variable py_str : json -> string.

Local Open Scope py_scope.

(** httpx's [response.raise_for_status()]: every status outside 2xx
    raises [HTTPStatusError]. *)
Definition raise_for_status (r : response) : M World unit :=
  if is_success (status_code r) then ret tt
  else raise (HTTPStatusError (status_code r)).

(** [data.get("addresses") and len(data["addresses"]) <test>]. *)
Definition addresses_len (test : nat -> bool) (data : json) : exc bool :=
  (found <- Py.get data "addresses" JNull ;;
   if Py.truthy found then
     addresses <- Py.getitem data "addresses" ;;
     n <- Py.len addresses ;;
     Ok (test n)
   else Ok false)%exc.

(** [data["addresses"][0]]. *)
Definition first_address (data : json) : exc json :=
  (addresses <- Py.getitem data "addresses" ;;
   Py.item0 addresses)%exc.

(** The fragment of the retry: [" ".join(address_fragment.split(" ")[:-1])]. *)
Definition without_last_piece (address_fragment : string) : string :=
  Py.join " " (Py.but_last (Py.split " " address_fragment)).

(** Stage 1.  The function calls itself from its 422 handler; [fuel]
    bounds the depth of these calls, and a run that would go deeper ends
    as [OutOfFuel]. *)
Fixpoint search_address (fuel : nat) (address_fragment : string) : M World json :=
  match fuel with
  | O => out_of_fuel
  | S fuel' =>
      try_except
        (response <- client_get http_get
           (Get SEARCH_GIS_ADDRESS_URL [("address_fragment", JStr address_fragment)]) ;;
         raise_for_status response ;;
         data <- response_json response ;;
         one <- lift (addresses_len (Nat.eqb 1) data) ;;
         if one then lift (first_address data)
         else
           many <- lift (addresses_len (Nat.ltb 1) data) ;;
           if many then
             log WARNING [Lit "Ambiguous address found for: "; Val (JStr address_fragment)] ;;
             lift (first_address data)
           else
             log ERROR [Lit "No address found for: "; Val (JStr address_fragment)] ;;
             ret JNull)
        (fun e =>
           match e with
           | HTTPStatusError code =>
               if Nat.eqb code 422 then
                 log WARNING [Lit "retrying without the street type"] ;;
                 search_address fuel' (without_last_piece address_fragment)
               else
                 log ERROR [Lit "HTTP error calling search_gis_address API: "; Exn e] ;;
                 ret JNull
           | RequestError =>
               log ERROR [Lit "Error calling search_gis_address API: "; Exn e] ;;
               ret JNull
           | _ =>
               log ERROR [Lit "Unexpected error in search_address: "; Exn e] ;;
               ret JNull
           end)
  end.

Definition required_keys : list string :=
  ["address1"; "city"; "level"; "number"; "state"; "tag"; "zipcode"].

(** The [params] dictionary of the parcel request, built item by item. *)
Definition parcel_params (address_details : json) : exc (list (string * json)) :=
  (address1 <- Py.getitem address_details "address1" ;;
   city <- Py.getitem address_details "city" ;;
   level <- Py.getitem address_details "level" ;;
   number <- Py.getitem address_details "number" ;;
   state <- Py.getitem address_details "state" ;;
   tag <- Py.getitem address_details "tag" ;;
   zipcode <- Py.getitem address_details "zipcode" ;;
   Ok [("address1", address1); ("city", city); ("level", level); ("number", number);
       ("state", state); ("tag_id", tag); ("zipcode", zipcode)])%exc.

(** ["x" in parcel_data and "y" in parcel_data]. *)
Definition has_coordinates (parcel_data : json) : exc bool :=
  (x <- Py.in_ "x" parcel_data ;;
   if x then Py.in_ "y" parcel_data else Ok false)%exc.

(** [data and isinstance(data, list) and len(data) > 0]. *)
Definition is_nonempty_list (data : json) : exc bool :=
  if Py.truthy data && Py.is_list data then
    (n <- Py.len data ;; Ok (Nat.ltb 0 n))%exc
  else Ok false.

(** Stage 2.  The test on the keys and the [params] dictionary come
    before the [try]: what they raise is not caught. *)
Definition get_parcel_info (address_details : json) : M World json :=
  complete <- lift (Py.all_in required_keys address_details) ;;
  if negb complete then
    log ERROR [Lit "Missing required keys in address_details for parcel API call: ";
               Val address_details] ;;
    ret JNull
  else
    params <- lift (parcel_params address_details) ;;
    try_except
      (response <- client_get http_get (Get PARCEL_URL params) ;;
       raise_for_status response ;;
       data <- response_json response ;;
       found <- lift (is_nonempty_list data) ;;
       if found then
         parcel_data <- lift (Py.item0 data) ;;
         located <- lift (has_coordinates parcel_data) ;;
         if located then ret parcel_data
         else
           log ERROR [Lit "Parcel data missing x/y coordinates: "; Val parcel_data] ;;
           ret JNull
       else
         log ERROR [Lit "No parcel data found for details: "; Val (JObj params)] ;;
         ret JNull)
      (fun e =>
         match e with
         | RequestError =>
             log ERROR [Lit "Error calling parcel API: "; Exn e] ;;
             ret JNull
         | _ =>
             log ERROR [Lit "Unexpected error in get_parcel_info: "; Exn e] ;;
             ret JNull
         end).

(** ["x" not in parcel_info or "y" not in parcel_info]. *)
Definition lacks_coordinates (parcel_info : json) : exc bool :=
  (x <- Py.in_ "x" parcel_info ;;
   if negb x then Ok true
   else y <- Py.in_ "y" parcel_info ;; Ok (negb y))%exc.

Definition trash_params (parcel_info : json) : exc (list (string * json)) :=
  (x <- Py.getitem parcel_info "x" ;;
   y <- Py.getitem parcel_info "y" ;;
   Ok [("x", x); ("y", y)])%exc.

(** [data and "pickup_day" in data]. *)
Definition has_pickup_day (data : json) : exc bool :=
  if Py.truthy data then Py.in_ "pickup_day" data else Ok false.

(** Stage 3, laid out as Stage 2. *)
Definition get_trash_pickup_details (parcel_info : json) : M World json :=
  missing <- lift (lacks_coordinates parcel_info) ;;
  if missing then
    log ERROR [Lit "Missing x or y coordinates in parcel_info: "; Val parcel_info] ;;
    ret JNull
  else
    params <- lift (trash_params parcel_info) ;;
    try_except
      (response <- client_get http_get (Get TRASH_PICKUP_URL params) ;;
       raise_for_status response ;;
       data <- response_json response ;;
       scheduled <- lift (has_pickup_day data) ;;
       if scheduled then ret data
       else
         log ERROR [Lit "Trash pickup data missing 'pickup_day': "; Val data] ;;
         ret JNull)
      (fun e =>
         match e with
         | RequestError =>
             log ERROR [Lit "Error calling trash pickup API: "; Exn e] ;;
             ret JNull
         | _ =>
             log ERROR [Lit "Unexpected error in get_trash_pickup_details: "; Exn e] ;;
             ret JNull
         end).

Definition ADDRESS_FAILURE : string :=
  "Sorry, I couldn't validate that address. Please provide a valid Indianapolis address.".
Definition PARCEL_FAILURE : string :=
  "Sorry, I couldn't retrieve parcel information for that address.".
Definition SCHEDULE_FAILURE : string :=
  "Sorry, I couldn't retrieve trash pickup details for that address.".

(** Step 4 of the orchestrator: the sentence built from the schedule. *)
Definition schedule_sentence (pickup_day heavy_trash : json) : string :=
  let response := "Your regular trash pickup day is " ++ Py.format py_str pickup_day ++ "." in
  if Py.truthy heavy_trash then
    response ++ " Heavy trash pickup: " ++ Py.format py_str heavy_trash ++ "."
  else response.

(** The orchestrator: no [try] around the stages or around its own
    steps. *)
Definition get_indy_trash_day (fuel : nat) (address : string) : M World string :=
  log INFO [Lit "Received request for address: "; Val (JStr address)] ;;
  address_details <- search_address fuel address ;;
  if negb (Py.truthy address_details) then ret ADDRESS_FAILURE
  else
    parcel_info <- get_parcel_info address_details ;;
    if negb (Py.truthy parcel_info) then ret PARCEL_FAILURE
    else
      trash_details <- get_trash_pickup_details parcel_info ;;
      if negb (Py.truthy trash_details) then ret SCHEDULE_FAILURE
      else
        pickup_day <- lift (Py.get trash_details "pickup_day" (JStr "Not specified")) ;;
        heavy_trash <- lift (Py.get trash_details "heavy_trash_pickup" (JStr EmptyString)) ;;
        let response := schedule_sentence pickup_day heavy_trash in
        log INFO [Lit "Returning trash info for "; Val (JStr address); Lit ": ";
                  Val (JStr response)] ;;
        ret response.

End Pipeline.

End Server.

(** ** indy_trash_server.py

    The older variant: blocking [requests] calls, no retry in Stage 1 and
    a fixed workflow identifier in the schedule request. *)

Module IndyTrashServer.

Definition SEARCH_GIS_ADDRESS_URL : string := "https://www.indy.gov/api/v1/search_gis_address".
Definition PARCEL_URL : string := "https://www.indy.gov/api/v1/parcel".
Definition TRASH_PICKUP_URL : string := "https://www.indy.gov/api/v1/indy_trash_pickup".
Definition WORKFLOW_ID : string := "c2fdbada-0999-4a55-ad3e-8552b717c1da".

(** [except requests.exceptions.RequestException]: the class of
    [HTTPError], which [raise_for_status] raises, and of the transport
    faults. *)
Definition is_RequestException (e : pyexn) : bool :=
  match e with
  | HTTPStatusError _ | RequestError => true
  | _ => false
  end.

Section Pipeline.

Context {World : Type}.
Variable http_get : request -> World -> exc response * World.
Variable py_str : json -> string.

Local Open Scope py_scope.

(** requests' [response.raise_for_status()]: the 4xx and 5xx statuses
    raise [HTTPError]. *)
Definition raise_for_status (r : response) : M World unit :=
  if Nat.leb 400 (status_code r) && Nat.ltb (status_code r) 600
  then raise (HTTPStatusError (status_code r))
  else ret tt.

Definition addresses_len (test : nat -> bool) (data : json) : exc bool :=
  (found <- Py.get data "addresses" JNull ;;
   if Py.truthy found then
     addresses <- Py.getitem data "addresses" ;;
     n <- Py.len addresses ;;
     Ok (test n)
   else Ok false)%exc.

Definition first_address (data : json) : exc json :=
  (addresses <- Py.getitem data "addresses" ;;
   Py.item0 addresses)%exc.

Definition search_address (address_fragment : string) : M World json :=
  try_except
    (response <- client_get http_get
       (Get SEARCH_GIS_ADDRESS_URL [("address_fragment", JStr address_fragment)]) ;;
     raise_for_status response ;;
     data <- response_json response ;;
     one <- lift (addresses_len (Nat.eqb 1) data) ;;
     if one then lift (first_address data)
     else
       many <- lift (addresses_len (Nat.ltb 1) data) ;;
       if many then
         log WARNING [Lit "Ambiguous address found for: "; Val (JStr address_fragment)] ;;
         lift (first_address data)
       else
         log ERROR [Lit "No address found for: "; Val (JStr address_fragment)] ;;
         ret JNull)
    (fun e =>
       if is_RequestException e then
         log ERROR [Lit "Error calling search_gis_address API: "; Exn e] ;;
         ret JNull
       else
         log ERROR [Lit "Unexpected error in search_address: "; Exn e] ;;
         ret JNull).

Definition required_keys : list string :=
  ["address1"; "city"; "level"; "number"; "state"; "tag"; "zipcode"].

Definition parcel_params (address_details : json) : exc (list (string * json)) :=
  (address1 <- Py.getitem address_details "address1" ;;
   city <- Py.getitem address_details "city" ;;
   level <- Py.getitem address_details "level" ;;
   number <- Py.getitem address_details "number" ;;
   state <- Py.getitem address_details "state" ;;
   tag <- Py.getitem address_details "tag" ;;
   zipcode <- Py.getitem address_details "zipcode" ;;
   Ok [("address1", address1); ("city", city); ("level", level); ("number", number);
       ("state", state); ("tag_id", tag); ("zipcode", zipcode)])%exc.

Definition is_nonempty_list (data : json) : exc bool :=
  if Py.truthy data && Py.is_list data then
    (n <- Py.len data ;; Ok (Nat.ltb 0 n))%exc
  else Ok false.

Definition has_coordinates (parcel_data : json) : exc bool :=
  (x <- Py.in_ "x" parcel_data ;;
   if x then Py.in_ "y" parcel_data else Ok false)%exc.

Definition get_parcel_info (address_details : json) : M World json :=
  complete <- lift (Py.all_in required_keys address_details) ;;
  if negb complete then
    log ERROR [Lit "Missing required keys in address_details for parcel API call: ";
               Val address_details] ;;
    ret JNull
  else
    params <- lift (parcel_params address_details) ;;
    try_except
      (response <- client_get http_get (Get PARCEL_URL params) ;;
       raise_for_status response ;;
       data <- response_json response ;;
       found <- lift (is_nonempty_list data) ;;
       if found then
         parcel_data <- lift (Py.item0 data) ;;
         located <- lift (has_coordinates parcel_data) ;;
         if located then ret parcel_data
         else
           log ERROR [Lit "Parcel data missing x/y coordinates: "; Val parcel_data] ;;
           ret JNull
       else
         log ERROR [Lit "No parcel data found for details: "; Val (JObj params)] ;;
         ret JNull)
      (fun e =>
         if is_RequestException e then
           log ERROR [Lit "Error calling parcel API: "; Exn e] ;;
           ret JNull
         else
           log ERROR [Lit "Unexpected error in get_parcel_info: "; Exn e] ;;
           ret JNull).

Definition lacks_coordinates (parcel_info : json) : exc bool :=
  (x <- Py.in_ "x" parcel_info ;;
   if negb x then Ok true
   else y <- Py.in_ "y" parcel_info ;; Ok (negb y))%exc.

Definition trash_params (parcel_info : json) : exc (list (string * json)) :=
  (x <- Py.getitem parcel_info "x" ;;
   y <- Py.getitem parcel_info "y" ;;
   Ok [("__workflow_id", JStr WORKFLOW_ID); ("x", x); ("y", y)])%exc.

Definition has_pickup_day (data : json) : exc bool :=
  if Py.truthy data then Py.in_ "pickup_day" data else Ok false.

Definition get_trash_pickup_details (parcel_info : json) : M World json :=
  missing <- lift (lacks_coordinates parcel_info) ;;
  if missing then
    log ERROR [Lit "Missing x or y coordinates in parcel_info: "; Val parcel_info] ;;
    ret JNull
  else
    params <- lift (trash_params parcel_info) ;;
    try_except
      (response <- client_get http_get (Get TRASH_PICKUP_URL params) ;;
       raise_for_status response ;;
       data <- response_json response ;;
       scheduled <- lift (has_pickup_day data) ;;
       if scheduled then ret data
       else
         log ERROR [Lit "Trash pickup data missing 'pickup_day': "; Val data] ;;
         ret JNull)
      (fun e =>
         if is_RequestException e then
           log ERROR [Lit "Error calling trash pickup API: "; Exn e] ;;
           ret JNull
         else
           log ERROR [Lit "Unexpected error in get_trash_pickup_details: "; Exn e] ;;
           ret JNull).

Definition ADDRESS_FAILURE : string :=
  "Sorry, I couldn't validate that address. Please provide a valid Indianapolis address.".
Definition PARCEL_FAILURE : string :=
  "Sorry, I couldn't retrieve parcel information for that address.".
Definition SCHEDULE_FAILURE : string :=
  "Sorry, I couldn't retrieve trash pickup details for that address.".

Definition schedule_sentence (pickup_day heavy_trash : json) : string :=
  let response := "Your regular trash pickup day is " ++ Py.format py_str pickup_day ++ "." in
  if Py.truthy heavy_trash then
    response ++ " Heavy trash pickup: " ++ Py.format py_str heavy_trash ++ "."
  else response.

(** The [ctx] argument of the tool is not used by its body. *)
Definition get_indy_trash_day (address : string) : M World string :=
  log INFO [Lit "Received request for address: "; Val (JStr address)] ;;
  address_details <- search_address address ;;
  if negb (Py.truthy address_details) then ret ADDRESS_FAILURE
  else
    parcel_info <- get_parcel_info address_details ;;
    if negb (Py.truthy parcel_info) then ret PARCEL_FAILURE
    else
      trash_details <- get_trash_pickup_details parcel_info ;;
      if negb (Py.truthy trash_details) then ret SCHEDULE_FAILURE
      else
        pickup_day <- lift (Py.get trash_details "pickup_day" (JStr "Not specified")) ;;
        heavy_trash <- lift (Py.get trash_details "heavy_trash_pickup" (JStr EmptyString)) ;;
        let response := schedule_sentence pickup_day heavy_trash in
        log INFO [Lit "Returning trash info for "; Val (JStr address); Lit ": ";
                  Val (JStr response)] ;;
        ret response.

End Pipeline.

End IndyTrashServer.

(** ** Notions used by the statements *)

(** No space character in [s]: a single token. *)
Fixpoint space_free (s : string) : bool :=
  match s with
  | EmptyString => true
  | String c rest => negb (Ascii.eqb c " ") && space_free rest
  end.

(** The number of pieces [s.split(" ")] gives. *)
Definition pieces (s : string) : nat := List.length (Py.split " " s).

(** The exceptions that operations on values raise. *)
Definition lookup_error (e : pyexn) : bool :=
  match e with
  | AttributeError | TypeError | KeyError | IndexError => true
  | _ => false
  end.

(** The answers that send [Server.search_address] into its 422 branch:
    an [HTTPStatusError] whose response carries status 422. *)
Definition unprocessable (answer : exc response) : bool :=
  match answer with
  | Ok r =>
      if Server.is_success (status_code r) then
        match body r with
        | Err (HTTPStatusError code) => Nat.eqb code 422
        | _ => false
        end
      else Nat.eqb (status_code r) 422
  | Err (HTTPStatusError code) => Nat.eqb code 422
  | Err _ => false
  end.

(** The requests of the three stages. *)
Definition geocode (address_fragment : string) : request :=
  Get Server.SEARCH_GIS_ADDRESS_URL [("address_fragment", JStr address_fragment)].

Definition parcel_request (address1 city level number state tag zipcode : json) : request :=
  Get Server.PARCEL_URL
    [("address1", address1); ("city", city); ("level", level); ("number", number);
     ("state", state); ("tag_id", tag); ("zipcode", zipcode)].

Definition schedule_request (x y : json) : request :=
  Get Server.TRASH_PICKUP_URL [("x", x); ("y", y)].

Definition indy_schedule_request (x y : json) : request :=
  Get IndyTrashServer.TRASH_PICKUP_URL
    [("__workflow_id", JStr IndyTrashServer.WORKFLOW_ID); ("x", x); ("y", y)].

Definition to_schedule_service (req : request) : Prop :=
  url req = "https://www.indy.gov/api/v1/indy_trash_pickup".

(** The log records the statements mention. *)
Definition received (address : string) : log_record :=
  Log INFO [Lit "Received request for address: "; Val (JStr address)].

Definition returning (address response : string) : log_record :=
  Log INFO [Lit "Returning trash info for "; Val (JStr address); Lit ": ";
            Val (JStr response)].

Definition retry_warning : log_record :=
  Log WARNING [Lit "retrying without the street type"].

Definition no_address_error (address_fragment : string) : log_record :=
  Log ERROR [Lit "No address found for: "; Val (JStr address_fragment)].

Definition ambiguous_warning (address_fragment : string) : log_record :=
  Log WARNING [Lit "Ambiguous address found for: "; Val (JStr address_fragment)].

Definition missing_keys_error (address_details : json) : log_record :=
  Log ERROR [Lit "Missing required keys in address_details for parcel API call: ";
             Val address_details].

Definition missing_coordinates_error (parcel_info : json) : log_record :=
  Log ERROR [Lit "Missing x or y coordinates in parcel_info: "; Val parcel_info].

(** A state with one more record in its log; [entered] is the state in
    which Stage 1 starts. *)
Definition logged {World : Type} (r : log_record) (st : state World) : state World :=
  State (world st) (calls st) (logs st ++ [r]).

Definition entered {World : Type} (address : string) (st : state World) : state World :=
  State (world st) (calls st) (logs st ++ [received address]).


(** ** Scripted services

    Environments without a state of their own, used for the concrete runs
    below. *)

Definition stateless (answer : request -> exc response)
  : request -> unit -> exc response * unit :=
  fun req w => (answer req, w).

Definition fresh : state unit := State tt [] [].

Definition ok_json (data : json) : exc response := Ok (Response 200 (Ok data)).

(** A geocoding service that finds every fragment unprocessable. *)
Definition always_422 (req : request) : exc response :=
  Ok (Response 422 (Err ValueError)).

(** A service that cannot be reached in time. *)
Definition timing_out (req : request) : exc response := Err RequestError.

Definition main_street_fields : list (string * json) :=
  [("address1", JStr "1234 MAIN ST"); ("city", JStr "INDIANAPOLIS");
   ("level", JNull); ("number", JInt 1234); ("state", JStr "IN");
   ("tag", JStr "ADDRESS"); ("zipcode", JStr "46204")].

Definition main_street : json := JObj main_street_fields.

Definition main_avenue : json :=
  JObj [("address1", JStr "1234 MAIN AVE"); ("city", JStr "INDIANAPOLIS");
        ("level", JNull); ("number", JInt 1234); ("state", JStr "IN");
        ("tag", JStr "ADDRESS"); ("zipcode", JStr "46219")].

Definition main_street_parcel : json :=
  JObj [("parcel", JStr "1001234"); ("x", JFloat 10.0%float); ("y", JFloat 20.0%float)].

Definition no_candidates (req : request) : exc response :=
  ok_json (JObj [("addresses", JList [])]).

Definition two_candidates (req : request) : exc response :=
  ok_json (JObj [("addresses", JList [main_street; main_avenue])]).

(** The end-to-end scenario: one candidate, a parcel at (10.0, 20.0) and
    the given schedule. *)
Definition scenario (schedule : json) (req : request) : exc response :=
  if String.eqb (url req) Server.SEARCH_GIS_ADDRESS_URL then
    ok_json (JObj [("addresses", JList [main_street])])
  else if String.eqb (url req) Server.PARCEL_URL then
    ok_json (JList [main_street_parcel])
  else ok_json schedule.

(** The same, with a parcel record that carries no coordinates. *)
Definition scenario_without_coordinates (req : request) : exc response :=
  if String.eqb (url req) Server.SEARCH_GIS_ADDRESS_URL then
    ok_json (JObj [("addresses", JList [main_street])])
  else ok_json (JList [JObj [("parcel", JStr "1001234")]]).

Definition tuesday_only : list (string * json) :=
  [("pickup_day", JStr "Tuesday"); ("heavy_trash_pickup", JStr EmptyString)].

Definition tuesday_with_heavy : list (string * json) :=
  [("pickup_day", JStr "Tuesday"); ("heavy_trash_pickup", JStr "3rd Wednesday")].


(** A stand-in for [str] on the few values the concrete runs show. *)
Definition str_plain (v : json) : string :=
  match v with
  | JNull => "None"
  | JBool true => "True"
  | JBool false => "False"
  | JObj [] => "{}"
  | JList [] => "[]"
  | _ => "?"
  end.

Definition exn_plain (e : pyexn) : string := "?".

(** ** Further notions and services *)

(** A service that answers every request with status 500. *)
Definition server_error (req : request) : exc response :=
  Ok (Response 500 (Err ValueError)).

(** The fragment a geocoding request asks for. *)
Definition fragment_of (req : request) : string :=
  match params req with
  | [(_, JStr fragment)] => fragment
  | _ => EmptyString
  end.

(** The scenario, with a geocoding service that finds the fragment with
    its street type unprocessable. *)
Definition street_type_unprocessable (req : request) : exc response :=
  if String.eqb (url req) Server.SEARCH_GIS_ADDRESS_URL
     && String.eqb (fragment_of req) "1234 Main St"
  then Ok (Response 422 (Err ValueError))
  else scenario (JObj tuesday_only) req.

(** None, a boolean or a number: a value with no [in], no [len] and no
    subscript. *)
Definition is_scalar (v : json) : bool :=
  match v with
  | JNull | JBool _ | JInt _ | JFloat _ => true
  | JStr _ | JList _ | JObj _ => false
  end.

(** The scenario with a parcel service that answers two records, the
    first of them without coordinates. *)
Definition second_parcel_located (req : request) : exc response :=
  if String.eqb (url req) Server.SEARCH_GIS_ADDRESS_URL then
    ok_json (JObj [("addresses", JList [main_street])])
  else if String.eqb (url req) Server.PARCEL_URL then
    ok_json (JList [JObj [("parcel", JStr "1001234")]; main_street_parcel])
  else ok_json (JObj tuesday_only).

Definition to_geocoding_service (req : request) : Prop :=
  url req = "https://www.indy.gov/api/v1/search_gis_address".

Definition to_parcel_service (req : request) : Prop :=
  url req = "https://www.indy.gov/api/v1/parcel".

(** The shape of the requests of one run: geocoding requests, then at
    most one parcel request, then at most one schedule request, which is
    never there without the parcel request. *)
Definition in_stage_order (requests : list request) : Prop :=
  exists geocoding parcel schedule,
    requests = (geocoding ++ parcel ++ schedule)%list /\
    Forall to_geocoding_service geocoding /\
    Forall to_parcel_service parcel /\ List.length parcel <= 1 /\
    Forall to_schedule_service schedule /\ List.length schedule <= 1 /\
    (schedule <> [] -> parcel <> []).

(** A parcel service with no record for the address. *)
Definition no_parcels (req : request) : exc response := ok_json (JList []).

(** ** The recursion limit of the interpreter

    [Server.search_address] follows the recursion of server.py as deep
    as its fuel goes.  CPython itself bounds the depth of nested calls:
    in a chain of 422 answers, each answer nests one more call of
    [search_address], and the call that reaches the bound gets
    RecursionError from [client.get], the deepest call of its body.
    That call stands inside the [try], and RecursionError is an
    [Exception]: the last [except] clause (lines 48-50) logs it and
    returns None, which every enclosing call returns in turn (line 42).
    [depth] is the number of nested calls whose request the bound leaves
    room for. *)

Module RecursionLimit.

Section Pipeline.

Context {World : Type}.
Variable http_get : request -> World -> exc response * World.
Variable py_str : json -> string.

Local Open Scope py_scope.

(** The body of the [try] of [search_address] (lines 24-38). *)
Definition attempt (address_fragment : string) : M World json :=
  response <- client_get http_get
    (Get Server.SEARCH_GIS_ADDRESS_URL [("address_fragment", JStr address_fragment)]) ;;
  Server.raise_for_status response ;;
  data <- response_json response ;;
  one <- lift (Server.addresses_len (Nat.eqb 1) data) ;;
  if one then lift (Server.first_address data)
  else
    many <- lift (Server.addresses_len (Nat.ltb 1) data) ;;
    if many then
      log WARNING [Lit "Ambiguous address found for: "; Val (JStr address_fragment)] ;;
      lift (Server.first_address data)
    else
      log ERROR [Lit "No address found for: "; Val (JStr address_fragment)] ;;
      ret JNull.

(** Its [except] clauses (lines 39-50); [retry] is the call of line 42. *)
Definition on_exception (retry : M World json) (e : pyexn) : M World json :=
  match e with
  | HTTPStatusError code =>
      if Nat.eqb code 422 then
        log WARNING [Lit "retrying without the street type"] ;;
        retry
      else
        log ERROR [Lit "HTTP error calling search_gis_address API: "; Exn e] ;;
        ret JNull
  | RequestError =>
      log ERROR [Lit "Error calling search_gis_address API: "; Exn e] ;;
      ret JNull
  | _ =>
      log ERROR [Lit "Unexpected error in search_address: "; Exn e] ;;
      ret JNull
  end.

(** Stage 1 under the bound: with no depth left, [client.get] raises
    RecursionError inside the [try]. *)
Fixpoint search_address (depth : nat) (address_fragment : string) : M World json :=
  match depth with
  | O => try_except (raise RecursionError) (on_exception (raise RecursionError))
  | S depth' =>
      try_except (attempt address_fragment)
        (on_exception (search_address depth' (Server.without_last_piece address_fragment)))
  end.

(** The orchestrator of server.py, on this Stage 1. *)
Definition get_indy_trash_day (depth : nat) (address : string) : M World string :=
  log INFO [Lit "Received request for address: "; Val (JStr address)] ;;
  address_details <- search_address depth address ;;
  if negb (Py.truthy address_details) then ret Server.ADDRESS_FAILURE
  else
    parcel_info <- Server.get_parcel_info http_get address_details ;;
    if negb (Py.truthy parcel_info) then ret Server.PARCEL_FAILURE
    else
      trash_details <- Server.get_trash_pickup_details http_get parcel_info ;;
      if negb (Py.truthy trash_details) then ret Server.SCHEDULE_FAILURE
      else
        pickup_day <- lift (Py.get trash_details "pickup_day" (JStr "Not specified")) ;;
        heavy_trash <- lift (Py.get trash_details "heavy_trash_pickup" (JStr EmptyString)) ;;
        let response := Server.schedule_sentence py_str pickup_day heavy_trash in
        log INFO [Lit "Returning trash info for "; Val (JStr address); Lit ": ";
                  Val (JStr response)] ;;
        ret response.

End Pipeline.

End RecursionLimit.

(** The record the last [except] clause of Stage 1 logs for the
    RecursionError. *)
Definition recursion_error : log_record :=
  Log ERROR [Lit "Unexpected error in search_address: "; Exn RecursionError].

(** * Properties *)

(** ** Tactics *)

(** The tests on status codes and lengths are rewritten with, not
    computed on, unknown numbers. *)
#[local] Arguments Nat.eqb : simpl never.
#[local] Arguments Nat.ltb : simpl never.
#[local] Arguments Nat.leb : simpl never.

(** One step of a run: the monad and the client unfolded. *)
Ltac run_step :=
  unfold bind, ret, raise, lift, log, try_except, client_get, response_json, out_of_fuel,
    Server.raise_for_status; simpl.

Ltac indy_step :=
  unfold bind, ret, raise, lift, log, try_except, client_get, response_json,
    IndyTrashServer.raise_for_status; simpl;
  change IndyTrashServer.SEARCH_GIS_ADDRESS_URL with Server.SEARCH_GIS_ADDRESS_URL.

(** The helpers of indy_trash_server.py are those of server.py, word for
    word: their lemmas are shared. *)
Ltac indy_names :=
  change IndyTrashServer.required_keys with Server.required_keys in *;
  change IndyTrashServer.parcel_params with Server.parcel_params in *;
  change IndyTrashServer.is_nonempty_list with Server.is_nonempty_list in *;
  change IndyTrashServer.has_coordinates with Server.has_coordinates in *;
  change IndyTrashServer.PARCEL_URL with Server.PARCEL_URL in *.

(** Case analysis on the shape of a value, for a hypothesis saying that
    an operation on it raised. *)
Ltac by_shape v :=
  destruct v as [| ? | ? | ? | [|? ?] | [|? ?] | ?]; simpl; intros; try discriminate;
  repeat match goal with
         | H : context [match ?x with _ => _ end] |- _ => destruct x eqn:?; try discriminate
         | H : Err _ = Err _ |- _ => injection H as <-
         end; try reflexivity.

(** A lookup error is caught by the last [except] clause of a stage, which
    logs one record and returns None. *)
Ltac caught e :=
  destruct e; try discriminate; simpl; eexists _, [_]; reflexivity.

(** Closes a leaf of the case analysis of Stage 2: what was returned is
    None, or the record whose coordinate test is in the context. *)
Ltac conclude_located :=
  intros Hrun Hsome; injection Hrun as <- <-; first [congruence | assumption].

(** ** The operations on values, on samples *)

Example split_keeps_empty_pieces :
  Py.split " " "1234 Main  St" = ["1234"; "Main"; EmptyString; "St"] /\
  Py.split " " EmptyString = [EmptyString].
Proof. split; reflexivity. Qed.

Example without_last_piece_samples :
  Server.without_last_piece "1234 Main St" = "1234 Main" /\
  Server.without_last_piece "Main" = EmptyString /\
  Server.without_last_piece EmptyString = EmptyString.
Proof. repeat split. Qed.

Example in_on_samples :
  Py.in_ "x" main_street_parcel = Ok true /\
  Py.in_ "x" (JStr "xy") = Ok true /\
  Py.in_ "x" (JList [JStr "y"]) = Ok false /\
  Py.in_ "x" (JInt 5) = Err TypeError.
Proof. repeat split. Qed.

Example truthy_on_samples :
  Py.truthy (JFloat 0.0%float) = false /\ Py.truthy (JFloat 10.0%float) = true /\
  Py.truthy (JStr EmptyString) = false /\ Py.truthy (JObj []) = false /\
  Py.truthy main_street = true.
Proof. repeat split. Qed.

(** ** Running the monad *)

Lemma bind_lift_ok {World A B : Type} (a : A) (k : A -> M World B) :
  bind (lift (Ok a)) k = k a.
Proof. reflexivity. Qed.

Lemma bind_lift_err {World A B : Type} (e : pyexn) (k : A -> M World B) :
  bind (lift (Err e)) k = raise e.
Proof. reflexivity. Qed.

(** ** Splitting and joining *)

Lemma split_not_nil (sep : ascii) (s : string) : Py.split sep s <> [].
Proof.
  destruct s as [|c rest]; simpl; [discriminate|].
  destruct (Ascii.eqb c sep); [discriminate|].
  destruct (Py.split sep rest); discriminate.
Qed.

Lemma join_split (sep : ascii) (s : string) :
  Py.join (String sep EmptyString) (Py.split sep s) = s.
Proof.
  induction s as [|c rest IH]; [reflexivity|].
  simpl Py.split. destruct (Ascii.eqb c sep) eqn:E.
  - apply Ascii.eqb_eq in E. subst c.
    destruct (Py.split sep rest) as [|p ps] eqn:S; [now apply split_not_nil in S|].
    change (Py.join (String sep EmptyString) (EmptyString :: p :: ps))
      with (String sep (Py.join (String sep EmptyString) (p :: ps))).
    now rewrite IH.
  - destruct (Py.split sep rest) as [|p ps] eqn:S; [now apply split_not_nil in S|].
    rewrite <- IH. destruct ps; reflexivity.
Qed.

Lemma split_space_free (s : string) :
  space_free s = true -> Py.split " " s = [s].
Proof.
  induction s as [|c rest IH]; [reflexivity|].
  simpl. intros H. apply andb_true_iff in H. destruct H as [Hc Hrest].
  apply negb_true_iff in Hc. rewrite Hc, (IH Hrest). reflexivity.
Qed.

Lemma split_snoc (front last : string) :
  space_free last = true ->
  Py.split " " (front ++ " " ++ last) = (Py.split " " front ++ [last])%list.
Proof.
  intros Hlast. induction front as [|c rest IH].
  - simpl. now rewrite split_space_free.
  - simpl in IH |- *. rewrite IH. destruct (Ascii.eqb c " "); [reflexivity|].
    destruct (Py.split " " rest) as [|p ps] eqn:S; [now apply split_not_nil in S|].
    reflexivity.
Qed.

Lemma without_last_piece_single (s : string) :
  space_free s = true -> Server.without_last_piece s = EmptyString.
Proof.
  intros H. unfold Server.without_last_piece. now rewrite split_space_free.
Qed.

Lemma without_last_piece_snoc (front last : string) :
  space_free last = true ->
  Server.without_last_piece (front ++ " " ++ last) = front.
Proof.
  intros H. unfold Server.without_last_piece, Py.but_last.
  rewrite split_snoc by assumption. rewrite removelast_last.
  apply (join_split " ").
Qed.

Lemma append_assoc (a b c : string) : (a ++ b) ++ c = a ++ b ++ c.
Proof. induction a as [|x a IH]; simpl; [reflexivity | now rewrite IH]. Qed.

Lemma join_snoc (tokens : list string) (last : string) :
  tokens <> [] ->
  Py.join " " (tokens ++ [last]) = Py.join " " tokens ++ " " ++ last.
Proof.
  induction tokens as [|t ts IH]; [congruence|]. intros _.
  destruct ts as [|t' ts]; [reflexivity|].
  change (Py.join " " ((t :: t' :: ts) ++ [last]))
    with (t ++ " " ++ Py.join " " ((t' :: ts) ++ [last])).
  rewrite IH by discriminate.
  change (Py.join " " (t :: t' :: ts)) with (t ++ " " ++ Py.join " " (t' :: ts)).
  now rewrite !append_assoc.
Qed.

(** ** The truncation chain *)

Lemma split_space_free_pieces (s : string) :
  Forall (fun p => space_free p = true) (Py.split " " s).
Proof.
  induction s as [|c rest IH]; simpl; [repeat constructor|].
  destruct (Ascii.eqb c " ") eqn:E; [constructor; [reflexivity | assumption]|].
  destruct (Py.split " " rest) as [|p ps]; [repeat constructor; simpl; now rewrite E|].
  inversion IH; subst. constructor; [simpl; now rewrite E | assumption].
Qed.

Lemma split_cons (p rest : string) :
  space_free p = true ->
  Py.split " " (p ++ " " ++ rest) = p :: Py.split " " rest.
Proof.
  induction p as [|c p IH]; simpl; [reflexivity|].
  intros H. apply andb_true_iff in H. destruct H as [Hc Hp].
  apply negb_true_iff in Hc. rewrite Hc. simpl in IH. now rewrite (IH Hp).
Qed.

Lemma split_join (l : list string) :
  l <> [] -> Forall (fun p => space_free p = true) l ->
  Py.split " " (Py.join " " l) = l.
Proof.
  induction l as [|p l IH]; [congruence|]. intros _ H. inversion H; subst.
  destruct l as [|q l]; [now apply split_space_free|].
  change (Py.join " " (p :: q :: l)) with (p ++ " " ++ Py.join " " (q :: l)).
  rewrite split_cons by assumption. now rewrite IH.
Qed.

Lemma removelast_Forall {A : Type} (P : A -> Prop) (l : list A) :
  Forall P l -> Forall P (removelast l).
Proof.
  induction 1 as [|x l Hx Hl IH]; simpl; [constructor|].
  destruct l; [constructor | now constructor].
Qed.

Lemma removelast_length {A : Type} (l : list A) :
  List.length (removelast l) = pred (List.length l).
Proof.
  induction l as [|x l IH]; [reflexivity|]. simpl.
  destruct l; [reflexivity|]. simpl in *. now rewrite IH.
Qed.

Lemma pieces_positive (s : string) : 1 <= pieces s.
Proof.
  unfold pieces. pose proof (split_not_nil " " s).
  destruct (Py.split " " s); [congruence | simpl; lia].
Qed.

(** One truncation removes one piece, down to the empty fragment. *)
Lemma pieces_without_last_piece (s : string) :
  2 <= pieces s -> pieces (Server.without_last_piece s) = pred (pieces s).
Proof.
  unfold pieces, Server.without_last_piece, Py.but_last. intros H.
  rewrite split_join.
  - apply removelast_length.
  - intros E. apply (f_equal (@List.length string)) in E.
    rewrite removelast_length in E. simpl in E. lia.
  - apply removelast_Forall, split_space_free_pieces.
Qed.

Lemma without_last_piece_one_piece (s : string) :
  pieces s <= 1 -> Server.without_last_piece s = EmptyString.
Proof.
  unfold pieces, Server.without_last_piece, Py.but_last. intros H.
  destruct (Py.split " " s) as [|p [|q l]]; simpl in *; try reflexivity; lia.
Qed.

(** ** What operations on values can raise *)

Lemma get_raises (v : json) (key : string) (default : json) (e : pyexn) :
  Py.get v key default = Err e -> lookup_error e = true.
Proof. unfold Py.get. by_shape v. Qed.

Lemma getitem_raises (v : json) (key : string) (e : pyexn) :
  Py.getitem v key = Err e -> lookup_error e = true.
Proof. unfold Py.getitem. by_shape v. Qed.

Lemma len_raises (v : json) (e : pyexn) :
  Py.len v = Err e -> lookup_error e = true.
Proof. unfold Py.len. by_shape v. Qed.

Lemma item0_raises (v : json) (e : pyexn) :
  Py.item0 v = Err e -> lookup_error e = true.
Proof. unfold Py.item0. by_shape v. Qed.

Lemma in_raises (key : string) (v : json) (e : pyexn) :
  Py.in_ key v = Err e -> lookup_error e = true.
Proof. unfold Py.in_. by_shape v. Qed.

Lemma addresses_len_raises (test : nat -> bool) (data : json) (e : pyexn) :
  Server.addresses_len test data = Err e -> lookup_error e = true.
Proof.
  unfold Server.addresses_len, exc_bind. intros H.
  destruct (Py.get data "addresses" JNull) eqn:G; [|injection H as <-; eauto using get_raises].
  destruct (Py.truthy a); [|discriminate].
  destruct (Py.getitem data "addresses") eqn:I; [|injection H as <-; eauto using getitem_raises].
  destruct (Py.len a0) eqn:L; [discriminate|injection H as <-; eauto using len_raises].
Qed.

Lemma first_address_raises (data : json) (e : pyexn) :
  Server.first_address data = Err e -> lookup_error e = true.
Proof.
  unfold Server.first_address, exc_bind. intros H.
  destruct (Py.getitem data "addresses") eqn:I; [|injection H as <-; eauto using getitem_raises].
  eauto using item0_raises.
Qed.

Lemma is_nonempty_list_raises (data : json) (e : pyexn) :
  Server.is_nonempty_list data = Err e -> lookup_error e = true.
Proof.
  unfold Server.is_nonempty_list. destruct (Py.truthy data && Py.is_list data); [|discriminate].
  unfold exc_bind. destruct (Py.len data) eqn:L; [discriminate|].
  intros H. injection H as <-. eauto using len_raises.
Qed.

Lemma has_coordinates_raises (parcel_data : json) (e : pyexn) :
  Server.has_coordinates parcel_data = Err e -> lookup_error e = true.
Proof.
  unfold Server.has_coordinates, exc_bind.
  destruct (Py.in_ "x" parcel_data) as [[|]|e'] eqn:X; try discriminate.
  - apply in_raises.
  - intros H. injection H as <-. eauto using in_raises.
Qed.

Lemma has_pickup_day_raises (data : json) (e : pyexn) :
  Server.has_pickup_day data = Err e -> lookup_error e = true.
Proof.
  unfold Server.has_pickup_day. destruct (Py.truthy data); [apply in_raises | discriminate].
Qed.

(** ** Stage 1 *)

Section ServerStage1.

Context {World : Type}.
Variable http_get : request -> World -> exc response * World.

Lemma search_address_retry (fuel : nat) (frag : string) (st : state World) :
  unprocessable (fst (http_get (geocode frag) (world st))) = true ->
  Server.search_address http_get (S fuel) frag st =
  Server.search_address http_get fuel (Server.without_last_piece frag)
    (State (snd (http_get (geocode frag) (world st)))
           (calls st ++ [geocode frag]) (logs st ++ [retry_warning])).
Proof.
  intros H. simpl Server.search_address. run_step.
  fold (geocode frag).
  destruct (http_get (geocode frag) (world st)) as [[r|e] w]; simpl in *.
  - destruct (Server.is_success (status_code r)) eqn:S.
    + destruct (body r) as [data|e]; [discriminate|].
      destruct e; try discriminate. simpl. rewrite H. reflexivity.
    + simpl. rewrite H. reflexivity.
  - destruct e; try discriminate. rewrite H. reflexivity.
Qed.

Lemma search_address_settles (fuel : nat) (frag : string) (st : state World) :
  unprocessable (fst (http_get (geocode frag) (world st))) = false ->
  exists v l,
    Server.search_address http_get (S fuel) frag st =
    (Returns v, State (snd (http_get (geocode frag) (world st)))
                      (calls st ++ [geocode frag]) (logs st ++ l)).
Proof.
  intros H. simpl Server.search_address. run_step.
  fold (geocode frag).
  destruct (http_get (geocode frag) (world st)) as [[r|e] w]; simpl in *.
  - destruct (Server.is_success (status_code r)) eqn:S; simpl.
    + destruct (body r) as [data|e]; simpl.
      * destruct (Server.addresses_len (Nat.eqb 1) data) as [[|]|e1] eqn:One; simpl.
        -- destruct (Server.first_address data) as [a|e1] eqn:First; simpl.
           ++ exists a, []. now rewrite app_nil_r.
           ++ apply first_address_raises in First.
              destruct e1; try discriminate; eexists _, [_]; reflexivity.
        -- destruct (Server.addresses_len (Nat.ltb 1) data) as [[|]|e2] eqn:Many; simpl.
           ++ destruct (Server.first_address data) as [a|e1] eqn:First; simpl.
              ** eexists _, [_]. reflexivity.
              ** apply first_address_raises in First.
                 destruct e1; try discriminate;
                   simpl; eexists _, [_; _]; rewrite <- app_assoc; reflexivity.
           ++ eexists _, [_]. reflexivity.
           ++ apply addresses_len_raises in Many.
              destruct e2; try discriminate; eexists _, [_]; reflexivity.
        -- apply addresses_len_raises in One.
           destruct e1; try discriminate; eexists _, [_]; reflexivity.
      * destruct e; try (eexists _, [_]; reflexivity).
        rewrite H. eexists _, [_]. reflexivity.
    + rewrite H. eexists _, [_]. reflexivity.
  - destruct e; try (eexists _, [_]; reflexivity).
    rewrite H. eexists _, [_]. reflexivity.
Qed.

End ServerStage1.

Section ServerStage1Fuel.

Context {World : Type}.
Variable http_get : request -> World -> exc response * World.

Lemma search_address_settled_fuel (fuel : nat) (frag : string) (st : state World) :
  unprocessable (fst (http_get (geocode frag) (world st))) = false ->
  Server.search_address http_get (S fuel) frag st = Server.search_address http_get 1 frag st.
Proof.
  intros H. simpl Server.search_address. run_step.
  fold (geocode frag).
  destruct (http_get (geocode frag) (world st)) as [[r|e] w]; simpl in *.
  - destruct (Server.is_success (status_code r)) eqn:S; simpl.
    + destruct (body r) as [data|e]; simpl.
      * destruct (Server.addresses_len (Nat.eqb 1) data) as [[|]|e1] eqn:One; simpl.
        -- destruct (Server.first_address data) as [a|e1] eqn:First; simpl; [reflexivity|].
           apply first_address_raises in First. destruct e1; try discriminate; reflexivity.
        -- destruct (Server.addresses_len (Nat.ltb 1) data) as [[|]|e2] eqn:Many; simpl.
           ++ destruct (Server.first_address data) as [a|e1] eqn:First; simpl; [reflexivity|].
              apply first_address_raises in First. destruct e1; try discriminate; reflexivity.
           ++ reflexivity.
           ++ apply addresses_len_raises in Many. destruct e2; try discriminate; reflexivity.
        -- apply addresses_len_raises in One. destruct e1; try discriminate; reflexivity.
      * destruct e; try reflexivity. now rewrite H.
    + now rewrite H.
  - destruct e; try reflexivity. now rewrite H.
Qed.

(** More fuel does not change a result. *)
Lemma search_address_more_fuel (fuel : nat) :
  forall (frag : string) (st st' : state World) (v : json),
    Server.search_address http_get fuel frag st = (Returns v, st') ->
    forall fuel', fuel <= fuel' ->
    Server.search_address http_get fuel' frag st = (Returns v, st').
Proof.
  induction fuel as [|fuel IH]; intros frag st st' v H fuel' Hle; [discriminate|].
  destruct fuel' as [|fuel']; [lia|].
  destruct (unprocessable (fst (http_get (geocode frag) (world st)))) eqn:U.
  - rewrite search_address_retry in H |- * by assumption.
    apply IH with (fuel' := fuel') in H; [assumption | lia].
  - rewrite search_address_settled_fuel in H |- * by assumption. assumption.
Qed.

End ServerStage1Fuel.

Section ServerStage1Termination.

Context {World : Type}.
Variable http_get : request -> World -> exc response * World.

(** Where the service never finds the empty fragment unprocessable, the
    retry recursion ends: Stage 1 returns within one request per piece of
    the fragment and one more for the empty fragment. *)
Lemma search_address_returns :
  (forall w, unprocessable (fst (http_get (geocode EmptyString) w)) = false) ->
  forall (n : nat) (frag : string) (st : state World) (fuel : nat),
    pieces frag <= n -> n < fuel ->
    exists v st',
      Server.search_address http_get fuel frag st = (Returns v, st') /\
      List.length (calls st') <= List.length (calls st) + S n.
Proof.
  intros Hempty. induction n as [|n IH]; intros frag st fuel Hp Hf.
  - pose proof (pieces_positive frag). lia.
  - destruct fuel as [|fuel]; [lia|].
    destruct (unprocessable (fst (http_get (geocode frag) (world st)))) eqn:U.
    + rewrite search_address_retry by assumption.
      destruct n as [|n].
      * rewrite without_last_piece_one_piece by assumption.
        destruct fuel as [|fuel]; [lia|].
        destruct (search_address_settles http_get fuel EmptyString
                    (State (snd (http_get (geocode frag) (world st)))
                           (calls st ++ [geocode frag]) (logs st ++ [retry_warning])))
          as (v & l & E); [apply Hempty|].
        rewrite E. eexists _, _. split; [reflexivity|].
        simpl. rewrite !length_app. simpl. lia.
      * edestruct (IH (Server.without_last_piece frag)
                    (State (snd (http_get (geocode frag) (world st)))
                           (calls st ++ [geocode frag]) (logs st ++ [retry_warning])) fuel)
          as (v & st' & E & L); [|lia|].
        -- destruct (le_lt_dec 2 (pieces frag)) as [H2|H2].
           ++ rewrite pieces_without_last_piece by assumption. lia.
           ++ rewrite without_last_piece_one_piece by lia. simpl. unfold pieces. simpl. lia.
        -- rewrite E. eexists _, _. split; [reflexivity|].
           simpl in L. rewrite length_app in L. simpl in L. lia.
    + destruct (search_address_settles http_get fuel frag st U) as (v & l & E).
      rewrite E. eexists _, _. split; [reflexivity|].
      simpl. rewrite length_app. simpl. lia.
Qed.

End ServerStage1Termination.

(** ** Stage 1 under the recursion limit *)

Section RecursionLimitStage1.

Context {World : Type}.
Variable http_get : request -> World -> exc response * World.

(** [Server.search_address] is the same [try] with the same clauses. *)
Lemma search_address_unfolds (fuel : nat) (frag : string) :
  Server.search_address http_get (S fuel) frag =
  try_except (RecursionLimit.attempt http_get frag)
    (RecursionLimit.on_exception
       (Server.search_address http_get fuel (Server.without_last_piece frag))).
Proof. reflexivity. Qed.

Lemma bounded_search_address_retry (depth : nat) (frag : string) (st : state World) :
  unprocessable (fst (http_get (geocode frag) (world st))) = true ->
  RecursionLimit.search_address http_get (S depth) frag st =
  RecursionLimit.search_address http_get depth (Server.without_last_piece frag)
    (State (snd (http_get (geocode frag) (world st)))
           (calls st ++ [geocode frag]) (logs st ++ [retry_warning])).
Proof.
  intros H. simpl RecursionLimit.search_address.
  unfold RecursionLimit.attempt, RecursionLimit.on_exception. run_step.
  fold (geocode frag).
  destruct (http_get (geocode frag) (world st)) as [[r|e] w]; simpl in *.
  - destruct (Server.is_success (status_code r)) eqn:S.
    + destruct (body r) as [data|e]; [discriminate|].
      destruct e; try discriminate. simpl. rewrite H. reflexivity.
    + simpl. rewrite H. reflexivity.
  - destruct e; try discriminate. rewrite H. reflexivity.
Qed.


(** At the bound: one record, None, and no request. *)
Lemma bounded_search_address_at_the_bound (frag : string) (st : state World) :
  RecursionLimit.search_address http_get 0 frag st =
  (Returns JNull, logged recursion_error st).
Proof. reflexivity. Qed.



End RecursionLimitStage1.

(** On the empty fragment, a service that keeps answering 422 gets one
    request at every level of the recursion. *)
Lemma persistent_422_from (fuel : nat) :
  forall st : state unit,
    snd (Server.search_address (stateless always_422) fuel EmptyString st) =
    State tt (calls st ++ repeat (geocode EmptyString) fuel)
             (logs st ++ repeat retry_warning fuel).
Proof.
  induction fuel as [|fuel IH]; intros [[] c l].
  - simpl. now rewrite !app_nil_r.
  - rewrite search_address_retry by reflexivity.
    change (Server.without_last_piece EmptyString) with EmptyString.
    rewrite IH. simpl. now rewrite <- !app_assoc.
Qed.

Lemma bounded_persistent_422_from (depth : nat) :
  forall st : state unit,
    RecursionLimit.search_address (stateless always_422) depth EmptyString st =
    (Returns JNull,
     State tt (calls st ++ repeat (geocode EmptyString) depth)
              (logs st ++ repeat retry_warning depth ++ [recursion_error])).
Proof.
  induction depth as [|depth IH]; intros [[] c l].
  - rewrite bounded_search_address_at_the_bound. unfold logged. simpl.
    now rewrite app_nil_r.
  - rewrite bounded_search_address_retry by reflexivity.
    change (Server.without_last_piece EmptyString) with EmptyString.
    rewrite IH. simpl. now rewrite <- !app_assoc.
Qed.

(** Whatever the fragment, such a service gets as many requests as the
    bound allows before Stage 1 returns None. *)
Lemma bounded_persistent_422_requests (depth : nat) :
  forall (frag : string) (st : state unit),
    fst (RecursionLimit.search_address (stateless always_422) depth frag st) = Returns JNull /\
    List.length (calls (snd (RecursionLimit.search_address (stateless always_422) depth frag st)))
    = List.length (calls st) + depth.
Proof.
  induction depth as [|depth IH]; intros frag st.
  - rewrite bounded_search_address_at_the_bound. simpl. split; [reflexivity | lia].
  - rewrite bounded_search_address_retry by reflexivity.
    destruct (IH (Server.without_last_piece frag)
                (State (snd (stateless always_422 (geocode frag) (world st)))
                       (calls st ++ [geocode frag]) (logs st ++ [retry_warning])))
      as [R L].
    split; [exact R|]. rewrite L. simpl. rewrite length_app. simpl. lia.
Qed.

(** C7, at the failing input: the 422 handler of server.py has no base
    case.  On the empty fragment, which has one piece, a service that keeps
    answering 422 gets one more request for the empty fragment at every
    level of the recursion.  The depth is bounded by the recursion limit
    of the interpreter only: cut there at any depth, Stage 1 has issued
    that many requests, for the empty fragment as for any other, before it
    returns None. *)
Theorem C7_retry_unbounded_on_empty_fragment :
  pieces EmptyString = 1 /\
  (forall fuel : nat,
     snd (Server.search_address (stateless always_422) fuel EmptyString fresh) =
     State tt (repeat (geocode EmptyString) fuel) (repeat retry_warning fuel)) /\
  (forall depth : nat,
     RecursionLimit.search_address (stateless always_422) depth EmptyString fresh =
     (Returns JNull,
      State tt (repeat (geocode EmptyString) depth)
               (repeat retry_warning depth ++ [recursion_error]))) /\
  (forall (depth : nat) (address_fragment : string),
     fst (RecursionLimit.search_address (stateless always_422) depth address_fragment fresh) =
       Returns JNull /\
     List.length
       (calls (snd (RecursionLimit.search_address (stateless always_422) depth
                      address_fragment fresh))) = depth).
Proof.
  split; [reflexivity|]. split; [|split].
  - intros fuel. apply (persistent_422_from fuel fresh).
  - intros depth. apply (bounded_persistent_422_from depth fresh).
  - intros depth address_fragment.
    apply (bounded_persistent_422_requests depth address_fragment fresh).
Qed.

Section ServerStage1Calls.

Context {World : Type}.
Variable http_get : request -> World -> exc response * World.

(** Stage 1 talks to the geocoding service only. *)
Lemma search_address_calls (fuel : nat) :
  forall (frag : string) (st : state World),
  exists rest,
    calls (snd (Server.search_address http_get fuel frag st)) = (calls st ++ rest)%list /\
    Forall (fun req => url req = Server.SEARCH_GIS_ADDRESS_URL) rest.
Proof.
  induction fuel as [|fuel IH]; intros frag st.
  - exists []. simpl. now rewrite app_nil_r.
  - destruct (unprocessable (fst (http_get (geocode frag) (world st)))) eqn:U.
    + rewrite search_address_retry by assumption.
      destruct (IH (Server.without_last_piece frag)
                  (State (snd (http_get (geocode frag) (world st)))
                         (calls st ++ [geocode frag]) (logs st ++ [retry_warning])))
        as (rest & E & F).
      exists (geocode frag :: rest). rewrite E. simpl. rewrite <- app_assoc.
      split; [reflexivity | now constructor].
    + destruct (search_address_settles http_get fuel frag st U) as (v & l & E).
      rewrite E. exists [geocode frag]. split; [reflexivity | now repeat constructor].
Qed.

(** The first request of a run of Stage 1 asks for the fragment itself. *)
Lemma search_address_first_call (fuel : nat) (frag : string) (st : state World) :
  exists rest,
    calls (snd (Server.search_address http_get (S fuel) frag st)) =
    (calls st ++ geocode frag :: rest)%list.
Proof.
  destruct (unprocessable (fst (http_get (geocode frag) (world st)))) eqn:U.
  - rewrite search_address_retry by assumption.
    destruct (search_address_calls fuel (Server.without_last_piece frag)
                (State (snd (http_get (geocode frag) (world st)))
                       (calls st ++ [geocode frag]) (logs st ++ [retry_warning])))
      as (rest & E & _).
    exists rest. rewrite E. simpl. now rewrite <- app_assoc.
  - destruct (search_address_settles http_get fuel frag st U) as (v & l & E).
    rewrite E. now exists [].
Qed.

(** C2, as the code has it: when the geocoding call for a query
    [front ++ " " ++ last], whose trailing piece [last] holds no space,
    is answered with status 422, server.py logs the retry and runs Stage 1
    again on [front], the query cut before its last space, and that
    request is the next one issued; indy_trash_server.py treats a 422,
    on any query, with or without a space, as any HTTP error and fails
    after its single request. *)
Theorem C2_retry_cuts_at_last_space (front last : string) (st : state World)
  (content : exc json) (w : World) :
  space_free last = true ->
  http_get (geocode (front ++ " " ++ last)) (world st) = (Ok (Response 422 content), w) ->
  let retried := State w (calls st ++ [geocode (front ++ " " ++ last)])
                         (logs st ++ [retry_warning]) in
  (forall fuel,
     Server.search_address http_get (S fuel) (front ++ " " ++ last) st =
     Server.search_address http_get fuel front retried) /\
  (forall fuel, exists rest,
     calls (snd (Server.search_address http_get (S (S fuel)) (front ++ " " ++ last) st)) =
     (calls st ++ geocode (front ++ " " ++ last) :: geocode front :: rest)%list) /\
  (forall (query : string) (st' : state World) (content' : exc json) (w' : World),
     http_get (geocode query) (world st') = (Ok (Response 422 content'), w') ->
     IndyTrashServer.search_address http_get query st' =
       (Returns JNull,
        State w' (calls st' ++ [geocode query])
                 (logs st' ++ [Log ERROR [Lit "Error calling search_gis_address API: ";
                                          Exn (HTTPStatusError 422)]]))).
Proof.
  intros Hlast Hget retried.
  assert (Hretry : forall fuel,
             Server.search_address http_get (S fuel) (front ++ " " ++ last) st =
             Server.search_address http_get fuel front retried).
  { intros fuel. rewrite search_address_retry by now rewrite Hget.
    rewrite Hget, without_last_piece_snoc by assumption. reflexivity. }
  split; [exact Hretry|]. split.
  - intros fuel. rewrite Hretry.
    destruct (search_address_first_call fuel front retried) as (rest & E).
    exists rest. rewrite E. unfold retried. simpl. now rewrite <- app_assoc.
  - intros query st' content' w' Hquery.
    unfold IndyTrashServer.search_address. run_step.
    change IndyTrashServer.SEARCH_GIS_ADDRESS_URL with Server.SEARCH_GIS_ADDRESS_URL.
    fold (geocode query). rewrite Hquery.
    reflexivity.
Qed.

End ServerStage1Calls.

Lemma C2_witness :
  space_free "St" = true /\
  Server.search_address (stateless always_422) 1 "1234 Main St" fresh =
  Server.search_address (stateless always_422) 0 "1234 Main"
    (State tt [geocode "1234 Main St"] [retry_warning]).
Proof.
  split; [reflexivity|].
  exact (proj1 (C2_retry_cuts_at_last_space (stateless always_422) "1234 Main" "St" fresh
                  (Err ValueError) tt eq_refl eq_refl) 0).
Defined.

(** C2 as stated fails: indy_trash_server.py does not retry a query of
    three tokens; server.py retries a query of one token, with the empty
    fragment; and a query of two tokens that ends in a space is retried
    with both tokens still in it. *)
Lemma C2_counterexample :
  IndyTrashServer.search_address (stateless always_422) "1234 Main St" fresh =
    (Returns JNull,
     State tt [geocode "1234 Main St"]
       [Log ERROR [Lit "Error calling search_gis_address API: "; Exn (HTTPStatusError 422)]]) /\
  calls (snd (Server.search_address (stateless always_422) 2 "Main" fresh)) =
    [geocode "Main"; geocode EmptyString] /\
  calls (snd (Server.search_address (stateless always_422) 2 "Main St " fresh)) =
    [geocode "Main St "; geocode "Main St"].
Proof. repeat split; vm_compute; reflexivity. Qed.
Lemma success_is_no_client_error (code : nat) :
  Server.is_success code = true -> Nat.leb 400 code && Nat.ltb code 600 = false.
Proof.
  unfold Server.is_success. intros H. apply andb_true_iff in H. destruct H as [_ H].
  apply Nat.leb_le in H. destruct (Nat.leb 400 code) eqn:E; [|reflexivity].
  apply Nat.leb_le in E. lia.
Qed.

Section Stage1Answers.

Context {World : Type}.
Variable http_get : request -> World -> exc response * World.

Variables (frag : string) (st : state World) (code : nat) (fields : list (string * json))
  (w : World).
Hypothesis answered :
  http_get (geocode frag) (world st) = (Ok (Response code (Ok (JObj fields))), w).
Hypothesis success : Server.is_success code = true.

Lemma search_address_no_candidate (fuel : nat) :
  Py.lookup "addresses" fields = Some (JList []) ->
  Server.search_address http_get (S fuel) frag st =
  (Returns JNull,
   State w (calls st ++ [geocode frag])
           (logs st ++ [Log ERROR [Lit "No address found for: "; Val (JStr frag)]])).
Proof.
  intros H. simpl Server.search_address. run_step. fold (geocode frag).
  rewrite answered. simpl. rewrite success. simpl.
  unfold Server.addresses_len. simpl. rewrite H. reflexivity.
Qed.

Lemma search_address_one_candidate (fuel : nat) (candidate : json) :
  Py.lookup "addresses" fields = Some (JList [candidate]) ->
  Server.search_address http_get (S fuel) frag st =
  (Returns candidate, State w (calls st ++ [geocode frag]) (logs st)).
Proof.
  intros H. simpl Server.search_address. run_step. fold (geocode frag).
  rewrite answered. simpl. rewrite success. simpl.
  unfold Server.addresses_len, Server.first_address. simpl. rewrite H. reflexivity.
Qed.

Lemma search_address_many_candidates (fuel : nat) (first second : json) (others : list json) :
  Py.lookup "addresses" fields = Some (JList (first :: second :: others)) ->
  Server.search_address http_get (S fuel) frag st =
  (Returns first,
   State w (calls st ++ [geocode frag])
           (logs st ++ [Log WARNING [Lit "Ambiguous address found for: "; Val (JStr frag)]])).
Proof.
  intros H. simpl Server.search_address. run_step. fold (geocode frag).
  rewrite answered. simpl. rewrite success. simpl.
  unfold Server.addresses_len, Server.first_address. simpl. rewrite H. reflexivity.
Qed.

Lemma indy_search_address_no_candidate :
  Py.lookup "addresses" fields = Some (JList []) ->
  IndyTrashServer.search_address http_get frag st =
  (Returns JNull,
   State w (calls st ++ [geocode frag])
           (logs st ++ [Log ERROR [Lit "No address found for: "; Val (JStr frag)]])).
Proof.
  intros H. unfold IndyTrashServer.search_address. indy_step. fold (geocode frag).
  rewrite answered. simpl. rewrite (success_is_no_client_error _ success). simpl.
  unfold IndyTrashServer.addresses_len. simpl. rewrite H. reflexivity.
Qed.

Lemma indy_search_address_one_candidate (candidate : json) :
  Py.lookup "addresses" fields = Some (JList [candidate]) ->
  IndyTrashServer.search_address http_get frag st =
  (Returns candidate, State w (calls st ++ [geocode frag]) (logs st)).
Proof.
  intros H. unfold IndyTrashServer.search_address. indy_step. fold (geocode frag).
  rewrite answered. simpl. rewrite (success_is_no_client_error _ success). simpl.
  unfold IndyTrashServer.addresses_len, IndyTrashServer.first_address. simpl.
  rewrite H. reflexivity.
Qed.

Lemma indy_search_address_many_candidates (first second : json) (others : list json) :
  Py.lookup "addresses" fields = Some (JList (first :: second :: others)) ->
  IndyTrashServer.search_address http_get frag st =
  (Returns first,
   State w (calls st ++ [geocode frag])
           (logs st ++ [Log WARNING [Lit "Ambiguous address found for: "; Val (JStr frag)]])).
Proof.
  intros H. unfold IndyTrashServer.search_address. indy_step. fold (geocode frag).
  rewrite answered. simpl. rewrite (success_is_no_client_error _ success). simpl.
  unfold IndyTrashServer.addresses_len, IndyTrashServer.first_address. simpl.
  rewrite H. reflexivity.
Qed.

End Stage1Answers.

(** ** Stage 2 *)

Lemma all_in_dict (keys : list string) (fields : list (string * json)) :
  Py.all_in keys (JObj fields) = Ok (forallb (fun key => Py.has_key key fields) keys).
Proof.
  induction keys as [|key keys IH]; [reflexivity|].
  simpl. destruct (Py.has_key key fields); [exact IH | reflexivity].
Qed.

Lemma missing_key_fails_all_in (fields : list (string * json)) (key : string) :
  In key Server.required_keys -> Py.lookup key fields = None ->
  Py.all_in Server.required_keys (JObj fields) = Ok false.
Proof.
  intros Hin Hnone. rewrite all_in_dict. f_equal.
  apply not_true_is_false. intros H. rewrite forallb_forall in H.
  specialize (H key Hin). unfold Py.has_key in H. now rewrite Hnone in H.
Qed.

Section Stage2.

Context {World : Type}.
Variable http_get : request -> World -> exc response * World.

(** C8, as the code has it: a dictionary that lacks one of the seven
    required keys makes both variants of Stage 2 return None at once; no
    request is issued, the services are left as they were and one error
    record is logged, whose text is a fixed sentence followed by the whole
    input dictionary. *)
Theorem C8_missing_key_fails_locally (fields : list (string * json)) (key : string)
  (st : state World) :
  In key ["address1"; "city"; "level"; "number"; "state"; "tag"; "zipcode"] ->
  Py.lookup key fields = None ->
  Server.get_parcel_info http_get (JObj fields) st =
    (Returns JNull,
     State (world st) (calls st) (logs st ++ [missing_keys_error (JObj fields)])) /\
  IndyTrashServer.get_parcel_info http_get (JObj fields) st =
    (Returns JNull,
     State (world st) (calls st) (logs st ++ [missing_keys_error (JObj fields)])).
Proof.
  intros Hin Hnone.
  pose proof (missing_key_fails_all_in fields key Hin Hnone) as H.
  split.
  - unfold Server.get_parcel_info, bind. now rewrite H.
  - unfold IndyTrashServer.get_parcel_info, bind.
    change IndyTrashServer.required_keys with Server.required_keys. now rewrite H.
Qed.

End Stage2.

Lemma C8_witness :
  In "tag" ["address1"; "city"; "level"; "number"; "state"; "tag"; "zipcode"] /\
  Server.get_parcel_info (stateless always_422) (JObj [("address1", JStr "1234 MAIN ST")]) fresh =
    (Returns JNull,
     State tt [] [missing_keys_error (JObj [("address1", JStr "1234 MAIN ST")])]).
Proof.
  split; [simpl; tauto|].
  exact (proj1 (C8_missing_key_fails_locally (stateless always_422)
                  [("address1", JStr "1234 MAIN ST")] "tag" fresh
                  (or_intror (or_intror (or_intror (or_intror (or_intror (or_introl eq_refl))))))
                  eq_refl)).
Defined.

(** C8 as stated fails in its last clause: for the empty dictionary the
    record that is logged reads "Missing required keys in address_details
    for parcel API call: {}" and names none of the seven missing keys. *)
Lemma C8_counterexample :
  fst (Server.get_parcel_info (stateless always_422) (JObj []) fresh) = Returns JNull /\
  calls (snd (Server.get_parcel_info (stateless always_422) (JObj []) fresh)) = [] /\
  map (render str_plain exn_plain)
      (logs (snd (Server.get_parcel_info (stateless always_422) (JObj []) fresh))) =
    ["Missing required keys in address_details for parcel API call: {}"] /\
  forallb
    (fun key =>
       negb (Py.contains key "Missing required keys in address_details for parcel API call: {}"))
    ["address1"; "city"; "level"; "number"; "state"; "tag"; "zipcode"] = true.
Proof. repeat split. Qed.
(** ** Running the monad *)

Lemma complete_dict_passes (fields : list (string * json))
  (address1 city level number state_ tag zipcode : json) :
  Py.lookup "address1" fields = Some address1 ->
  Py.lookup "city" fields = Some city ->
  Py.lookup "level" fields = Some level ->
  Py.lookup "number" fields = Some number ->
  Py.lookup "state" fields = Some state_ ->
  Py.lookup "tag" fields = Some tag ->
  Py.lookup "zipcode" fields = Some zipcode ->
  Py.all_in Server.required_keys (JObj fields) = Ok true /\
  Server.parcel_params (JObj fields) =
    Ok (params (parcel_request address1 city level number state_ tag zipcode)).
Proof.
  intros H1 H2 H3 H4 H5 H6 H7. split.
  - rewrite all_in_dict. unfold Py.has_key. simpl.
    now rewrite H1, H2, H3, H4, H5, H6, H7.
  - unfold Server.parcel_params. simpl. now rewrite H1, H2, H3, H4, H5, H6, H7.
Qed.


Section Stage2Complete.

Context {World : Type}.
Variable http_get : request -> World -> exc response * World.

Variables (fields : list (string * json))
  (address1 city level number state_ tag zipcode : json).
Hypothesis has_address1 : Py.lookup "address1" fields = Some address1.
Hypothesis has_city : Py.lookup "city" fields = Some city.
Hypothesis has_level : Py.lookup "level" fields = Some level.
Hypothesis has_number : Py.lookup "number" fields = Some number.
Hypothesis has_state : Py.lookup "state" fields = Some state_.
Hypothesis has_tag : Py.lookup "tag" fields = Some tag.
Hypothesis has_zipcode : Py.lookup "zipcode" fields = Some zipcode.

(** With the seven keys present Stage 2 issues exactly one request, with
    the seven values under the service's parameter names, and returns. *)
Lemma get_parcel_info_complete (st : state World) :
  let req := parcel_request address1 city level number state_ tag zipcode in
  exists v logged,
    Server.get_parcel_info http_get (JObj fields) st =
    (Returns v, State (snd (http_get req (world st))) (calls st ++ [req]) (logs st ++ logged)).
Proof.
  intros req.
  destruct (complete_dict_passes fields _ _ _ _ _ _ _ has_address1 has_city has_level
              has_number has_state has_tag has_zipcode) as [Hall Hparams].
  unfold Server.get_parcel_info.
  rewrite Hall, bind_lift_ok. simpl negb. cbv iota. rewrite Hparams, bind_lift_ok.
  change (Get Server.PARCEL_URL
            (params (parcel_request address1 city level number state_ tag zipcode))) with req.
  clearbody req. run_step.
  destruct (http_get req (world st)) as [[r|e] w]; simpl.
  - destruct (Server.is_success (status_code r)); simpl.
    + destruct (body r) as [data|e]; simpl.
      * destruct (Server.is_nonempty_list data) as [[|]|e] eqn:L; simpl.
        -- destruct (Py.item0 data) as [parcel_data|e] eqn:I; simpl.
           ++ destruct (Server.has_coordinates parcel_data) as [[|]|e] eqn:C; simpl.
              ** eexists _, [].  now rewrite app_nil_r.
              ** eexists _, [_]. reflexivity.
              ** apply has_coordinates_raises in C. caught e.
           ++ apply item0_raises in I. caught e.
        -- eexists _, [_]. reflexivity.
        -- apply is_nonempty_list_raises in L. caught e.
      * destruct e; eexists _, [_]; reflexivity.
    + eexists _, [_]. reflexivity.
  - destruct e; eexists _, [_]; reflexivity.
Qed.

End Stage2Complete.

Section Stage2CompleteIndy.

Context {World : Type}.
Variable http_get : request -> World -> exc response * World.

Variables (fields : list (string * json))
  (address1 city level number state_ tag zipcode : json).
Hypothesis has_address1 : Py.lookup "address1" fields = Some address1.
Hypothesis has_city : Py.lookup "city" fields = Some city.
Hypothesis has_level : Py.lookup "level" fields = Some level.
Hypothesis has_number : Py.lookup "number" fields = Some number.
Hypothesis has_state : Py.lookup "state" fields = Some state_.
Hypothesis has_tag : Py.lookup "tag" fields = Some tag.
Hypothesis has_zipcode : Py.lookup "zipcode" fields = Some zipcode.

Lemma indy_get_parcel_info_complete (st : state World) :
  let req := parcel_request address1 city level number state_ tag zipcode in
  exists v logged,
    IndyTrashServer.get_parcel_info http_get (JObj fields) st =
    (Returns v, State (snd (http_get req (world st))) (calls st ++ [req]) (logs st ++ logged)).
Proof.
  intros req.
  destruct (complete_dict_passes fields _ _ _ _ _ _ _ has_address1 has_city has_level
              has_number has_state has_tag has_zipcode) as [Hall Hparams].
  unfold IndyTrashServer.get_parcel_info. indy_names.
  rewrite Hall, bind_lift_ok. simpl negb. cbv iota. rewrite Hparams, bind_lift_ok.
  change (Get Server.PARCEL_URL
            (params (parcel_request address1 city level number state_ tag zipcode))) with req.
  clearbody req. indy_step.
  destruct (http_get req (world st)) as [[r|e] w]; simpl.
  - destruct (Nat.leb 400 (status_code r) && Nat.ltb (status_code r) 600); simpl.
    + eexists _, [_]. reflexivity.
    + destruct (body r) as [data|e]; simpl.
      * destruct (Server.is_nonempty_list data) as [[|]|e] eqn:L; simpl.
        -- destruct (Py.item0 data) as [parcel_data|e] eqn:I; simpl.
           ++ destruct (Server.has_coordinates parcel_data) as [[|]|e] eqn:C; simpl.
              ** eexists _, []. now rewrite app_nil_r.
              ** eexists _, [_]. reflexivity.
              ** apply has_coordinates_raises in C. caught e.
           ++ apply item0_raises in I. caught e.
        -- eexists _, [_]. reflexivity.
        -- apply is_nonempty_list_raises in L. caught e.
      * destruct e; eexists _, [_]; reflexivity.
  - destruct e; eexists _, [_]; reflexivity.
Qed.

End Stage2CompleteIndy.

Section Stage2Results.

Context {World : Type}.
Variable http_get : request -> World -> exc response * World.

(** Whatever Stage 2 is given and whatever the parcel service answers: a
    value it returns that is not None has passed the coordinate test. *)
Lemma get_parcel_info_located (address_details : json) (st st' : state World) (v : json) :
  Server.get_parcel_info http_get address_details st = (Returns v, st') ->
  v <> JNull ->
  Server.has_coordinates v = Ok true.
Proof.
  unfold Server.get_parcel_info.
  destruct (Py.all_in Server.required_keys address_details) as [[|]|e].
  2: { rewrite bind_lift_ok. run_step. conclude_located. }
  2: { rewrite bind_lift_err. discriminate. }
  rewrite bind_lift_ok. simpl negb. cbv iota.
  destruct (Server.parcel_params address_details) as [ps|e];
    [rewrite bind_lift_ok | rewrite bind_lift_err; discriminate].
  run_step.
  destruct (http_get (Get Server.PARCEL_URL ps) (world st)) as [[r|e] w]; simpl.
  - destruct (Server.is_success (status_code r)); simpl; [|conclude_located].
    destruct (body r) as [data|e]; simpl; [|destruct e; conclude_located].
    destruct (Server.is_nonempty_list data) as [[|]|e] eqn:L; simpl.
    + destruct (Py.item0 data) as [parcel_data|e] eqn:I; simpl.
      * destruct (Server.has_coordinates parcel_data) as [[|]|e] eqn:C; simpl.
        -- conclude_located.
        -- conclude_located.
        -- destruct e; conclude_located.
      * destruct e; conclude_located.
    + conclude_located.
    + destruct e; conclude_located.
  - destruct e; conclude_located.
Qed.

Lemma indy_get_parcel_info_located (address_details : json) (st st' : state World) (v : json) :
  IndyTrashServer.get_parcel_info http_get address_details st = (Returns v, st') ->
  v <> JNull ->
  Server.has_coordinates v = Ok true.
Proof.
  unfold IndyTrashServer.get_parcel_info. indy_names.
  destruct (Py.all_in Server.required_keys address_details) as [[|]|e].
  2: { rewrite bind_lift_ok. indy_step. conclude_located. }
  2: { rewrite bind_lift_err. discriminate. }
  rewrite bind_lift_ok. simpl negb. cbv iota.
  destruct (Server.parcel_params address_details) as [ps|e];
    [rewrite bind_lift_ok | rewrite bind_lift_err; discriminate].
  indy_step.
  destruct (http_get (Get Server.PARCEL_URL ps) (world st)) as [[r|e] w]; simpl.
  - destruct (Nat.leb 400 (status_code r) && Nat.ltb (status_code r) 600); simpl;
      [conclude_located|].
    destruct (body r) as [data|e]; simpl; [|destruct e; conclude_located].
    destruct (Server.is_nonempty_list data) as [[|]|e] eqn:L; simpl.
    + destruct (Py.item0 data) as [parcel_data|e] eqn:I; simpl.
      * destruct (Server.has_coordinates parcel_data) as [[|]|e] eqn:C; simpl.
        -- conclude_located.
        -- conclude_located.
        -- destruct e; conclude_located.
      * destruct e; conclude_located.
    + conclude_located.
    + destruct e; conclude_located.
  - destruct e; conclude_located.
Qed.

End Stage2Results.

(** ** Stage 3 *)

Lemma has_then_lacks_not (v : json) :
  Server.has_coordinates v = Ok true -> Server.lacks_coordinates v = Ok false.
Proof.
  unfold Server.has_coordinates, Server.lacks_coordinates, exc_bind.
  destruct (Py.in_ "x" v) as [[|]|]; try discriminate. simpl.
  destruct (Py.in_ "y" v) as [[|]|]; try discriminate. reflexivity.
Qed.

Lemma has_coordinates_in (v : json) :
  Server.has_coordinates v = Ok true -> Py.in_ "x" v = Ok true /\ Py.in_ "y" v = Ok true.
Proof.
  unfold Server.has_coordinates, exc_bind.
  destruct (Py.in_ "x" v) as [[|]|]; try discriminate. auto.
Qed.

Section Stage3.

Context {World : Type}.
Variable http_get : request -> World -> exc response * World.

(** A parcel dictionary with both coordinates: one request, carrying the
    two of them, and Stage 3 returns. *)
Lemma get_trash_pickup_details_located (fields : list (string * json)) (x y : json)
  (st : state World) :
  Py.lookup "x" fields = Some x -> Py.lookup "y" fields = Some y ->
  exists v logged,
    Server.get_trash_pickup_details http_get (JObj fields) st =
    (Returns v, State (snd (http_get (schedule_request x y) (world st)))
                      (calls st ++ [schedule_request x y]) (logs st ++ logged)) /\
    ~ In (missing_coordinates_error (JObj fields)) logged.
Proof.
  intros Hx Hy. unfold Server.get_trash_pickup_details.
  assert (Hl : Server.lacks_coordinates (JObj fields) = Ok false).
  { unfold Server.lacks_coordinates, Py.in_, Py.has_key. now rewrite Hx, Hy. }
  assert (Hp : Server.trash_params (JObj fields) = Ok (params (schedule_request x y))).
  { unfold Server.trash_params, Py.getitem. now rewrite Hx, Hy. }
  rewrite Hl, bind_lift_ok, Hp, bind_lift_ok.
  change (Get Server.TRASH_PICKUP_URL (params (schedule_request x y)))
    with (schedule_request x y).
  generalize (schedule_request x y) as req. intros req. run_step.
  destruct (http_get req (world st)) as [[r|e] w]; simpl.
  - destruct (Server.is_success (status_code r)); simpl.
    + destruct (body r) as [data|e]; simpl.
      * destruct (Server.has_pickup_day data) as [[|]|e] eqn:P; simpl.
        -- eexists _, []. rewrite app_nil_r. split; [reflexivity | intros []].
        -- eexists _, [_]. split; [reflexivity | intros [H|[]]; discriminate].
        -- apply has_pickup_day_raises in P.
           destruct e; try discriminate; simpl; eexists _, [_];
             (split; [reflexivity | intros [H|[]]; discriminate]).
      * destruct e; eexists _, [_]; (split; [reflexivity | intros [H|[]]; discriminate]).
    + eexists _, [_]. split; [reflexivity | intros [H|[]]; discriminate].
  - destruct e; eexists _, [_]; (split; [reflexivity | intros [H|[]]; discriminate]).
Qed.

Lemma indy_get_trash_pickup_details_located (fields : list (string * json)) (x y : json)
  (st : state World) :
  Py.lookup "x" fields = Some x -> Py.lookup "y" fields = Some y ->
  exists v logged,
    IndyTrashServer.get_trash_pickup_details http_get (JObj fields) st =
    (Returns v, State (snd (http_get (indy_schedule_request x y) (world st)))
                      (calls st ++ [indy_schedule_request x y]) (logs st ++ logged)) /\
    ~ In (missing_coordinates_error (JObj fields)) logged.
Proof.
  intros Hx Hy. unfold IndyTrashServer.get_trash_pickup_details.
  assert (Hl : IndyTrashServer.lacks_coordinates (JObj fields) = Ok false).
  { unfold IndyTrashServer.lacks_coordinates, Py.in_, Py.has_key. now rewrite Hx, Hy. }
  assert (Hp : IndyTrashServer.trash_params (JObj fields) =
               Ok (params (indy_schedule_request x y))).
  { unfold IndyTrashServer.trash_params, Py.getitem. now rewrite Hx, Hy. }
  rewrite Hl, bind_lift_ok, Hp, bind_lift_ok.
  change (Get IndyTrashServer.TRASH_PICKUP_URL (params (indy_schedule_request x y)))
    with (indy_schedule_request x y).
  generalize (indy_schedule_request x y) as req. intros req. indy_step.
  change IndyTrashServer.has_pickup_day with Server.has_pickup_day.
  destruct (http_get req (world st)) as [[r|e] w]; simpl.
  - destruct (Nat.leb 400 (status_code r) && Nat.ltb (status_code r) 600); simpl.
    + eexists _, [_]. split; [reflexivity | intros [H|[]]; discriminate].
    + destruct (body r) as [data|e]; simpl.
      * destruct (Server.has_pickup_day data) as [[|]|e] eqn:P; simpl.
        -- eexists _, []. rewrite app_nil_r. split; [reflexivity | intros []].
        -- eexists _, [_]. split; [reflexivity | intros [H|[]]; discriminate].
        -- apply has_pickup_day_raises in P.
           destruct e; try discriminate; simpl; eexists _, [_];
             (split; [reflexivity | intros [H|[]]; discriminate]).
      * destruct e; eexists _, [_]; (split; [reflexivity | intros [H|[]]; discriminate]).
  - destruct e; eexists _, [_]; (split; [reflexivity | intros [H|[]]; discriminate]).
Qed.

(** Without both coordinates in a dictionary, or on a value that is not
    a dictionary, Stage 3 ends before any request. *)
Lemma get_trash_pickup_details_local (parcel_info : json) (st : state World) :
  (forall fields, parcel_info = JObj fields ->
     Py.lookup "x" fields = None \/ Py.lookup "y" fields = None) ->
  calls (snd (Server.get_trash_pickup_details http_get parcel_info st)) = calls st /\
  calls (snd (IndyTrashServer.get_trash_pickup_details http_get parcel_info st)) = calls st.
Proof.
  intros H. unfold Server.get_trash_pickup_details, IndyTrashServer.get_trash_pickup_details.
  change IndyTrashServer.lacks_coordinates with Server.lacks_coordinates.
  destruct parcel_info as [| b | n | f | s | items | fields].
  1-4: split; reflexivity.
  - unfold Server.lacks_coordinates, exc_bind. simpl Py.in_.
    destruct (Py.contains "x" s); [destruct (Py.contains "y" s)|]; split; reflexivity.
  - unfold Server.lacks_coordinates, exc_bind. simpl Py.in_.
    destruct (existsb (Py.str_eq "x") items); [destruct (existsb (Py.str_eq "y") items)|];
      split; reflexivity.
  - unfold Server.lacks_coordinates, exc_bind, Py.in_, Py.has_key.
    destruct (H fields eq_refl) as [E|E]; rewrite E.
    + split; reflexivity.
    + destruct (Py.lookup "x" fields); split; reflexivity.
Qed.

End Stage3.

Section Stage3Claims.

Context {World : Type}.
Variable http_get : request -> World -> exc response * World.

(** C9, as the code has it: a call of Stage 3 either issues no request,
    or its argument is a dictionary with both coordinates and exactly one
    request goes to the schedule service; server.py sends the two
    parameters x and y and nothing else, indy_trash_server.py sends three:
    the fixed __workflow_id, then x and y. *)
Theorem C9_schedule_request_parameters (parcel_info : json) (st : state World) :
  (calls (snd (Server.get_trash_pickup_details http_get parcel_info st)) = calls st /\
   calls (snd (IndyTrashServer.get_trash_pickup_details http_get parcel_info st)) = calls st)
  \/
  (exists fields x y,
     parcel_info = JObj fields /\
     Py.lookup "x" fields = Some x /\ Py.lookup "y" fields = Some y /\
     calls (snd (Server.get_trash_pickup_details http_get parcel_info st)) =
       (calls st ++ [Get "https://www.indy.gov/api/v1/indy_trash_pickup"
                         [("x", x); ("y", y)]])%list /\
     calls (snd (IndyTrashServer.get_trash_pickup_details http_get parcel_info st)) =
       (calls st ++ [Get "https://www.indy.gov/api/v1/indy_trash_pickup"
                         [("__workflow_id", JStr "c2fdbada-0999-4a55-ad3e-8552b717c1da");
                          ("x", x); ("y", y)]])%list).
Proof.
  destruct parcel_info as [| b | n | f | s | items | fields].
  1-6: left; apply get_trash_pickup_details_local; discriminate.
  destruct (Py.lookup "x" fields) as [x|] eqn:Hx.
  2: { left. apply get_trash_pickup_details_local. intros ? [= <-]. now left. }
  destruct (Py.lookup "y" fields) as [y|] eqn:Hy.
  2: { left. apply get_trash_pickup_details_local. intros ? [= <-]. now right. }
  right. exists fields, x, y. repeat split; try assumption.
  - destruct (get_trash_pickup_details_located http_get fields x y st Hx Hy)
      as (v & l & E & _).
    now rewrite E.
  - destruct (indy_get_trash_pickup_details_located http_get fields x y st Hx Hy)
      as (v & l & E & _).
    now rewrite E.
Qed.

(** Stage 3 on a value that passes its coordinate test never logs the
    missing-coordinates error. *)
Lemma validation_branch_not_taken (v : json) (st : state World) :
  Server.lacks_coordinates v = Ok false ->
  (exists logged,
     logs (snd (Server.get_trash_pickup_details http_get v st)) = (logs st ++ logged)%list /\
     ~ In (missing_coordinates_error v) logged) /\
  (exists logged,
     logs (snd (IndyTrashServer.get_trash_pickup_details http_get v st)) =
       (logs st ++ logged)%list /\
     ~ In (missing_coordinates_error v) logged).
Proof.
  intros Hl.
  destruct v as [| b | n | f | s | items | fields]; try discriminate.
  - unfold Server.get_trash_pickup_details, IndyTrashServer.get_trash_pickup_details.
    change IndyTrashServer.lacks_coordinates with Server.lacks_coordinates.
    rewrite Hl. split; exists []; simpl; rewrite app_nil_r; auto.
  - unfold Server.get_trash_pickup_details, IndyTrashServer.get_trash_pickup_details.
    change IndyTrashServer.lacks_coordinates with Server.lacks_coordinates.
    rewrite Hl. split; exists []; simpl; rewrite app_nil_r; auto.
  - assert (exists x y, Py.lookup "x" fields = Some x /\ Py.lookup "y" fields = Some y)
      as (x & y & Hx & Hy).
    { unfold Server.lacks_coordinates, exc_bind, Py.in_, Py.has_key in Hl.
      destruct (Py.lookup "x" fields) as [x|]; [|discriminate].
      destruct (Py.lookup "y" fields) as [y|]; [|discriminate]. eauto. }
    split.
    + destruct (get_trash_pickup_details_located http_get fields x y st Hx Hy)
        as (v & l & E & N).
      exists l. now rewrite E.
    + destruct (indy_get_trash_pickup_details_located http_get fields x y st Hx Hy)
        as (v & l & E & N).
      exists l. now rewrite E.
Qed.

(** C10: a value that Stage 2 returns and that is not None passes the
    test ["x" in v and "y" in v]; a dictionary among them has both keys.
    Stage 3 run on it finds its guard ["x" not in v or "y" not in v] false
    and does not log the missing-coordinates error, from whatever state. *)
Theorem C10_returned_parcel_has_coordinates (address_details v : json)
  (st st' : state World) :
  Server.get_parcel_info http_get address_details st = (Returns v, st') \/
  IndyTrashServer.get_parcel_info http_get address_details st = (Returns v, st') ->
  v <> JNull ->
  (Py.in_ "x" v = Ok true /\ Py.in_ "y" v = Ok true) /\
  (forall fields, v = JObj fields ->
     Py.lookup "x" fields <> None /\ Py.lookup "y" fields <> None) /\
  (Server.lacks_coordinates v = Ok false /\ IndyTrashServer.lacks_coordinates v = Ok false) /\
  forall st2 : state World,
    (exists logged,
       logs (snd (Server.get_trash_pickup_details http_get v st2)) =
         (logs st2 ++ logged)%list /\
       ~ In (missing_coordinates_error v) logged) /\
    (exists logged,
       logs (snd (IndyTrashServer.get_trash_pickup_details http_get v st2)) =
         (logs st2 ++ logged)%list /\
       ~ In (missing_coordinates_error v) logged).
Proof.
  intros Hrun Hsome.
  assert (Hhas : Server.has_coordinates v = Ok true).
  { destruct Hrun as [H|H];
      eauto using get_parcel_info_located, indy_get_parcel_info_located. }
  pose proof (has_then_lacks_not v Hhas) as Hl.
  pose proof (has_coordinates_in v Hhas) as [Hx Hy].
  repeat split; try assumption.
  - subst v. unfold Py.in_, Py.has_key in Hx. intros E. now rewrite E in Hx.
  - subst v. unfold Py.in_, Py.has_key in Hy. intros E. now rewrite E in Hy.
  - apply validation_branch_not_taken; assumption.
  - apply validation_branch_not_taken; assumption.
Qed.

End Stage3Claims.

(** C9 as stated fails on indy_trash_server.py: its schedule request for
    the parcel at (10.0, 20.0) carries three parameters. *)
Lemma C9_counterexample :
  calls (snd (IndyTrashServer.get_trash_pickup_details
                (stateless (scenario JNull)) main_street_parcel fresh)) =
    [Get "https://www.indy.gov/api/v1/indy_trash_pickup"
         [("__workflow_id", JStr "c2fdbada-0999-4a55-ad3e-8552b717c1da");
          ("x", JFloat 10.0%float); ("y", JFloat 20.0%float)]].
Proof. reflexivity. Qed.

Lemma C10_witness :
  main_street_parcel <> JNull /\
  Py.in_ "x" main_street_parcel = Ok true /\ Py.in_ "y" main_street_parcel = Ok true.
Proof.
  split; [discriminate|].
  exact (proj1 (C10_returned_parcel_has_coordinates
                  (stateless (scenario JNull)) main_street main_street_parcel fresh
                  (State tt [parcel_request (JStr "1234 MAIN ST") (JStr "INDIANAPOLIS") JNull
                               (JInt 1234) (JStr "IN") (JStr "ADDRESS") (JStr "46204")] [])
                  (or_introl eq_refl)
                  (fun H : main_street_parcel = JNull =>
                     eq_ind main_street_parcel
                       (fun v => match v with JNull => False | _ => True end) I JNull H))).
Defined.

(** ** The stages on dictionaries *)

Section StagesOnDictionaries.

Context {World : Type}.
Variable http_get : request -> World -> exc response * World.



(** Stage 1 of indy_trash_server.py has no recursion: it returns after
    its single request. *)
Lemma indy_search_address_returns (frag : string) (st : state World) :
  exists a logged,
    IndyTrashServer.search_address http_get frag st =
    (Returns a, State (snd (http_get (geocode frag) (world st)))
                      (calls st ++ [geocode frag]) (logs st ++ logged)).
Proof.
  unfold IndyTrashServer.search_address. indy_step. fold (geocode frag).
  change IndyTrashServer.addresses_len with Server.addresses_len.
  change IndyTrashServer.first_address with Server.first_address.
  destruct (http_get (geocode frag) (world st)) as [[r|e] w]; simpl.
  - destruct (Nat.leb 400 (status_code r) && Nat.ltb (status_code r) 600); simpl.
    + eexists _, [_]. reflexivity.
    + destruct (body r) as [data|e]; simpl.
      * destruct (Server.addresses_len (Nat.eqb 1) data) as [[|]|e1] eqn:One; simpl.
        -- destruct (Server.first_address data) as [a|e1] eqn:First; simpl.
           ++ exists a, []. now rewrite app_nil_r.
           ++ apply first_address_raises in First. caught e1.
        -- destruct (Server.addresses_len (Nat.ltb 1) data) as [[|]|e2] eqn:Many; simpl.
           ++ destruct (Server.first_address data) as [a|e1] eqn:First; simpl.
              ** eexists _, [_]. reflexivity.
              ** apply first_address_raises in First.
                 destruct e1; try discriminate; simpl;
                   eexists _, [_; _]; rewrite <- app_assoc; reflexivity.
           ++ eexists _, [_]. reflexivity.
           ++ apply addresses_len_raises in Many. caught e2.
        -- apply addresses_len_raises in One. caught e1.
      * destruct e; eexists _, [_]; reflexivity.
  - destruct e; eexists _, [_]; reflexivity.
Qed.

End StagesOnDictionaries.

(** ** The orchestrator *)

Section Orchestrator.

Context {World : Type}.
Variable http_get : request -> World -> exc response * World.
Variable py_str : json -> string.

Variables (fuel : nat) (address : string) (st : state World).

(** How the orchestrator of server.py dispatches on what the stages
    return. *)
Lemma orchestrator_stage1_absent (a : json) (st1 : state World) :
  Server.search_address http_get fuel address (entered address st) = (Returns a, st1) ->
  Py.truthy a = false ->
  Server.get_indy_trash_day http_get py_str fuel address st =
  (Returns Server.ADDRESS_FAILURE, st1).
Proof.
  intros H1 T1. unfold entered, received in H1. unfold Server.get_indy_trash_day, bind, log.
  rewrite H1, T1. reflexivity.
Qed.

Lemma orchestrator_stage2_absent (a p : json) (st1 st2 : state World) :
  Server.search_address http_get fuel address (entered address st) = (Returns a, st1) ->
  Py.truthy a = true ->
  Server.get_parcel_info http_get a st1 = (Returns p, st2) ->
  Py.truthy p = false ->
  Server.get_indy_trash_day http_get py_str fuel address st =
  (Returns Server.PARCEL_FAILURE, st2).
Proof.
  intros H1 T1 H2 T2. unfold entered, received in H1. unfold Server.get_indy_trash_day, bind, log.
  rewrite H1, T1. cbv beta iota delta [negb].
  rewrite H2, T2. reflexivity.
Qed.

Lemma orchestrator_stage3 (a p : json) (st1 st2 : state World) :
  Server.search_address http_get fuel address (entered address st) = (Returns a, st1) ->
  Py.truthy a = true ->
  Server.get_parcel_info http_get a st1 = (Returns p, st2) ->
  Py.truthy p = true ->
  Server.get_indy_trash_day http_get py_str fuel address st =
  match Server.get_trash_pickup_details http_get p st2 with
  | (Returns t, st3) =>
      if Py.truthy t then
        match Py.get t "pickup_day" (JStr "Not specified"),
              Py.get t "heavy_trash_pickup" (JStr EmptyString) with
        | Ok pickup_day, Ok heavy_trash =>
            (Returns (Server.schedule_sentence py_str pickup_day heavy_trash),
             logged (returning address (Server.schedule_sentence py_str pickup_day heavy_trash))
                    st3)
        | Err e, _ => (Raises e, st3)
        | Ok _, Err e => (Raises e, st3)
        end
      else (Returns Server.SCHEDULE_FAILURE, st3)
  | (Raises e, st3) => (Raises e, st3)
  | (OutOfFuel, st3) => (OutOfFuel, st3)
  end.
Proof.
  intros H1 T1 H2 T2. unfold entered, received in H1. unfold Server.get_indy_trash_day, bind, log.
  rewrite H1, T1. cbv beta iota delta [negb].
  rewrite H2, T2. cbv beta iota delta [negb].
  destruct (Server.get_trash_pickup_details http_get p st2) as [[t|e|] st3]; try reflexivity.
  destruct (Py.truthy t); simpl; [|reflexivity].
  destruct (Py.get t "pickup_day" (JStr "Not specified")); simpl; [|reflexivity].
  destruct (Py.get t "heavy_trash_pickup" (JStr EmptyString)); reflexivity.
Qed.

End Orchestrator.

Section IndyOrchestrator.

Context {World : Type}.
Variable http_get : request -> World -> exc response * World.
Variable py_str : json -> string.

Variables (address : string) (st : state World).

Lemma indy_orchestrator_stage1_absent (a : json) (st1 : state World) :
  IndyTrashServer.search_address http_get address (entered address st) = (Returns a, st1) ->
  Py.truthy a = false ->
  IndyTrashServer.get_indy_trash_day http_get py_str address st =
  (Returns IndyTrashServer.ADDRESS_FAILURE, st1).
Proof.
  intros H1 T1. unfold entered, received in H1.
  unfold IndyTrashServer.get_indy_trash_day, bind, log.
  rewrite H1, T1. reflexivity.
Qed.

Lemma indy_orchestrator_stage2_absent (a p : json) (st1 st2 : state World) :
  IndyTrashServer.search_address http_get address (entered address st) = (Returns a, st1) ->
  Py.truthy a = true ->
  IndyTrashServer.get_parcel_info http_get a st1 = (Returns p, st2) ->
  Py.truthy p = false ->
  IndyTrashServer.get_indy_trash_day http_get py_str address st =
  (Returns IndyTrashServer.PARCEL_FAILURE, st2).
Proof.
  intros H1 T1 H2 T2. unfold entered, received in H1.
  unfold IndyTrashServer.get_indy_trash_day, bind, log.
  rewrite H1, T1. cbv beta iota delta [negb].
  rewrite H2, T2. reflexivity.
Qed.

Lemma indy_orchestrator_stage3 (a p : json) (st1 st2 : state World) :
  IndyTrashServer.search_address http_get address (entered address st) = (Returns a, st1) ->
  Py.truthy a = true ->
  IndyTrashServer.get_parcel_info http_get a st1 = (Returns p, st2) ->
  Py.truthy p = true ->
  IndyTrashServer.get_indy_trash_day http_get py_str address st =
  match IndyTrashServer.get_trash_pickup_details http_get p st2 with
  | (Returns t, st3) =>
      if Py.truthy t then
        match Py.get t "pickup_day" (JStr "Not specified"),
              Py.get t "heavy_trash_pickup" (JStr EmptyString) with
        | Ok pickup_day, Ok heavy_trash =>
            (Returns (Server.schedule_sentence py_str pickup_day heavy_trash),
             logged (returning address (Server.schedule_sentence py_str pickup_day heavy_trash))
                    st3)
        | Err e, _ => (Raises e, st3)
        | Ok _, Err e => (Raises e, st3)
        end
      else (Returns IndyTrashServer.SCHEDULE_FAILURE, st3)
  | (Raises e, st3) => (Raises e, st3)
  | (OutOfFuel, st3) => (OutOfFuel, st3)
  end.
Proof.
  intros H1 T1 H2 T2. unfold entered, received in H1.
  unfold IndyTrashServer.get_indy_trash_day, bind, log.
  rewrite H1, T1. cbv beta iota delta [negb].
  rewrite H2, T2. cbv beta iota delta [negb].
  destruct (IndyTrashServer.get_trash_pickup_details http_get p st2) as [[t|e|] st3];
    try reflexivity.
  destruct (Py.truthy t); simpl; [|reflexivity].
  destruct (Py.get t "pickup_day" (JStr "Not specified")); simpl; [|reflexivity].
  destruct (Py.get t "heavy_trash_pickup" (JStr EmptyString)); reflexivity.
Qed.

End IndyOrchestrator.

Section Absences.

Context {World : Type}.
Variable http_get : request -> World -> exc response * World.
Variable py_str : json -> string.

(** An absent address, however Stage 1 came to it, ends the run of
    server.py with the address-validation sentence, and the requests of
    the run all went to the geocoding service. *)
Lemma absent_address_stops_the_pipeline (fuel : nat) (address : string)
  (st st1 : state World) (a : json) :
  Server.search_address http_get fuel address (entered address st) = (Returns a, st1) ->
  Py.truthy a = false ->
  Server.get_indy_trash_day http_get py_str fuel address st =
    (Returns Server.ADDRESS_FAILURE, st1) /\
  exists rest,
    calls st1 = (calls st ++ rest)%list /\
    Forall (fun req => url req = Server.SEARCH_GIS_ADDRESS_URL) rest.
Proof.
  intros H1 T1. split; [now apply orchestrator_stage1_absent with (a := a)|].
  destruct (search_address_calls http_get fuel address (entered address st))
    as (rest & E & F).
  rewrite H1 in E. now exists rest.
Qed.

(** An absent schedule ends it with the schedule-lookup sentence. *)
Lemma orchestrator_stage3_absent (fuel : nat) (address : string)
  (st st1 st2 st3 : state World) (a p t : json) :
  Server.search_address http_get fuel address (entered address st) = (Returns a, st1) ->
  Py.truthy a = true ->
  Server.get_parcel_info http_get a st1 = (Returns p, st2) ->
  Py.truthy p = true ->
  Server.get_trash_pickup_details http_get p st2 = (Returns t, st3) ->
  Py.truthy t = false ->
  Server.get_indy_trash_day http_get py_str fuel address st =
    (Returns Server.SCHEDULE_FAILURE, st3).
Proof.
  intros H1 T1 H2 T2 H3 T3.
  rewrite (orchestrator_stage3 http_get py_str fuel address st a p st1 st2 H1 T1 H2 T2).
  now rewrite H3, T3.
Qed.

End Absences.

Section Stage1Claims.

Context {World : Type}.
Variable http_get : request -> World -> exc response * World.
Variable py_str : json -> string.

Variables (address : string) (st : state World) (code : nat)
  (fields : list (string * json)) (w : World).
Hypothesis answered :
  http_get (geocode address) (world st) = (Ok (Response code (Ok (JObj fields))), w).
Hypothesis success : Server.is_success code = true.

(** C4: when the geocoding service answers the address with an empty
    candidate list, both variants return the address-validation sentence
    and the only request of the whole run is the geocoding one. *)
Theorem C4_no_candidate_stops_the_pipeline (fuel : nat) :
  Py.lookup "addresses" fields = Some (JList []) ->
  Server.get_indy_trash_day http_get py_str (S fuel) address st =
    (Returns
       "Sorry, I couldn't validate that address. Please provide a valid Indianapolis address.",
     State w (calls st ++ [geocode address])
             (logs st ++ [received address; no_address_error address])) /\
  IndyTrashServer.get_indy_trash_day http_get py_str address st =
    (Returns
       "Sorry, I couldn't validate that address. Please provide a valid Indianapolis address.",
     State w (calls st ++ [geocode address])
             (logs st ++ [received address; no_address_error address])).
Proof.
  intros Hnone. split.
  - rewrite orchestrator_stage1_absent with (a := JNull)
      (st1 := State w (calls st ++ [geocode address])
                      (logs st ++ [received address; no_address_error address])); auto.
    rewrite search_address_no_candidate with (code := code) (fields := fields) (w := w); auto.
    unfold entered. simpl. now rewrite <- app_assoc.
  - rewrite indy_orchestrator_stage1_absent with (a := JNull)
      (st1 := State w (calls st ++ [geocode address])
                      (logs st ++ [received address; no_address_error address])); auto.
    rewrite indy_search_address_no_candidate with (code := code) (fields := fields) (w := w);
      auto.
    unfold entered. simpl. now rewrite <- app_assoc.
Qed.

(** C6: when the geocoding service answers with two candidates or more,
    Stage 1 of both variants returns the first one, as it came, after a
    warning; the value returned is the candidate, not None. *)
Theorem C6_first_of_several_candidates (fuel : nat) (first second : json)
  (others : list json) :
  Py.lookup "addresses" fields = Some (JList (first :: second :: others)) ->
  Server.search_address http_get (S fuel) address st =
    (Returns first,
     State w (calls st ++ [geocode address]) (logs st ++ [ambiguous_warning address])) /\
  IndyTrashServer.search_address http_get address st =
    (Returns first,
     State w (calls st ++ [geocode address]) (logs st ++ [ambiguous_warning address])).
Proof.
  intros Hmany. split.
  - eapply search_address_many_candidates; eauto.
  - eapply indy_search_address_many_candidates; eauto.
Qed.

End Stage1Claims.

Lemma C4_witness :
  Server.get_indy_trash_day (stateless no_candidates) str_plain 1 "1234 Main Street" fresh =
  (Returns
     "Sorry, I couldn't validate that address. Please provide a valid Indianapolis address.",
   State tt [geocode "1234 Main Street"]
     [received "1234 Main Street"; no_address_error "1234 Main Street"]).
Proof.
  exact (proj1 (C4_no_candidate_stops_the_pipeline (stateless no_candidates) str_plain
                  "1234 Main Street" fresh 200 [("addresses", JList [])] tt
                  eq_refl eq_refl 0 eq_refl)).
Defined.

Lemma C6_witness :
  Server.search_address (stateless two_candidates) 1 "1234 Main" fresh =
  (Returns main_street,
   State tt [geocode "1234 Main"] [ambiguous_warning "1234 Main"]).
Proof.
  exact (proj1 (C6_first_of_several_candidates (stateless two_candidates)
                  "1234 Main" fresh 200 [("addresses", JList [main_street; main_avenue])] tt
                  eq_refl eq_refl 0 main_street main_avenue [] eq_refl)).
Defined.

Section PipelineCalls.

Context {World : Type}.
Variable http_get : request -> World -> exc response * World.
Variable py_str : json -> string.

(** Stage 3 talks to the schedule service only, at most once. *)
Lemma get_trash_pickup_details_calls (parcel_info : json) (st : state World) :
  (exists rest,
     calls (snd (Server.get_trash_pickup_details http_get parcel_info st)) =
       (calls st ++ rest)%list /\ Forall to_schedule_service rest) /\
  (exists rest,
     calls (snd (IndyTrashServer.get_trash_pickup_details http_get parcel_info st)) =
       (calls st ++ rest)%list /\ Forall to_schedule_service rest).
Proof.
  assert (Hlocal :
    (forall fields, parcel_info = JObj fields ->
       Py.lookup "x" fields = None \/ Py.lookup "y" fields = None) ->
    (exists rest,
       calls (snd (Server.get_trash_pickup_details http_get parcel_info st)) =
         (calls st ++ rest)%list /\ Forall to_schedule_service rest) /\
    (exists rest,
       calls (snd (IndyTrashServer.get_trash_pickup_details http_get parcel_info st)) =
         (calls st ++ rest)%list /\ Forall to_schedule_service rest)).
  { intros H. destruct (get_trash_pickup_details_local http_get parcel_info st H) as [E1 E2].
    split; exists []; rewrite app_nil_r; auto. }
  destruct parcel_info as [| b | n | f | s | items | fields];
    try (apply Hlocal; discriminate).
  destruct (Py.lookup "x" fields) as [x|] eqn:Hx.
  2: { apply Hlocal. intros ? [= <-]. now left. }
  destruct (Py.lookup "y" fields) as [y|] eqn:Hy.
  2: { apply Hlocal. intros ? [= <-]. now right. }
  split.
  - destruct (get_trash_pickup_details_located http_get fields x y st Hx Hy)
      as (v & l & E & _).
    rewrite E. exists [schedule_request x y]. split; [reflexivity|].
    repeat constructor.
  - destruct (indy_get_trash_pickup_details_located http_get fields x y st Hx Hy)
      as (v & l & E & _).
    rewrite E. exists [indy_schedule_request x y]. split; [reflexivity|].
    repeat constructor.
Qed.

Variables (address : string) (st : state World) (code : nat)
  (fields : list (string * json)) (w : World).
Hypothesis answered :
  http_get (geocode address) (world st) = (Ok (Response code (Ok (JObj fields))), w).
Hypothesis success : Server.is_success code = true.

Variables (candidate : list (string * json))
  (address1 city level number state_ tag zipcode : json).
Hypothesis one_candidate : Py.lookup "addresses" fields = Some (JList [JObj candidate]).
Hypothesis has_address1 : Py.lookup "address1" candidate = Some address1.
Hypothesis has_city : Py.lookup "city" candidate = Some city.
Hypothesis has_level : Py.lookup "level" candidate = Some level.
Hypothesis has_number : Py.lookup "number" candidate = Some number.
Hypothesis has_state : Py.lookup "state" candidate = Some state_.
Hypothesis has_tag : Py.lookup "tag" candidate = Some tag.
Hypothesis has_zipcode : Py.lookup "zipcode" candidate = Some zipcode.

Lemma candidate_is_truthy : Py.truthy (JObj candidate) = true.
Proof. destruct candidate; [discriminate | reflexivity]. Qed.

Lemma server_calls_with_one_candidate (fuel : nat) :
  exists rest,
    calls (snd (Server.get_indy_trash_day http_get py_str (S fuel) address st)) =
      (calls st ++ geocode address
         :: parcel_request address1 city level number state_ tag zipcode :: rest)%list /\
    Forall to_schedule_service rest.
Proof.
  pose proof (search_address_one_candidate http_get address (entered address st) code fields w
                answered success fuel (JObj candidate) one_candidate) as H1.
  destruct (get_parcel_info_complete http_get candidate _ _ _ _ _ _ _ has_address1 has_city
              has_level has_number has_state has_tag has_zipcode
              (State w (calls (entered address st) ++ [geocode address])
                       (logs (entered address st))))
    as (p & l & H2).
  simpl in H2.
  destruct (Py.truthy p) eqn:T2.
  - rewrite (orchestrator_stage3 http_get py_str (S fuel) address st _ _ _ _ H1
               candidate_is_truthy H2 T2).
    match goal with
    | |- context [Server.get_trash_pickup_details http_get p ?s] =>
        destruct (proj1 (get_trash_pickup_details_calls p s)) as (rest & E & F);
        destruct (Server.get_trash_pickup_details http_get p s) as [[t|e|] st3]
    end; simpl in E.
    + exists rest. split; [|assumption].
      destruct (Py.truthy t); simpl;
        [destruct (Py.get t "pickup_day" (JStr "Not specified"));
         [destruct (Py.get t "heavy_trash_pickup" (JStr EmptyString))|]|];
        simpl; rewrite E, <- !app_assoc; reflexivity.
    + exists rest. split; [|assumption]. simpl. rewrite E, <- !app_assoc. reflexivity.
    + exists rest. split; [|assumption]. simpl. rewrite E, <- !app_assoc. reflexivity.
  - rewrite (orchestrator_stage2_absent http_get py_str (S fuel) address st _ _ _ _ H1
               candidate_is_truthy H2 T2).
    exists []. split; [|constructor]. simpl. rewrite <- app_assoc. reflexivity.
Qed.

Lemma indy_calls_with_one_candidate :
  exists rest,
    calls (snd (IndyTrashServer.get_indy_trash_day http_get py_str address st)) =
      (calls st ++ geocode address
         :: parcel_request address1 city level number state_ tag zipcode :: rest)%list /\
    Forall to_schedule_service rest.
Proof.
  pose proof (indy_search_address_one_candidate http_get address (entered address st) code
                fields w answered success (JObj candidate) one_candidate) as H1.
  destruct (indy_get_parcel_info_complete http_get candidate _ _ _ _ _ _ _ has_address1
              has_city has_level has_number has_state has_tag has_zipcode
              (State w (calls (entered address st) ++ [geocode address])
                       (logs (entered address st))))
    as (p & l & H2).
  simpl in H2.
  destruct (Py.truthy p) eqn:T2.
  - rewrite (indy_orchestrator_stage3 http_get py_str address st _ _ _ _ H1
               candidate_is_truthy H2 T2).
    match goal with
    | |- context [IndyTrashServer.get_trash_pickup_details http_get p ?s] =>
        destruct (proj2 (get_trash_pickup_details_calls p s)) as (rest & E & F);
        destruct (IndyTrashServer.get_trash_pickup_details http_get p s) as [[t|e|] st3]
    end; simpl in E.
    + exists rest. split; [|assumption].
      destruct (Py.truthy t); simpl;
        [destruct (Py.get t "pickup_day" (JStr "Not specified"));
         [destruct (Py.get t "heavy_trash_pickup" (JStr EmptyString))|]|];
        simpl; rewrite E, <- !app_assoc; reflexivity.
    + exists rest. split; [|assumption]. simpl. rewrite E, <- !app_assoc. reflexivity.
    + exists rest. split; [|assumption]. simpl. rewrite E, <- !app_assoc. reflexivity.
  - rewrite (indy_orchestrator_stage2_absent http_get py_str address st _ _ _ _ H1
               candidate_is_truthy H2 T2).
    exists []. split; [|constructor]. simpl. rewrite <- app_assoc. reflexivity.
Qed.

(** C5: when the geocoding service answers the address with exactly one
    candidate that has the seven fields, the second request of the run,
    in both variants, is the parcel request whose parameters are those
    seven values, as they came, under the names address1, city, level,
    number, state, tag_id and zipcode; whatever else is requested
    afterwards goes to the schedule service. *)
Theorem C5_candidate_fields_reach_parcel_service (fuel : nat) :
  (exists rest,
     calls (snd (Server.get_indy_trash_day http_get py_str (S fuel) address st)) =
       (calls st ++ geocode address
          :: Get "https://www.indy.gov/api/v1/parcel"
               [("address1", address1); ("city", city); ("level", level);
                ("number", number); ("state", state_); ("tag_id", tag);
                ("zipcode", zipcode)]
          :: rest)%list /\
     Forall to_schedule_service rest) /\
  (exists rest,
     calls (snd (IndyTrashServer.get_indy_trash_day http_get py_str address st)) =
       (calls st ++ geocode address
          :: Get "https://www.indy.gov/api/v1/parcel"
               [("address1", address1); ("city", city); ("level", level);
                ("number", number); ("state", state_); ("tag_id", tag);
                ("zipcode", zipcode)]
          :: rest)%list /\
     Forall to_schedule_service rest).
Proof.
  split; [apply server_calls_with_one_candidate | apply indy_calls_with_one_candidate].
Qed.

End PipelineCalls.

Lemma C5_witness :
  exists rest,
    calls (snd (Server.get_indy_trash_day (stateless (scenario (JObj tuesday_with_heavy)))
                  str_plain 1 "1234 Main Street" fresh)) =
      geocode "1234 Main Street"
        :: Get "https://www.indy.gov/api/v1/parcel"
             [("address1", JStr "1234 MAIN ST"); ("city", JStr "INDIANAPOLIS");
              ("level", JNull); ("number", JInt 1234); ("state", JStr "IN");
              ("tag_id", JStr "ADDRESS"); ("zipcode", JStr "46204")]
        :: rest /\
    Forall to_schedule_service rest.
Proof.
  exact (proj1 (C5_candidate_fields_reach_parcel_service
                  (stateless (scenario (JObj tuesday_with_heavy))) str_plain
                  "1234 Main Street" fresh 200 [("addresses", JList [main_street])] tt
                  eq_refl eq_refl main_street_fields
                  (JStr "1234 MAIN ST") (JStr "INDIANAPOLIS") JNull (JInt 1234) (JStr "IN")
                  (JStr "ADDRESS") (JStr "46204")
                  eq_refl eq_refl eq_refl eq_refl eq_refl eq_refl eq_refl eq_refl 0)).
Defined.

Section Formatting.

Context {World : Type}.
Variable http_get : request -> World -> exc response * World.
Variable py_str : json -> string.

Variables (schedule : list (string * json)) (day heavy : string).
Hypothesis has_day : Py.lookup "pickup_day" schedule = Some (JStr day).
Hypothesis heavy_field :
  Py.lookup "heavy_trash_pickup" schedule = Some (JStr heavy) \/
  (Py.lookup "heavy_trash_pickup" schedule = None /\ heavy = EmptyString).

Lemma schedule_is_truthy : Py.truthy (JObj schedule) = true.
Proof. destruct schedule; [discriminate | reflexivity]. Qed.

Lemma schedule_fields :
  Py.get (JObj schedule) "pickup_day" (JStr "Not specified") = Ok (JStr day) /\
  Py.get (JObj schedule) "heavy_trash_pickup" (JStr EmptyString) = Ok (JStr heavy).
Proof.
  unfold Py.get. rewrite has_day. split; [reflexivity|].
  destruct heavy_field as [E|[E ->]]; now rewrite E.
Qed.

Lemma schedule_sentence_of_strings :
  Server.schedule_sentence py_str (JStr day) (JStr heavy) =
  if String.eqb heavy EmptyString then "Your regular trash pickup day is " ++ day ++ "."
  else "Your regular trash pickup day is " ++ day ++ "." ++
       " Heavy trash pickup: " ++ heavy ++ ".".
Proof.
  unfold Server.schedule_sentence. simpl Py.truthy. simpl Py.format.
  destruct (String.eqb heavy EmptyString); simpl negb; cbv iota; [reflexivity|].
  now rewrite !append_assoc.
Qed.

(** C3: when the three stages succeed and Stage 3 returns a schedule
    whose pickup day is the string [day] and whose heavy-trash field is
    the string [heavy] (or is absent, which counts as empty), both
    variants return "Your regular trash pickup day is [day]." followed,
    if and only if [heavy] is not empty, by " Heavy trash pickup:
    [heavy]."; for Tuesday and 3rd Wednesday, and for Tuesday alone, these
    are the two sentences of the specification. *)
Theorem C3_schedule_sentence :
  let out :=
    if String.eqb heavy EmptyString then "Your regular trash pickup day is " ++ day ++ "."
    else "Your regular trash pickup day is " ++ day ++ "." ++
         " Heavy trash pickup: " ++ heavy ++ "." in
  (forall fuel address (st st1 st2 st3 : state World) a p,
     Server.search_address http_get fuel address (entered address st) = (Returns a, st1) ->
     Py.truthy a = true ->
     Server.get_parcel_info http_get a st1 = (Returns p, st2) ->
     Py.truthy p = true ->
     Server.get_trash_pickup_details http_get p st2 = (Returns (JObj schedule), st3) ->
     Server.get_indy_trash_day http_get py_str fuel address st =
       (Returns out, logged (returning address out) st3)) /\
  (forall address (st st1 st2 st3 : state World) a p,
     IndyTrashServer.search_address http_get address (entered address st) = (Returns a, st1) ->
     Py.truthy a = true ->
     IndyTrashServer.get_parcel_info http_get a st1 = (Returns p, st2) ->
     Py.truthy p = true ->
     IndyTrashServer.get_trash_pickup_details http_get p st2 = (Returns (JObj schedule), st3) ->
     IndyTrashServer.get_indy_trash_day http_get py_str address st =
       (Returns out, logged (returning address out) st3)) /\
  (day = "Tuesday" -> heavy = "3rd Wednesday" ->
   out = "Your regular trash pickup day is Tuesday. Heavy trash pickup: 3rd Wednesday.") /\
  (day = "Tuesday" -> heavy = EmptyString ->
   out = "Your regular trash pickup day is Tuesday.").
Proof.
  intros out. destruct schedule_fields as [Hday Hheavy].
  repeat split.
  - intros fuel address st st1 st2 st3 a p H1 T1 H2 T2 H3.
    rewrite (orchestrator_stage3 http_get py_str fuel address st a p st1 st2 H1 T1 H2 T2).
    rewrite H3, schedule_is_truthy, Hday, Hheavy, schedule_sentence_of_strings.
    reflexivity.
  - intros address st st1 st2 st3 a p H1 T1 H2 T2 H3.
    rewrite (indy_orchestrator_stage3 http_get py_str address st a p st1 st2 H1 T1 H2 T2).
    rewrite H3, schedule_is_truthy, Hday, Hheavy, schedule_sentence_of_strings.
    reflexivity.
  - intros -> ->. reflexivity.
  - intros -> ->. reflexivity.
Qed.

End Formatting.

Lemma C3_witness :
  fst (Server.get_indy_trash_day (stateless (scenario (JObj tuesday_with_heavy))) str_plain
         1 "1234 Main Street" fresh) =
  Returns "Your regular trash pickup day is Tuesday. Heavy trash pickup: 3rd Wednesday.".
Proof.
  pose proof (proj1 (C3_schedule_sentence (stateless (scenario (JObj tuesday_with_heavy)))
                       str_plain tuesday_with_heavy "Tuesday" "3rd Wednesday"
                       eq_refl (or_introl eq_refl))) as H.
  rewrite (H 1 "1234 Main Street" fresh _ _ _ main_street main_street_parcel
             eq_refl eq_refl eq_refl eq_refl eq_refl).
  reflexivity.
Defined.

Section Dispatch.

Context {World : Type}.
Variable http_get : request -> World -> exc response * World.
Variable py_str : json -> string.







End Dispatch.


(** ** Runs that do not end with a sentence *)

Section EnoughFuel.

Context {World : Type}.
Variable http_get : request -> World -> exc response * World.
Variable py_str : json -> string.


End EnoughFuel.


(** ** The scenarios of the specification *)

Example scenario_tuesday_only :
  fst (Server.get_indy_trash_day (stateless (scenario (JObj tuesday_only))) str_plain 1
         "1234 Main Street" fresh) =
    Returns "Your regular trash pickup day is Tuesday." /\
  fst (IndyTrashServer.get_indy_trash_day (stateless (scenario (JObj tuesday_only))) str_plain
         "1234 Main Street" fresh) =
    Returns "Your regular trash pickup day is Tuesday.".
Proof. split; reflexivity. Qed.

Example scenario_geocoding_times_out :
  Server.get_indy_trash_day (stateless timing_out) str_plain 1 "1234 Main Street" fresh =
  (Returns
     "Sorry, I couldn't validate that address. Please provide a valid Indianapolis address.",
   State tt [geocode "1234 Main Street"]
     [received "1234 Main Street";
      Log ERROR [Lit "Error calling search_gis_address API: "; Exn RequestError]]).
Proof. reflexivity. Qed.

(** A geocoding service that finds every fragment unprocessable, with
    room for three nested calls: "Main St", "Main" and the empty fragment
    are asked for, the fourth call ends at the bound, and the orchestrator
    answers with the address-validation sentence. *)
Example scenario_persistent_422 :
  RecursionLimit.get_indy_trash_day (stateless always_422) str_plain 3 "Main St" fresh =
  (Returns
     "Sorry, I couldn't validate that address. Please provide a valid Indianapolis address.",
   State tt [geocode "Main St"; geocode "Main"; geocode EmptyString]
     [received "Main St"; retry_warning; retry_warning; retry_warning; recursion_error]).
Proof. reflexivity. Qed.

Example scenario_parcel_without_coordinates :
  fst (Server.get_indy_trash_day (stateless scenario_without_coordinates) str_plain 1
         "1234 Main Street" fresh) =
    Returns "Sorry, I couldn't retrieve parcel information for that address." /\
  map url (calls (snd (Server.get_indy_trash_day (stateless scenario_without_coordinates)
                         str_plain 1 "1234 Main Street" fresh))) =
    ["https://www.indy.gov/api/v1/search_gis_address"; "https://www.indy.gov/api/v1/parcel"].
Proof. split; reflexivity. Qed.
(** ** The stages on dictionaries *)

(** * Further properties of the stages and of a run *)

(** ** More of Stage 1 *)

Section Stage1Faults.

Context {World : Type}.
Variable http_get : request -> World -> exc response * World.

(** X1: a status outside 2xx other than 422 ends Stage 1 of server.py at
    once: None is returned after the single request, nothing is retried,
    and one error record carries the HTTPStatusError. *)
Theorem X1_other_http_error_is_not_retried (fuel : nat) (frag : string) (st : state World)
  (code : nat) (content : exc json) (w : World) :
  http_get (geocode frag) (world st) = (Ok (Response code content), w) ->
  Server.is_success code = false ->
  code <> 422 ->
  Server.search_address http_get (S fuel) frag st =
  (Returns JNull,
   State w (calls st ++ [geocode frag])
     (logs st ++ [Log ERROR [Lit "HTTP error calling search_gis_address API: ";
                             Exn (HTTPStatusError code)]])).
Proof.
  intros Hget Hbad Hcode. simpl Server.search_address. run_step. fold (geocode frag).
  rewrite Hget. simpl. rewrite Hbad. simpl.
  apply Nat.eqb_neq in Hcode. rewrite Hcode. reflexivity.
Qed.

(** X2: a transport fault on the geocoding request (a timeout, a refused
    connection) ends Stage 1 of both variants with None after that single
    request, also for a query of several tokens: only a 422 is retried. *)
Theorem X2_transport_fault_fails_stage1 (fuel : nat) (frag : string) (st : state World)
  (w : World) :
  http_get (geocode frag) (world st) = (Err RequestError, w) ->
  Server.search_address http_get (S fuel) frag st =
    (Returns JNull,
     State w (calls st ++ [geocode frag])
       (logs st ++ [Log ERROR [Lit "Error calling search_gis_address API: ";
                               Exn RequestError]])) /\
  IndyTrashServer.search_address http_get frag st =
    (Returns JNull,
     State w (calls st ++ [geocode frag])
       (logs st ++ [Log ERROR [Lit "Error calling search_gis_address API: ";
                               Exn RequestError]])).
Proof.
  intros Hget. split.
  - simpl Server.search_address. run_step. fold (geocode frag). now rewrite Hget.
  - unfold IndyTrashServer.search_address. indy_step. fold (geocode frag). now rewrite Hget.
Qed.

End Stage1Faults.
Section Stage1Payloads.

Context {World : Type}.
Variable http_get : request -> World -> exc response * World.

Variables (frag : string) (st : state World) (code : nat) (w : World).
Hypothesis success : Server.is_success code = true.

(** X3: a 2xx answer whose dictionary has no "addresses" entry, or has
    one that is None, empty or otherwise falsy, is an address not found:
    both variants return None and log the no-address error. *)
Theorem X3_no_usable_addresses_field (fuel : nat) (fields : list (string * json)) :
  http_get (geocode frag) (world st) = (Ok (Response code (Ok (JObj fields))), w) ->
  Py.lookup "addresses" fields = None \/
  (exists v, Py.lookup "addresses" fields = Some v /\ Py.truthy v = false) ->
  Server.search_address http_get (S fuel) frag st =
    (Returns JNull,
     State w (calls st ++ [geocode frag]) (logs st ++ [no_address_error frag])) /\
  IndyTrashServer.search_address http_get frag st =
    (Returns JNull,
     State w (calls st ++ [geocode frag]) (logs st ++ [no_address_error frag])).
Proof.
  intros Hget Hfield.
  assert (Hlen : forall test, Server.addresses_len test (JObj fields) = Ok false).
  { intros test. unfold Server.addresses_len, Py.get, exc_bind.
    destruct Hfield as [E|(v & E & T)]; rewrite E; [reflexivity | now rewrite T]. }
  split.
  - simpl Server.search_address. run_step. fold (geocode frag).
    rewrite Hget. simpl. rewrite success. simpl. rewrite !Hlen. reflexivity.
  - unfold IndyTrashServer.search_address. indy_step. fold (geocode frag).
    change IndyTrashServer.addresses_len with Server.addresses_len.
    rewrite Hget. simpl. rewrite (success_is_no_client_error _ success). simpl.
    rewrite !Hlen. reflexivity.
Qed.

(** X4: a 2xx answer whose JSON payload is not a dictionary makes
    [data.get] raise AttributeError inside the [try]; the last [except]
    clause of both variants catches it, logs an unexpected error and
    returns None. *)
Theorem X4_payload_that_is_no_dictionary (fuel : nat) (data : json) :
  http_get (geocode frag) (world st) = (Ok (Response code (Ok data)), w) ->
  (forall fields, data <> JObj fields) ->
  Server.search_address http_get (S fuel) frag st =
    (Returns JNull,
     State w (calls st ++ [geocode frag])
       (logs st ++ [Log ERROR [Lit "Unexpected error in search_address: ";
                               Exn AttributeError]])) /\
  IndyTrashServer.search_address http_get frag st =
    (Returns JNull,
     State w (calls st ++ [geocode frag])
       (logs st ++ [Log ERROR [Lit "Unexpected error in search_address: ";
                               Exn AttributeError]])).
Proof.
  intros Hget Hshape.
  assert (Hlen : forall test, Server.addresses_len test data = Err AttributeError).
  { intros test. destruct data; try reflexivity. now destruct (Hshape fields). }
  split.
  - simpl Server.search_address. run_step. fold (geocode frag).
    rewrite Hget. simpl. rewrite success. simpl. rewrite !Hlen. reflexivity.
  - unfold IndyTrashServer.search_address. indy_step. fold (geocode frag).
    change IndyTrashServer.addresses_len with Server.addresses_len.
    rewrite Hget. simpl. rewrite (success_is_no_client_error _ success). simpl.
    rewrite !Hlen. reflexivity.
Qed.

End Stage1Payloads.
(** ** The fragments of the retries *)

Lemma prefix_refl_append (a b : string) : String.prefix a (a ++ b) = true.
Proof.
  induction a as [|c a IH]; simpl; [now destruct b|].
  destruct (ascii_dec c c); [assumption | congruence].
Qed.

Lemma prefix_empty (s : string) : String.prefix EmptyString s = true.
Proof. now destruct s. Qed.

Lemma prefix_trans (a : string) :
  forall b c, String.prefix a b = true -> String.prefix b c = true ->
              String.prefix a c = true.
Proof.
  induction a as [|x a IH]; intros b c Hab Hbc; [apply prefix_empty|].
  destruct b as [|y b]; [discriminate|]. destruct c as [|z c]; [discriminate|].
  simpl in *.
  destruct (ascii_dec x y) as [->|]; [|discriminate].
  destruct (ascii_dec y z) as [->|]; [|discriminate].
  eauto.
Qed.

Lemma length_append (a b : string) :
  String.length (a ++ b) = String.length a + String.length b.
Proof. induction a as [|c a IH]; simpl; [reflexivity | now rewrite IH]. Qed.

(** A fragment with a space in it ends in a piece without one. *)
Lemma last_piece (s : string) :
  space_free s = false ->
  exists front last, s = front ++ " " ++ last /\ space_free last = true.
Proof.
  induction s as [|c s IH]; [discriminate|]. simpl. intros H.
  destruct (space_free s) eqn:F.
  - rewrite andb_true_r in H. apply negb_false_iff, Ascii.eqb_eq in H. subst c.
    now exists EmptyString, s.
  - destruct (IH eq_refl) as (front & last & -> & Hlast).
    now exists (String c front), last.
Qed.

Lemma prefix_refl (s : string) : String.prefix s s = true.
Proof.
  induction s as [|c s IH]; simpl; [reflexivity|].
  destruct (ascii_dec c c); [assumption | congruence].
Qed.

(** The fragment of a retry is empty, or the fragment cut before its
    last space. *)
Lemma without_last_piece_cases (s : string) :
  Server.without_last_piece s = EmptyString \/
  exists last, s = Server.without_last_piece s ++ " " ++ last.
Proof.
  destruct (space_free s) eqn:F.
  - left. now apply without_last_piece_single.
  - right. destruct (last_piece _ F) as (front & last & E & Hlast).
    exists last. rewrite E at 2. rewrite E. now rewrite without_last_piece_snoc.
Qed.

Lemma without_last_piece_prefix (s : string) :
  String.prefix (Server.without_last_piece s) s = true.
Proof.
  destruct (without_last_piece_cases s) as [->|[last E]]; [apply prefix_empty|].
  rewrite E at 2. apply prefix_refl_append.
Qed.

Lemma iterated_truncation_is_prefix (k : nat) (address : string) :
  String.prefix (Nat.iter k Server.without_last_piece address) address = true.
Proof.
  induction k as [|k IH]; simpl; [apply prefix_refl|].
  eapply prefix_trans; [|exact IH]. apply without_last_piece_prefix.
Qed.

(** X5: the fragment of a retry is a prefix of the fragment it replaces,
    strictly shorter unless that one is empty; the empty fragment is the
    only one a retry asks for again. *)
Theorem X5_retry_fragment_is_a_shorter_prefix (address_fragment : string) :
  String.prefix (Server.without_last_piece address_fragment) address_fragment = true /\
  (address_fragment <> EmptyString ->
   String.length (Server.without_last_piece address_fragment) <
   String.length address_fragment) /\
  (Server.without_last_piece address_fragment = address_fragment ->
   address_fragment = EmptyString).
Proof.
  pose proof (without_last_piece_cases address_fragment) as Hcases.
  split; [apply without_last_piece_prefix|split].
  - intros Hne. destruct Hcases as [E|[last E]].
    + rewrite E. destruct address_fragment; [congruence | simpl; lia].
    + rewrite E at 2. rewrite length_append. simpl. lia.
  - intros Hfix. destruct Hcases as [E|[last E]]; [congruence|].
    apply (f_equal String.length) in E. rewrite length_append, Hfix in E. simpl in E. lia.
Qed.

Section Stage1Chain.

Context {World : Type}.
Variable http_get : request -> World -> exc response * World.

(** The requests of a run of Stage 1, in order: the address, the address
    without its last piece, and so on. *)
Lemma search_address_chain (fuel : nat) :
  forall (address : string) (st : state World),
  exists n,
    n <= fuel /\
    calls (snd (Server.search_address http_get fuel address st)) =
      (calls st ++
       map (fun k => geocode (Nat.iter k Server.without_last_piece address)) (seq 0 n))%list.
Proof.
  induction fuel as [|fuel IH]; intros address st.
  - exists 0. split; [lia|]. simpl. now rewrite app_nil_r.
  - destruct (unprocessable (fst (http_get (geocode address) (world st)))) eqn:U.
    + rewrite search_address_retry by assumption.
      destruct (IH (Server.without_last_piece address)
                  (State (snd (http_get (geocode address) (world st)))
                         (calls st ++ [geocode address]) (logs st ++ [retry_warning])))
        as (n & Hn & E).
      exists (S n). split; [lia|]. rewrite E. simpl calls. rewrite <- app_assoc.
      simpl. do 2 f_equal. rewrite <- seq_shift, map_map.
      apply map_ext. intros k. now rewrite Nat.iter_succ_r.
    + destruct (search_address_settles http_get fuel address st U) as (v & l & E).
      rewrite E. exists 1. split; [lia | reflexivity].
Qed.

(** X7: the requests of a run of Stage 1 of server.py, in order, ask for
    the address, the address without its last piece, without its last two
    pieces, and so on: request number [k] asks for the address truncated
    [k] times, every fragment asked for is a prefix of the address, and
    nothing else is requested. *)
Theorem X7_stage1_asks_for_truncations_only (fuel : nat) (address : string)
  (st : state World) :
  exists asked : list string,
    calls (snd (Server.search_address http_get fuel address st)) =
      (calls st ++
       map (fun fragment =>
              Get "https://www.indy.gov/api/v1/search_gis_address"
                  [("address_fragment", JStr fragment)]) asked)%list /\
    List.length asked <= fuel /\
    (forall k fragment, nth_error asked k = Some fragment ->
       fragment = Nat.iter k Server.without_last_piece address) /\
    Forall (fun fragment => String.prefix fragment address = true) asked.
Proof.
  destruct (search_address_chain fuel address st) as (n & Hn & E).
  exists (map (fun k => Nat.iter k Server.without_last_piece address) (seq 0 n)).
  split; [|split; [|split]].
  - rewrite E, map_map. reflexivity.
  - now rewrite length_map, length_seq.
  - intros k fragment H. rewrite nth_error_map in H.
    destruct (nth_error (seq 0 n) k) as [j|] eqn:J; [|discriminate].
    injection H as <-.
    rewrite nth_error_seq in J.
    destruct (Nat.ltb k n); [|discriminate].
    now injection J as <-.
  - apply Forall_forall. intros fragment Hin. apply in_map_iff in Hin.
    destruct Hin as (k & <- & _). apply iterated_truncation_is_prefix.
Qed.

End Stage1Chain.
Section Stage1Retry.

Context {World : Type}.
Variable http_get : request -> World -> exc response * World.

(** X6: a retry can succeed.  When the query [front ++ " " ++ last] is
    answered with 422 and the retried [front] with a single candidate,
    Stage 1 of server.py returns that candidate after exactly these two
    requests and one warning. *)
Theorem X6_retry_that_finds_the_address (fuel : nat) (front last : string)
  (st : state World) (content : exc json) (w1 w2 : World) (code : nat)
  (fields : list (string * json)) (candidate : json) :
  space_free last = true ->
  http_get (geocode (front ++ " " ++ last)) (world st) = (Ok (Response 422 content), w1) ->
  http_get (geocode front) w1 = (Ok (Response code (Ok (JObj fields))), w2) ->
  Server.is_success code = true ->
  Py.lookup "addresses" fields = Some (JList [candidate]) ->
  Server.search_address http_get (S (S fuel)) (front ++ " " ++ last) st =
  (Returns candidate,
   State w2 (calls st ++ [geocode (front ++ " " ++ last); geocode front])
            (logs st ++ [retry_warning])).
Proof.
  intros Hlast H1 H2 Hcode Hone.
  rewrite search_address_retry by now rewrite H1.
  rewrite H1, without_last_piece_snoc by assumption. simpl snd.
  rewrite search_address_one_candidate
    with (code := code) (fields := fields) (w := w2) (candidate := candidate); auto.
  simpl. now rewrite <- app_assoc.
Qed.

(** X8: where the geocoding service never answers the empty fragment
    with a 422, Stage 1 of server.py returns, having issued at most one
    request per piece of the address and one more. *)
Theorem X8_stage1_returns_within_pieces_plus_one (address : string) (st : state World)
  (fuel : nat) :
  (forall w, unprocessable (fst (http_get (geocode EmptyString) w)) = false) ->
  pieces address < fuel ->
  exists v st',
    Server.search_address http_get fuel address st = (Returns v, st') /\
    List.length (calls st') <= List.length (calls st) + pieces address + 1.
Proof.
  intros Hempty Hfuel.
  destruct (search_address_returns http_get Hempty (pieces address) address st fuel
              (le_n _) Hfuel) as (v & st' & E & L).
  exists v, st'. split; [assumption | lia].
Qed.

End Stage1Retry.

Lemma X1_witness :
  Server.search_address (stateless server_error) 1 "1234 Main St" fresh =
  (Returns JNull,
   State tt [geocode "1234 Main St"]
     [Log ERROR [Lit "HTTP error calling search_gis_address API: ";
                 Exn (HTTPStatusError 500)]]).
Proof.
  apply (X1_other_http_error_is_not_retried (stateless server_error) 0 "1234 Main St" fresh
           500 (Err ValueError) tt eq_refl eq_refl).
  discriminate.
Defined.

Lemma X2_witness :
  Server.search_address (stateless timing_out) 1 "1234 Main St" fresh =
  (Returns JNull,
   State tt [geocode "1234 Main St"]
     [Log ERROR [Lit "Error calling search_gis_address API: "; Exn RequestError]]).
Proof.
  exact (proj1 (X2_transport_fault_fails_stage1 (stateless timing_out) 0 "1234 Main St"
                  fresh tt eq_refl)).
Defined.

Lemma X3_witness :
  Server.search_address (stateless (fun _ => ok_json (JObj [("addresses", JNull)]))) 1
    "1234 Main St" fresh =
  (Returns JNull, State tt [geocode "1234 Main St"] [no_address_error "1234 Main St"]).
Proof.
  exact (proj1 (X3_no_usable_addresses_field
                  (stateless (fun _ => ok_json (JObj [("addresses", JNull)])))
                  "1234 Main St" fresh 200 tt eq_refl 0 [("addresses", JNull)] eq_refl
                  (or_intror (ex_intro _ JNull (conj eq_refl eq_refl))))).
Defined.

Lemma X4_witness :
  Server.search_address (stateless (fun _ => ok_json (JList []))) 1 "1234 Main St" fresh =
  (Returns JNull,
   State tt [geocode "1234 Main St"]
     [Log ERROR [Lit "Unexpected error in search_address: "; Exn AttributeError]]).
Proof.
  apply (X4_payload_that_is_no_dictionary (stateless (fun _ => ok_json (JList [])))
           "1234 Main St" fresh 200 tt eq_refl 0 (JList []) eq_refl).
  discriminate.
Defined.

Lemma X6_witness :
  Server.search_address (stateless street_type_unprocessable) 2 "1234 Main St" fresh =
  (Returns main_street,
   State tt [geocode "1234 Main St"; geocode "1234 Main"] [retry_warning]).
Proof.
  exact (X6_retry_that_finds_the_address (stateless street_type_unprocessable) 0
           "1234 Main" "St" fresh (Err ValueError) tt tt 200
           [("addresses", JList [main_street])] main_street
           eq_refl eq_refl eq_refl eq_refl eq_refl).
Defined.

Lemma X8_witness :
  exists v st',
    Server.search_address (stateless no_candidates) 4 "1234 Main St" fresh = (Returns v, st') /\
    List.length (calls st') <= 0 + pieces "1234 Main St" + 1.
Proof.
  apply (X8_stage1_returns_within_pieces_plus_one (stateless no_candidates) "1234 Main St"
           fresh 4).
  - intros w. reflexivity.
  - vm_compute. lia.
Defined.
(** ** More of Stage 2 *)

Lemma client_error_is_no_success (code : nat) :
  Nat.leb 400 code && Nat.ltb code 600 = true -> Server.is_success code = false.
Proof.
  intros H. apply andb_true_iff in H. destruct H as [H _]. apply Nat.leb_le in H.
  unfold Server.is_success. apply andb_false_iff. right. apply Nat.leb_gt. lia.
Qed.

Section Stage2Answers.

Context {World : Type}.
Variable http_get : request -> World -> exc response * World.

Variables (fields : list (string * json))
  (address1 city level number state_ tag zipcode : json).
Hypothesis has_address1 : Py.lookup "address1" fields = Some address1.
Hypothesis has_city : Py.lookup "city" fields = Some city.
Hypothesis has_level : Py.lookup "level" fields = Some level.
Hypothesis has_number : Py.lookup "number" fields = Some number.
Hypothesis has_state : Py.lookup "state" fields = Some state_.
Hypothesis has_tag : Py.lookup "tag" fields = Some tag.
Hypothesis has_zipcode : Py.lookup "zipcode" fields = Some zipcode.

Variables (st : state World) (w : World).

Let req : request := parcel_request address1 city level number state_ tag zipcode.

(** With the seven keys present, Stage 2 is its [try] block on the
    parcel request. *)
Lemma get_parcel_info_reaches_try :
  Server.get_parcel_info http_get (JObj fields) st =
    try_except
      (bind (client_get http_get req) (fun response =>
       bind (Server.raise_for_status response) (fun _ =>
       bind (response_json response) (fun data =>
       bind (lift (Server.is_nonempty_list data)) (fun found =>
       if found then
         bind (lift (Py.item0 data)) (fun parcel_data =>
         bind (lift (Server.has_coordinates parcel_data)) (fun located =>
         if located then ret parcel_data
         else bind (log ERROR [Lit "Parcel data missing x/y coordinates: "; Val parcel_data])
                   (fun _ => ret JNull)))
       else bind (log ERROR [Lit "No parcel data found for details: ";
                              Val (JObj (params req))])
                 (fun _ => ret JNull))))))
      (fun e =>
         match e with
         | RequestError =>
             bind (log ERROR [Lit "Error calling parcel API: "; Exn e]) (fun _ => ret JNull)
         | _ =>
             bind (log ERROR [Lit "Unexpected error in get_parcel_info: "; Exn e])
                  (fun _ => ret JNull)
         end) st.
Proof.
  destruct (complete_dict_passes fields _ _ _ _ _ _ _ has_address1 has_city has_level
              has_number has_state has_tag has_zipcode) as [Hall Hparams].
  unfold Server.get_parcel_info. rewrite Hall, bind_lift_ok. cbv beta iota delta [negb].
  rewrite Hparams, bind_lift_ok. reflexivity.
Qed.

Lemma indy_get_parcel_info_reaches_try :
  IndyTrashServer.get_parcel_info http_get (JObj fields) st =
    try_except
      (bind (client_get http_get req) (fun response =>
       bind (IndyTrashServer.raise_for_status response) (fun _ =>
       bind (response_json response) (fun data =>
       bind (lift (Server.is_nonempty_list data)) (fun found =>
       if found then
         bind (lift (Py.item0 data)) (fun parcel_data =>
         bind (lift (Server.has_coordinates parcel_data)) (fun located =>
         if located then ret parcel_data
         else bind (log ERROR [Lit "Parcel data missing x/y coordinates: "; Val parcel_data])
                   (fun _ => ret JNull)))
       else bind (log ERROR [Lit "No parcel data found for details: ";
                              Val (JObj (params req))])
                 (fun _ => ret JNull))))))
      (fun e =>
         if IndyTrashServer.is_RequestException e then
           bind (log ERROR [Lit "Error calling parcel API: "; Exn e]) (fun _ => ret JNull)
         else
           bind (log ERROR [Lit "Unexpected error in get_parcel_info: "; Exn e])
                (fun _ => ret JNull)) st.
Proof.
  destruct (complete_dict_passes fields _ _ _ _ _ _ _ has_address1 has_city has_level
              has_number has_state has_tag has_zipcode) as [Hall Hparams].
  unfold IndyTrashServer.get_parcel_info. indy_names.
  rewrite Hall, bind_lift_ok. cbv beta iota delta [negb].
  rewrite Hparams, bind_lift_ok. reflexivity.
Qed.

(** X9: a 4xx or 5xx answer of the parcel service makes Stage 2 return
    None after its single request.  server.py logs it as an unexpected
    error, since httpx's HTTPStatusError is no RequestError;
    indy_trash_server.py logs it as an error calling the parcel API. *)
Theorem X9_parcel_http_error (code : nat) (content : exc json) :
  http_get (parcel_request address1 city level number state_ tag zipcode) (world st) =
    (Ok (Response code content), w) ->
  Nat.leb 400 code && Nat.ltb code 600 = true ->
  Server.get_parcel_info http_get (JObj fields) st =
    (Returns JNull,
     State w (calls st ++ [parcel_request address1 city level number state_ tag zipcode])
       (logs st ++ [Log ERROR [Lit "Unexpected error in get_parcel_info: ";
                               Exn (HTTPStatusError code)]])) /\
  IndyTrashServer.get_parcel_info http_get (JObj fields) st =
    (Returns JNull,
     State w (calls st ++ [parcel_request address1 city level number state_ tag zipcode])
       (logs st ++ [Log ERROR [Lit "Error calling parcel API: ";
                               Exn (HTTPStatusError code)]])).
Proof.
  intros Hget Hcode. fold req in Hget |- *. split.
  - rewrite get_parcel_info_reaches_try. run_step. rewrite Hget. simpl.
    rewrite (client_error_is_no_success _ Hcode). reflexivity.
  - rewrite indy_get_parcel_info_reaches_try. indy_step. rewrite Hget. simpl.
    rewrite Hcode. reflexivity.
Qed.

(** X10: of the list the parcel service answers, Stage 2 looks at the
    first record only.  If that record has both coordinates it is returned
    as it is, whatever follows it; if it lacks one, Stage 2 logs the
    missing coordinates and returns None, even when a later record has
    them. *)
Theorem X10_only_the_first_parcel_record_counts (code : nat) (record : list (string * json))
  (others : list json) :
  http_get (parcel_request address1 city level number state_ tag zipcode) (world st) =
    (Ok (Response code (Ok (JList (JObj record :: others)))), w) ->
  Server.is_success code = true ->
  let after := State w (calls st ++ [parcel_request address1 city level number state_ tag
                                       zipcode]) (logs st) in
  (Py.lookup "x" record <> None /\ Py.lookup "y" record <> None ->
   Server.get_parcel_info http_get (JObj fields) st = (Returns (JObj record), after) /\
   IndyTrashServer.get_parcel_info http_get (JObj fields) st = (Returns (JObj record), after))
  /\
  (Py.lookup "x" record = None \/ Py.lookup "y" record = None ->
   Server.get_parcel_info http_get (JObj fields) st =
     (Returns JNull,
      logged (Log ERROR [Lit "Parcel data missing x/y coordinates: "; Val (JObj record)])
        after) /\
   IndyTrashServer.get_parcel_info http_get (JObj fields) st =
     (Returns JNull,
      logged (Log ERROR [Lit "Parcel data missing x/y coordinates: "; Val (JObj record)])
        after)).
Proof.
  intros Hget Hcode after. fold req in Hget, after.
  split.
  - intros [Hx Hy].
    assert (Hhas : Server.has_coordinates (JObj record) = Ok true).
    { unfold Server.has_coordinates, exc_bind, Py.in_, Py.has_key.
      destruct (Py.lookup "x" record); [|congruence].
      destruct (Py.lookup "y" record); [reflexivity | congruence]. }
    split.
    + rewrite get_parcel_info_reaches_try. run_step. rewrite Hget. simpl.
      rewrite Hcode. simpl. rewrite Hhas. reflexivity.
    + rewrite indy_get_parcel_info_reaches_try. indy_step. rewrite Hget. simpl.
      rewrite (success_is_no_client_error _ Hcode). simpl. rewrite Hhas. reflexivity.
  - intros Hmissing.
    assert (Hhas : Server.has_coordinates (JObj record) = Ok false).
    { unfold Server.has_coordinates, exc_bind, Py.in_, Py.has_key.
      destruct Hmissing as [E|E]; rewrite E; [reflexivity|].
      now destruct (Py.lookup "x" record). }
    split.
    + rewrite get_parcel_info_reaches_try. run_step. rewrite Hget. simpl.
      rewrite Hcode. simpl. rewrite Hhas. reflexivity.
    + rewrite indy_get_parcel_info_reaches_try. indy_step. rewrite Hget. simpl.
      rewrite (success_is_no_client_error _ Hcode). simpl. rewrite Hhas. reflexivity.
Qed.

(** X11: a 2xx answer of the parcel service that is an empty list, or
    no list at all, makes Stage 2 return None and log that no parcel data
    was found, with the parameters of the request. *)
Theorem X11_no_parcel_list (code : nat) (data : json) :
  http_get (parcel_request address1 city level number state_ tag zipcode) (world st) =
    (Ok (Response code (Ok data)), w) ->
  Server.is_success code = true ->
  Py.is_list data = false \/ data = JList [] ->
  let failed :=
    (Returns JNull,
     State w (calls st ++ [parcel_request address1 city level number state_ tag zipcode])
       (logs st ++ [Log ERROR [Lit "No parcel data found for details: ";
                               Val (JObj [("address1", address1); ("city", city);
                                          ("level", level); ("number", number);
                                          ("state", state_); ("tag_id", tag);
                                          ("zipcode", zipcode)])]])) in
  Server.get_parcel_info http_get (JObj fields) st = failed /\
  IndyTrashServer.get_parcel_info http_get (JObj fields) st = failed.
Proof.
  intros Hget Hcode Hdata failed. fold req in Hget, failed.
  assert (Hlist : Server.is_nonempty_list data = Ok false).
  { unfold Server.is_nonempty_list. destruct Hdata as [E| ->]; [|reflexivity].
    rewrite E. now rewrite andb_false_r. }
  split.
  - rewrite get_parcel_info_reaches_try. run_step. rewrite Hget. simpl.
    rewrite Hcode. simpl. rewrite Hlist. reflexivity.
  - rewrite indy_get_parcel_info_reaches_try. indy_step. rewrite Hget. simpl.
    rewrite (success_is_no_client_error _ Hcode). simpl. rewrite Hlist. reflexivity.
Qed.

End Stage2Answers.
Ltac one_request_at_most :=
  simpl; first [left; reflexivity | right; eexists; reflexivity].

Section Stage2AnyInput.

Context {World : Type}.
Variable http_get : request -> World -> exc response * World.

Lemma get_parcel_info_one_request (address_details : json) (st : state World) :
  calls (snd (Server.get_parcel_info http_get address_details st)) = calls st \/
  exists params,
    calls (snd (Server.get_parcel_info http_get address_details st)) =
    (calls st ++ [Get Server.PARCEL_URL params])%list.
Proof.
  unfold Server.get_parcel_info.
  destruct (Py.all_in Server.required_keys address_details) as [[|]|e].
  2: { rewrite bind_lift_ok. run_step. one_request_at_most. }
  2: { rewrite bind_lift_err. one_request_at_most. }
  rewrite bind_lift_ok. cbv beta iota delta [negb].
  destruct (Server.parcel_params address_details) as [ps|e];
    [rewrite bind_lift_ok | rewrite bind_lift_err; one_request_at_most].
  right. exists ps. run_step.
  destruct (http_get (Get Server.PARCEL_URL ps) (world st)) as [[r|e] w]; simpl.
  - destruct (Server.is_success (status_code r)); simpl; [|reflexivity].
    destruct (body r) as [data|e]; simpl; [|destruct e; reflexivity].
    destruct (Server.is_nonempty_list data) as [[|]|e] eqn:L; simpl.
    + destruct (Py.item0 data) as [parcel_data|e] eqn:I; simpl.
      * destruct (Server.has_coordinates parcel_data) as [[|]|e] eqn:C; simpl;
          try reflexivity.
        destruct e; reflexivity.
      * destruct e; reflexivity.
    + reflexivity.
    + destruct e; reflexivity.
  - destruct e; reflexivity.
Qed.

Lemma indy_get_parcel_info_one_request (address_details : json) (st : state World) :
  calls (snd (IndyTrashServer.get_parcel_info http_get address_details st)) = calls st \/
  exists params,
    calls (snd (IndyTrashServer.get_parcel_info http_get address_details st)) =
    (calls st ++ [Get Server.PARCEL_URL params])%list.
Proof.
  unfold IndyTrashServer.get_parcel_info. indy_names.
  destruct (Py.all_in Server.required_keys address_details) as [[|]|e].
  2: { rewrite bind_lift_ok. indy_step. one_request_at_most. }
  2: { rewrite bind_lift_err. one_request_at_most. }
  rewrite bind_lift_ok. cbv beta iota delta [negb].
  destruct (Server.parcel_params address_details) as [ps|e];
    [rewrite bind_lift_ok | rewrite bind_lift_err; one_request_at_most].
  right. exists ps. indy_step.
  destruct (http_get (Get Server.PARCEL_URL ps) (world st)) as [[r|e] w]; simpl.
  - destruct (Nat.leb 400 (status_code r) && Nat.ltb (status_code r) 600); simpl;
      [reflexivity|].
    destruct (body r) as [data|e]; simpl; [|destruct e; reflexivity].
    destruct (Server.is_nonempty_list data) as [[|]|e] eqn:L; simpl.
    + destruct (Py.item0 data) as [parcel_data|e] eqn:I; simpl.
      * destruct (Server.has_coordinates parcel_data) as [[|]|e] eqn:C; simpl;
          try reflexivity.
        destruct e; reflexivity.
      * destruct e; reflexivity.
    + reflexivity.
    + destruct e; reflexivity.
  - destruct e; reflexivity.
Qed.

(** X12: whatever it is given and whatever comes back, Stage 2 issues
    at most one request, and that one goes to the parcel service. *)
Theorem X12_stage2_issues_one_request_at_most (address_details : json) (st : state World) :
  (calls (snd (Server.get_parcel_info http_get address_details st)) = calls st \/
   exists params,
     calls (snd (Server.get_parcel_info http_get address_details st)) =
     (calls st ++ [Get "https://www.indy.gov/api/v1/parcel" params])%list) /\
  (calls (snd (IndyTrashServer.get_parcel_info http_get address_details st)) = calls st \/
   exists params,
     calls (snd (IndyTrashServer.get_parcel_info http_get address_details st)) =
     (calls st ++ [Get "https://www.indy.gov/api/v1/parcel" params])%list).
Proof.
  split; [apply get_parcel_info_one_request | apply indy_get_parcel_info_one_request].
Qed.

(** X13: Stages 2 and 3 do not return on None, a boolean or a number:
    their first test, an [in] outside the [try], raises TypeError, before
    any request or log record. *)
Theorem X13_stages_raise_on_scalars (v : json) (st : state World) :
  is_scalar v = true ->
  Server.get_parcel_info http_get v st = (Raises TypeError, st) /\
  IndyTrashServer.get_parcel_info http_get v st = (Raises TypeError, st) /\
  Server.get_trash_pickup_details http_get v st = (Raises TypeError, st) /\
  IndyTrashServer.get_trash_pickup_details http_get v st = (Raises TypeError, st).
Proof.
  intros H. destruct v; try discriminate; repeat split.
Qed.

End Stage2AnyInput.

Lemma X13_witness :
  Server.get_parcel_info (stateless no_candidates) (JInt 5) fresh = (Raises TypeError, fresh).
Proof.
  exact (proj1 (X13_stages_raise_on_scalars (stateless no_candidates) (JInt 5) fresh eq_refl)).
Defined.
(** ** More of Stage 3 *)

Ltac conclude_scheduled :=
  intros Hrun Hsome; injection Hrun as <- <-; first [congruence | assumption].

Section Stage3Answers.

Context {World : Type}.
Variable http_get : request -> World -> exc response * World.

(** X14: a parcel dictionary that lacks "x" or "y" makes Stage 3 return
    None at once: no request, the services left as they were, and one
    error record with the dictionary. *)
Theorem X14_missing_coordinate_fails_locally (fields : list (string * json))
  (st : state World) :
  Py.lookup "x" fields = None \/ Py.lookup "y" fields = None ->
  Server.get_trash_pickup_details http_get (JObj fields) st =
    (Returns JNull,
     State (world st) (calls st) (logs st ++ [missing_coordinates_error (JObj fields)])) /\
  IndyTrashServer.get_trash_pickup_details http_get (JObj fields) st =
    (Returns JNull,
     State (world st) (calls st) (logs st ++ [missing_coordinates_error (JObj fields)])).
Proof.
  intros H.
  assert (Hl : Server.lacks_coordinates (JObj fields) = Ok true).
  { unfold Server.lacks_coordinates, exc_bind, Py.in_, Py.has_key.
    destruct H as [E|E]; rewrite E; [reflexivity|].
    now destruct (Py.lookup "x" fields). }
  split.
  - unfold Server.get_trash_pickup_details. now rewrite Hl, bind_lift_ok.
  - unfold IndyTrashServer.get_trash_pickup_details.
    change IndyTrashServer.lacks_coordinates with Server.lacks_coordinates.
    now rewrite Hl, bind_lift_ok.
Qed.

(** Whatever Stage 3 is given and whatever the schedule service answers:
    a value it returns that is not None has passed the pickup-day test. *)
Lemma get_trash_pickup_details_scheduled (parcel_info : json) (st st' : state World)
  (v : json) :
  Server.get_trash_pickup_details http_get parcel_info st = (Returns v, st') ->
  v <> JNull ->
  Server.has_pickup_day v = Ok true.
Proof.
  unfold Server.get_trash_pickup_details.
  destruct (Server.lacks_coordinates parcel_info) as [[|]|e].
  1: { rewrite bind_lift_ok. run_step. conclude_scheduled. }
  2: { rewrite bind_lift_err. discriminate. }
  rewrite bind_lift_ok.
  destruct (Server.trash_params parcel_info) as [ps|e];
    [rewrite bind_lift_ok | rewrite bind_lift_err; discriminate].
  run_step.
  destruct (http_get (Get Server.TRASH_PICKUP_URL ps) (world st)) as [[r|e] w]; simpl.
  - destruct (Server.is_success (status_code r)); simpl; [|conclude_scheduled].
    destruct (body r) as [data|e]; simpl; [|destruct e; conclude_scheduled].
    destruct (Server.has_pickup_day data) as [[|]|e] eqn:P; simpl.
    + conclude_scheduled.
    + conclude_scheduled.
    + destruct e; conclude_scheduled.
  - destruct e; conclude_scheduled.
Qed.

Lemma indy_get_trash_pickup_details_scheduled (parcel_info : json) (st st' : state World)
  (v : json) :
  IndyTrashServer.get_trash_pickup_details http_get parcel_info st = (Returns v, st') ->
  v <> JNull ->
  Server.has_pickup_day v = Ok true.
Proof.
  unfold IndyTrashServer.get_trash_pickup_details.
  change IndyTrashServer.lacks_coordinates with Server.lacks_coordinates.
  change IndyTrashServer.has_pickup_day with Server.has_pickup_day.
  destruct (Server.lacks_coordinates parcel_info) as [[|]|e].
  1: { rewrite bind_lift_ok. indy_step. conclude_scheduled. }
  2: { rewrite bind_lift_err. discriminate. }
  rewrite bind_lift_ok.
  destruct (IndyTrashServer.trash_params parcel_info) as [ps|e];
    [rewrite bind_lift_ok | rewrite bind_lift_err; discriminate].
  indy_step.
  destruct (http_get (Get IndyTrashServer.TRASH_PICKUP_URL ps) (world st)) as [[r|e] w];
    simpl.
  - destruct (Nat.leb 400 (status_code r) && Nat.ltb (status_code r) 600); simpl;
      [conclude_scheduled|].
    destruct (body r) as [data|e]; simpl; [|destruct e; conclude_scheduled].
    destruct (Server.has_pickup_day data) as [[|]|e] eqn:P; simpl.
    + conclude_scheduled.
    + conclude_scheduled.
    + destruct e; conclude_scheduled.
  - destruct e; conclude_scheduled.
Qed.

(** X16: a value that Stage 3 returns and that is not None is truthy and
    has "pickup_day" in it; for a dictionary the orchestrator's
    [.get("pickup_day", "Not specified")] then yields the entry itself,
    whatever the default: the default is never shown. *)
Theorem X16_returned_schedule_has_a_pickup_day (parcel_info v : json)
  (st st' : state World) :
  Server.get_trash_pickup_details http_get parcel_info st = (Returns v, st') \/
  IndyTrashServer.get_trash_pickup_details http_get parcel_info st = (Returns v, st') ->
  v <> JNull ->
  Py.truthy v = true /\
  Py.in_ "pickup_day" v = Ok true /\
  forall schedule, v = JObj schedule ->
    exists day,
      Py.lookup "pickup_day" schedule = Some day /\
      forall default, Py.get v "pickup_day" default = Ok day.
Proof.
  intros Hrun Hsome.
  assert (Hhas : Server.has_pickup_day v = Ok true).
  { destruct Hrun as [H|H];
      eauto using get_trash_pickup_details_scheduled,
                  indy_get_trash_pickup_details_scheduled. }
  unfold Server.has_pickup_day in Hhas.
  destruct (Py.truthy v); [|discriminate].
  repeat split; try assumption.
  intros schedule ->. unfold Py.in_, Py.has_key in Hhas. unfold Py.get.
  destruct (Py.lookup "pickup_day" schedule) as [day|]; [|discriminate].
  now exists day.
Qed.

Variables (fields : list (string * json)) (x y : json) (st : state World)
  (code : nat) (data : json) (w : World).
Hypothesis has_x : Py.lookup "x" fields = Some x.
Hypothesis has_y : Py.lookup "y" fields = Some y.
Hypothesis answered :
  forall req, url req = "https://www.indy.gov/api/v1/indy_trash_pickup" ->
              http_get req (world st) = (Ok (Response code (Ok data)), w).
Hypothesis success : Server.is_success code = true.

Lemma located_parcel_reaches_request :
  Server.lacks_coordinates (JObj fields) = Ok false /\
  Server.trash_params (JObj fields) = Ok (params (schedule_request x y)) /\
  IndyTrashServer.trash_params (JObj fields) = Ok (params (indy_schedule_request x y)).
Proof.
  unfold Server.lacks_coordinates, Server.trash_params, IndyTrashServer.trash_params,
    exc_bind, Py.in_, Py.has_key, Py.getitem.
  now rewrite has_x, has_y.
Qed.

(** X15: for a parcel with both coordinates and a 2xx answer of the
    schedule service, Stage 3 returns the payload as it is when it is a
    dictionary with a "pickup_day" entry, whatever else it holds, without
    logging; a payload that is falsy or a dictionary without that entry
    gives None and an error record. *)
Theorem X15_schedule_payload_is_returned_as_it_is :
  (forall schedule day,
     data = JObj schedule -> Py.lookup "pickup_day" schedule = Some day ->
     Server.get_trash_pickup_details http_get (JObj fields) st =
       (Returns data, State w (calls st ++ [schedule_request x y]) (logs st)) /\
     IndyTrashServer.get_trash_pickup_details http_get (JObj fields) st =
       (Returns data, State w (calls st ++ [indy_schedule_request x y]) (logs st))) /\
  (Py.truthy data = false \/
   (exists schedule, data = JObj schedule /\ Py.lookup "pickup_day" schedule = None) ->
   Server.get_trash_pickup_details http_get (JObj fields) st =
     (Returns JNull,
      State w (calls st ++ [schedule_request x y])
        (logs st ++ [Log ERROR [Lit "Trash pickup data missing 'pickup_day': ";
                                Val data]])) /\
   IndyTrashServer.get_trash_pickup_details http_get (JObj fields) st =
     (Returns JNull,
      State w (calls st ++ [indy_schedule_request x y])
        (logs st ++ [Log ERROR [Lit "Trash pickup data missing 'pickup_day': ";
                                Val data]]))).
Proof.
  destruct located_parcel_reaches_request as (Hl & Hp & Hp').
  assert (Hrun : forall has : bool, Server.has_pickup_day data = Ok has ->
    Server.get_trash_pickup_details http_get (JObj fields) st =
      (if has then (Returns data, State w (calls st ++ [schedule_request x y]) (logs st))
       else (Returns JNull,
             State w (calls st ++ [schedule_request x y])
               (logs st ++ [Log ERROR [Lit "Trash pickup data missing 'pickup_day': ";
                                       Val data]]))) /\
    IndyTrashServer.get_trash_pickup_details http_get (JObj fields) st =
      (if has then (Returns data, State w (calls st ++ [indy_schedule_request x y]) (logs st))
       else (Returns JNull,
             State w (calls st ++ [indy_schedule_request x y])
               (logs st ++ [Log ERROR [Lit "Trash pickup data missing 'pickup_day': ";
                                       Val data]])))).
  { intros has Hhas. split.
    - unfold Server.get_trash_pickup_details.
      rewrite Hl, bind_lift_ok, Hp, bind_lift_ok. run_step.
      rewrite (answered (Get Server.TRASH_PICKUP_URL [("x", x); ("y", y)]) eq_refl). simpl. rewrite success. simpl. rewrite Hhas.
      now destruct has.
    - unfold IndyTrashServer.get_trash_pickup_details.
      change IndyTrashServer.lacks_coordinates with Server.lacks_coordinates.
      change IndyTrashServer.has_pickup_day with Server.has_pickup_day.
      rewrite Hl, bind_lift_ok, Hp', bind_lift_ok. indy_step.
      rewrite (answered (Get IndyTrashServer.TRASH_PICKUP_URL
                           [("__workflow_id", JStr IndyTrashServer.WORKFLOW_ID);
                            ("x", x); ("y", y)]) eq_refl). simpl.
      rewrite (success_is_no_client_error _ success). simpl. rewrite Hhas.
      now destruct has. }
  split.
  - intros schedule day -> Hday. apply (Hrun true).
    unfold Server.has_pickup_day, Py.in_, Py.has_key. rewrite Hday.
    destruct schedule; [discriminate | reflexivity].
  - intros Hnone. apply (Hrun false).
    unfold Server.has_pickup_day.
    destruct Hnone as [T|(schedule & -> & E)]; [now rewrite T|].
    unfold Py.in_, Py.has_key. rewrite E. now destruct (Py.truthy (JObj schedule)).
Qed.

End Stage3Answers.
(** ** The requests of a whole run *)

Section RunRequests.

Context {World : Type}.
Variable http_get : request -> World -> exc response * World.
Variable py_str : json -> string.

(** A value of Stage 2 that is not None came from the parcel service. *)
Lemma get_parcel_info_value_was_requested (address_details v : json) (st st' : state World) :
  Server.get_parcel_info http_get address_details st = (Returns v, st') ->
  v <> JNull ->
  exists params, calls st' = (calls st ++ [Get Server.PARCEL_URL params])%list.
Proof.
  unfold Server.get_parcel_info.
  destruct (Py.all_in Server.required_keys address_details) as [[|]|e].
  2: { rewrite bind_lift_ok. run_step. intros [= <- <-]. congruence. }
  2: { rewrite bind_lift_err. discriminate. }
  rewrite bind_lift_ok. cbv beta iota delta [negb].
  destruct (Server.parcel_params address_details) as [ps|e];
    [rewrite bind_lift_ok | rewrite bind_lift_err; discriminate].
  intros H _. exists ps. apply (f_equal snd) in H. simpl in H. rewrite <- H. clear H.
  run_step.
  destruct (http_get (Get Server.PARCEL_URL ps) (world st)) as [[r|e] w]; simpl.
  - destruct (Server.is_success (status_code r)); simpl; [|reflexivity].
    destruct (body r) as [data|e]; simpl; [|destruct e; reflexivity].
    destruct (Server.is_nonempty_list data) as [[|]|e] eqn:L; simpl.
    + destruct (Py.item0 data) as [parcel_data|e] eqn:I; simpl.
      * destruct (Server.has_coordinates parcel_data) as [[|]|e] eqn:C; simpl;
          try reflexivity.
        destruct e; reflexivity.
      * destruct e; reflexivity.
    + reflexivity.
    + destruct e; reflexivity.
  - destruct e; reflexivity.
Qed.

Lemma indy_get_parcel_info_value_was_requested (address_details v : json)
  (st st' : state World) :
  IndyTrashServer.get_parcel_info http_get address_details st = (Returns v, st') ->
  v <> JNull ->
  exists params, calls st' = (calls st ++ [Get Server.PARCEL_URL params])%list.
Proof.
  unfold IndyTrashServer.get_parcel_info. indy_names.
  destruct (Py.all_in Server.required_keys address_details) as [[|]|e].
  2: { rewrite bind_lift_ok. indy_step. intros [= <- <-]. congruence. }
  2: { rewrite bind_lift_err. discriminate. }
  rewrite bind_lift_ok. cbv beta iota delta [negb].
  destruct (Server.parcel_params address_details) as [ps|e];
    [rewrite bind_lift_ok | rewrite bind_lift_err; discriminate].
  intros H _. exists ps. apply (f_equal snd) in H. simpl in H. rewrite <- H. clear H.
  indy_step.
  destruct (http_get (Get Server.PARCEL_URL ps) (world st)) as [[r|e] w]; simpl.
  - destruct (Nat.leb 400 (status_code r) && Nat.ltb (status_code r) 600); simpl;
      [reflexivity|].
    destruct (body r) as [data|e]; simpl; [|destruct e; reflexivity].
    destruct (Server.is_nonempty_list data) as [[|]|e] eqn:L; simpl.
    + destruct (Py.item0 data) as [parcel_data|e] eqn:I; simpl.
      * destruct (Server.has_coordinates parcel_data) as [[|]|e] eqn:C; simpl;
          try reflexivity.
        destruct e; reflexivity.
      * destruct e; reflexivity.
    + reflexivity.
    + destruct e; reflexivity.
  - destruct e; reflexivity.
Qed.

(** Stage 3 issues one request at most. *)
Lemma get_trash_pickup_details_one_request (parcel_info : json) (st : state World) :
  (calls (snd (Server.get_trash_pickup_details http_get parcel_info st)) = calls st \/
   exists req, to_schedule_service req /\
     calls (snd (Server.get_trash_pickup_details http_get parcel_info st)) =
     (calls st ++ [req])%list) /\
  (calls (snd (IndyTrashServer.get_trash_pickup_details http_get parcel_info st)) = calls st \/
   exists req, to_schedule_service req /\
     calls (snd (IndyTrashServer.get_trash_pickup_details http_get parcel_info st)) =
     (calls st ++ [req])%list).
Proof.
  assert (Hlocal :
    (forall fields, parcel_info = JObj fields ->
       Py.lookup "x" fields = None \/ Py.lookup "y" fields = None) ->
    (calls (snd (Server.get_trash_pickup_details http_get parcel_info st)) = calls st \/
     exists req, to_schedule_service req /\
       calls (snd (Server.get_trash_pickup_details http_get parcel_info st)) =
       (calls st ++ [req])%list) /\
    (calls (snd (IndyTrashServer.get_trash_pickup_details http_get parcel_info st)) = calls st \/
     exists req, to_schedule_service req /\
       calls (snd (IndyTrashServer.get_trash_pickup_details http_get parcel_info st)) =
       (calls st ++ [req])%list)).
  { intros H. destruct (get_trash_pickup_details_local http_get parcel_info st H) as [E1 E2].
    split; now left. }
  destruct parcel_info as [| b | n | f | s | items | fields];
    try (apply Hlocal; discriminate).
  destruct (Py.lookup "x" fields) as [x|] eqn:Hx.
  2: { apply Hlocal. intros ? [= <-]. now left. }
  destruct (Py.lookup "y" fields) as [y|] eqn:Hy.
  2: { apply Hlocal. intros ? [= <-]. now right. }
  split; right.
  - destruct (get_trash_pickup_details_located http_get fields x y st Hx Hy)
      as (v & l & E & _).
    rewrite E. exists (schedule_request x y). now split.
  - destruct (indy_get_trash_pickup_details_located http_get fields x y st Hx Hy)
      as (v & l & E & _).
    rewrite E. exists (indy_schedule_request x y). now split.
Qed.

Lemma truthy_is_not_none (v : json) : Py.truthy v = true -> v <> JNull.
Proof. intros H ->. discriminate. Qed.

(** The three ways the list of requests of a run ends. *)
Lemma stage_order_after_stage1 (before geocoding : list request) :
  Forall to_geocoding_service geocoding ->
  exists requests, (before ++ geocoding)%list = (before ++ requests)%list /\
                   in_stage_order requests.
Proof.
  intros G. exists geocoding. split; [reflexivity|].
  exists geocoding, [], []. rewrite !app_nil_r. repeat split; auto; simpl; lia.
Qed.

Lemma stage_order_after_stage2 (before geocoding parcel : list request) :
  Forall to_geocoding_service geocoding ->
  parcel = [] \/ (exists params, parcel = [Get Server.PARCEL_URL params]) ->
  exists requests, ((before ++ geocoding) ++ parcel)%list = (before ++ requests)%list /\
                   in_stage_order requests.
Proof.
  intros G P. exists (geocoding ++ parcel)%list. split; [now rewrite app_assoc|].
  exists geocoding, parcel, []. rewrite !app_nil_r.
  destruct P as [->|[ps ->]]; repeat split; auto; simpl; try lia; repeat constructor.
Qed.

Lemma stage_order_after_stage3 (before geocoding : list request) (params : list (string * json))
  (schedule : list request) :
  Forall to_geocoding_service geocoding ->
  schedule = [] \/ (exists req, to_schedule_service req /\ schedule = [req]) ->
  exists requests,
    (((before ++ geocoding) ++ [Get Server.PARCEL_URL params]) ++ schedule)%list =
      (before ++ requests)%list /\
    in_stage_order requests.
Proof.
  intros G S. exists (geocoding ++ [Get Server.PARCEL_URL params] ++ schedule)%list.
  split; [now rewrite <- !app_assoc|].
  exists geocoding, [Get Server.PARCEL_URL params], schedule.
  destruct S as [->|(req & R & ->)]; repeat split; auto; simpl; try lia;
    repeat constructor; try assumption; discriminate.
Qed.

(** X19: in every run of the orchestrator of server.py, however it
    ends, the requests issued are geocoding requests, then at most one
    parcel request, then at most one schedule request, and there is no
    schedule request without a parcel request before it. *)
Theorem X19_requests_follow_the_stage_order (fuel : nat) (address : string)
  (st : state World) :
  exists requests,
    calls (snd (Server.get_indy_trash_day http_get py_str fuel address st)) =
      (calls st ++ requests)%list /\
    in_stage_order requests.
Proof.
  unfold Server.get_indy_trash_day, bind, log. cbv beta iota.
  destruct (search_address_calls http_get fuel address (entered address st))
    as (geocoding & E1 & G).
  unfold entered, received in E1. simpl calls in E1.
  assert (G' : Forall to_geocoding_service geocoding) by exact G.
  destruct (Server.search_address http_get fuel address _) as [[a|e|] st1];
    simpl in E1; try (simpl; rewrite E1; now apply stage_order_after_stage1).
  destruct (Py.truthy a) eqn:T1; simpl;
    [|rewrite E1; now apply stage_order_after_stage1].
  pose proof (get_parcel_info_one_request http_get a st1) as P.
  destruct (Server.get_parcel_info http_get a st1) as [[p|e|] st2] eqn:H2; simpl in P;
    try (simpl; destruct P as [E2|[ps E2]]; rewrite E2, E1;
         [rewrite <- (app_nil_r (calls st ++ geocoding))|];
         apply stage_order_after_stage2; eauto).
  destruct (Py.truthy p) eqn:T2; simpl.
  2: { destruct P as [E2|[ps E2]]; rewrite E2, E1;
       [rewrite <- (app_nil_r (calls st ++ geocoding))|];
       apply stage_order_after_stage2; eauto. }
  destruct (get_parcel_info_value_was_requested a p st1 st2 H2 (truthy_is_not_none p T2))
    as (ps & E2).
  pose proof (proj1 (get_trash_pickup_details_one_request p st2)) as S.
  assert (Hend : forall st3 : state World,
    calls st3 = calls st2 \/
    (exists req, to_schedule_service req /\ calls st3 = (calls st2 ++ [req])%list) ->
    exists requests, calls st3 = (calls st ++ requests)%list /\ in_stage_order requests).
  { intros st3 [E3|(req & R & E3)]; rewrite E3, E2, E1.
    - rewrite <- (app_nil_r ((calls st ++ geocoding) ++ [Get Server.PARCEL_URL ps])).
      apply stage_order_after_stage3; auto.
    - apply stage_order_after_stage3; eauto. }
  destruct (Server.get_trash_pickup_details http_get p st2) as [[t|e|] st3]; simpl in S;
    try (simpl; now apply Hend).
  destruct (Py.truthy t); simpl; [|now apply Hend].
  destruct (Py.get t "pickup_day" (JStr "Not specified")); simpl; [|now apply Hend].
  destruct (Py.get t "heavy_trash_pickup" (JStr EmptyString)); simpl; now apply Hend.
Qed.

End RunRequests.
Section IndyRunRequests.

Context {World : Type}.
Variable http_get : request -> World -> exc response * World.
Variable py_str : json -> string.

(** X20: every run of the orchestrator of indy_trash_server.py issues
    the geocoding request for the address, then at most one parcel
    request, then at most one schedule request: three requests at most. *)
Theorem X20_indy_run_issues_three_requests_at_most (address : string) (st : state World) :
  exists later,
    calls (snd (IndyTrashServer.get_indy_trash_day http_get py_str address st)) =
      (calls st ++ geocode address :: later)%list /\
    (later = [] \/
     (exists params, later = [Get "https://www.indy.gov/api/v1/parcel" params]) \/
     (exists params req,
        to_schedule_service req /\
        later = [Get "https://www.indy.gov/api/v1/parcel" params; req])).
Proof.
  unfold IndyTrashServer.get_indy_trash_day, bind, log. cbv beta iota.
  destruct (indy_search_address_returns http_get address (entered address st))
    as (a & l & E1).
  unfold entered, received in E1. simpl in E1. rewrite E1. clear E1.
  set (st1 := State _ (calls st ++ [geocode address]) _).
  assert (Hone : exists later,
             calls st1 = (calls st ++ geocode address :: later)%list /\
             (later = [] \/
              (exists params, later = [Get "https://www.indy.gov/api/v1/parcel" params]) \/
              (exists params req,
                 to_schedule_service req /\
                 later = [Get "https://www.indy.gov/api/v1/parcel" params; req]))).
  { exists []. split; [reflexivity | now left]. }
  destruct (Py.truthy a) eqn:T1; simpl; [|exact Hone].
  pose proof (indy_get_parcel_info_one_request http_get a st1) as P.
  assert (Htwo : forall st2 : state World,
    calls st2 = calls st1 \/
    (exists params, calls st2 = (calls st1 ++ [Get Server.PARCEL_URL params])%list) ->
    exists later,
      calls st2 = (calls st ++ geocode address :: later)%list /\
      (later = [] \/
       (exists params, later = [Get "https://www.indy.gov/api/v1/parcel" params]) \/
       (exists params req,
          to_schedule_service req /\
          later = [Get "https://www.indy.gov/api/v1/parcel" params; req]))).
  { intros st2 [E2|[ps E2]]; rewrite E2; [exact Hone|].
    exists [Get Server.PARCEL_URL ps]. split.
    - simpl. now rewrite <- app_assoc.
    - right. left. now exists ps. }
  destruct (IndyTrashServer.get_parcel_info http_get a st1) as [[p|e|] st2] eqn:H2;
    simpl in P; try (simpl; now apply Htwo).
  destruct (Py.truthy p) eqn:T2; simpl; [|now apply Htwo].
  destruct (indy_get_parcel_info_value_was_requested http_get a p st1 st2 H2
              (truthy_is_not_none p T2)) as (ps & E2).
  pose proof (proj2 (get_trash_pickup_details_one_request http_get p st2)) as S.
  assert (Hthree : forall st3 : state World,
    calls st3 = calls st2 \/
    (exists req, to_schedule_service req /\ calls st3 = (calls st2 ++ [req])%list) ->
    exists later,
      calls st3 = (calls st ++ geocode address :: later)%list /\
      (later = [] \/
       (exists params, later = [Get "https://www.indy.gov/api/v1/parcel" params]) \/
       (exists params req,
          to_schedule_service req /\
          later = [Get "https://www.indy.gov/api/v1/parcel" params; req]))).
  { intros st3 [E3|(req & R & E3)]; rewrite E3, E2.
    - exists [Get Server.PARCEL_URL ps]. split.
      + simpl. now rewrite <- app_assoc.
      + right. left. now exists ps.
    - exists [Get Server.PARCEL_URL ps; req]. split.
      + simpl. now rewrite <- !app_assoc.
      + right. right. now exists ps, req. }
  destruct (IndyTrashServer.get_trash_pickup_details http_get p st2) as [[t|e|] st3];
    simpl in S; try (simpl; now apply Hthree).
  destruct (Py.truthy t); simpl; [|now apply Hthree].
  destruct (Py.get t "pickup_day" (JStr "Not specified")); simpl; [|now apply Hthree].
  destruct (Py.get t "heavy_trash_pickup" (JStr EmptyString)); simpl; now apply Hthree.
Qed.

End IndyRunRequests.
(** ** The sentences of a run *)

Lemma schedule_sentence_opening (py_str : json -> string) (pickup_day heavy_trash : json) :
  String.prefix "Your regular trash pickup day is "
    (Server.schedule_sentence py_str pickup_day heavy_trash) = true.
Proof.
  unfold Server.schedule_sentence. destruct (Py.truthy heavy_trash).
  - rewrite append_assoc. apply prefix_refl_append.
  - apply prefix_refl_append.
Qed.

Ltac sentence_found :=
  intros [= <-]; first [now left | now (right; left) | now (right; right; left)
                        | right; right; right; apply schedule_sentence_opening].

Section RunSentences.

Context {World : Type}.
Variable http_get : request -> World -> exc response * World.
Variable py_str : json -> string.

Lemma server_sentences (fuel : nat) (address : string) (st : state World)
  (sentence : string) :
  fst (Server.get_indy_trash_day http_get py_str fuel address st) = Returns sentence ->
  sentence = Server.ADDRESS_FAILURE \/ sentence = Server.PARCEL_FAILURE \/
  sentence = Server.SCHEDULE_FAILURE \/
  String.prefix "Your regular trash pickup day is " sentence = true.
Proof.
  unfold Server.get_indy_trash_day, bind, log. cbv beta iota.
  destruct (Server.search_address http_get fuel address _) as [[a|e|] st1];
    try discriminate.
  destruct (Py.truthy a); simpl; [|sentence_found].
  destruct (Server.get_parcel_info http_get a st1) as [[p|e|] st2]; try discriminate.
  destruct (Py.truthy p); simpl; [|sentence_found].
  destruct (Server.get_trash_pickup_details http_get p st2) as [[t|e|] st3];
    try discriminate.
  destruct (Py.truthy t); simpl; [|sentence_found].
  destruct (Py.get t "pickup_day" (JStr "Not specified")); simpl; [|discriminate].
  destruct (Py.get t "heavy_trash_pickup" (JStr EmptyString)); simpl; [|discriminate].
  sentence_found.
Qed.

Lemma indy_sentences (address : string) (st : state World) (sentence : string) :
  fst (IndyTrashServer.get_indy_trash_day http_get py_str address st) = Returns sentence ->
  sentence = Server.ADDRESS_FAILURE \/ sentence = Server.PARCEL_FAILURE \/
  sentence = Server.SCHEDULE_FAILURE \/
  String.prefix "Your regular trash pickup day is " sentence = true.
Proof.
  unfold IndyTrashServer.get_indy_trash_day, bind, log. cbv beta iota.
  change IndyTrashServer.schedule_sentence with Server.schedule_sentence.
  destruct (IndyTrashServer.search_address http_get address _) as [[a|e|] st1];
    try discriminate.
  destruct (Py.truthy a); simpl; [|sentence_found].
  destruct (IndyTrashServer.get_parcel_info http_get a st1) as [[p|e|] st2];
    try discriminate.
  destruct (Py.truthy p); simpl; [|sentence_found].
  destruct (IndyTrashServer.get_trash_pickup_details http_get p st2) as [[t|e|] st3];
    try discriminate.
  destruct (Py.truthy t); simpl; [|sentence_found].
  destruct (Py.get t "pickup_day" (JStr "Not specified")); simpl; [|discriminate].
  destruct (Py.get t "heavy_trash_pickup" (JStr EmptyString)); simpl; [|discriminate].
  sentence_found.
Qed.

(** X21: whenever the orchestrator of either variant returns, the
    string is one of the three fixed failure sentences or begins with
    "Your regular trash pickup day is ". *)
Theorem X21_sentences_the_orchestrator_returns (fuel : nat) (address : string)
  (st : state World) (sentence : string) :
  fst (Server.get_indy_trash_day http_get py_str fuel address st) = Returns sentence \/
  fst (IndyTrashServer.get_indy_trash_day http_get py_str address st) = Returns sentence ->
  sentence =
    "Sorry, I couldn't validate that address. Please provide a valid Indianapolis address." \/
  sentence = "Sorry, I couldn't retrieve parcel information for that address." \/
  sentence = "Sorry, I couldn't retrieve trash pickup details for that address." \/
  String.prefix "Your regular trash pickup day is " sentence = true.
Proof.
  intros [H|H]; [now apply server_sentences in H | now apply indy_sentences in H].
Qed.

End RunSentences.

Lemma X21_witness :
  "Your regular trash pickup day is Tuesday." =
    "Sorry, I couldn't validate that address. Please provide a valid Indianapolis address." \/
  "Your regular trash pickup day is Tuesday." =
    "Sorry, I couldn't retrieve parcel information for that address." \/
  "Your regular trash pickup day is Tuesday." =
    "Sorry, I couldn't retrieve trash pickup details for that address." \/
  String.prefix "Your regular trash pickup day is "
    "Your regular trash pickup day is Tuesday." = true.
Proof.
  exact (X21_sentences_the_orchestrator_returns
           (stateless (scenario (JObj tuesday_only))) str_plain 1 "1234 Main Street" fresh
           "Your regular trash pickup day is Tuesday." (or_introl eq_refl)).
Defined.
(** ** Failures along the pipeline *)

Section PipelineFailures.

Context {World : Type}.
Variable http_get : request -> World -> exc response * World.
Variable py_str : json -> string.

Variables (address : string) (st : state World).

(** X22: when the geocoding service cannot be reached, both variants
    return the address-validation sentence after that single request. *)
Theorem X22_unreachable_geocoding_service (fuel : nat) (w : World) :
  http_get (geocode address) (world st) = (Err RequestError, w) ->
  let failed :=
    (Returns
       "Sorry, I couldn't validate that address. Please provide a valid Indianapolis address.",
     State w (calls st ++ [geocode address])
       (logs st ++ [received address;
                    Log ERROR [Lit "Error calling search_gis_address API: ";
                               Exn RequestError]])) in
  Server.get_indy_trash_day http_get py_str (S fuel) address st = failed /\
  IndyTrashServer.get_indy_trash_day http_get py_str address st = failed.
Proof.
  intros Hget failed. split.
  - apply orchestrator_stage1_absent with (a := JNull); [|reflexivity].
    simpl Server.search_address. run_step. fold (geocode address). rewrite Hget.
    simpl. now rewrite <- app_assoc.
  - apply indy_orchestrator_stage1_absent with (a := JNull); [|reflexivity].
    unfold IndyTrashServer.search_address. indy_step. fold (geocode address). rewrite Hget.
    simpl. now rewrite <- app_assoc.
Qed.

Variables (code : nat) (fields : list (string * json)) (w1 : World).
Hypothesis answered :
  http_get (geocode address) (world st) = (Ok (Response code (Ok (JObj fields))), w1).
Hypothesis success : Server.is_success code = true.

Variables (candidate : list (string * json))
  (address1 city level number state_ tag zipcode : json).
Hypothesis one_candidate : Py.lookup "addresses" fields = Some (JList [JObj candidate]).
Hypothesis has_address1 : Py.lookup "address1" candidate = Some address1.
Hypothesis has_city : Py.lookup "city" candidate = Some city.
Hypothesis has_level : Py.lookup "level" candidate = Some level.
Hypothesis has_number : Py.lookup "number" candidate = Some number.
Hypothesis has_state : Py.lookup "state" candidate = Some state_.
Hypothesis has_tag : Py.lookup "tag" candidate = Some tag.
Hypothesis has_zipcode : Py.lookup "zipcode" candidate = Some zipcode.

Variables (code2 : nat) (record : list (string * json)) (others : list json) (w2 : World).
Hypothesis parcel_answered :
  http_get (parcel_request address1 city level number state_ tag zipcode) w1 =
    (Ok (Response code2 (Ok (JList (JObj record :: others)))), w2).
Hypothesis parcel_success : Server.is_success code2 = true.
Hypothesis unlocated : Py.lookup "x" record = None \/ Py.lookup "y" record = None.

Lemma the_candidate_is_truthy : Py.truthy (JObj candidate) = true.
Proof. destruct candidate; [discriminate has_address1 | reflexivity]. Qed.

Lemma record_has_no_coordinates : Server.has_coordinates (JObj record) = Ok false.
Proof.
  unfold Server.has_coordinates, exc_bind, Py.in_, Py.has_key.
  destruct unlocated as [E|E]; rewrite E; [reflexivity|].
  now destruct (Py.lookup "x" record).
Qed.

(** X18: when the only candidate has its seven fields and the first
    parcel record lacks a coordinate, both variants return the
    parcel-lookup sentence after exactly two requests, geocoding and
    parcel: the schedule service is not called. *)
Theorem X18_parcel_without_coordinates_stops_the_pipeline (fuel : nat) :
  let failed :=
    (Returns "Sorry, I couldn't retrieve parcel information for that address.",
     State w2
       (calls st ++ [geocode address;
                     parcel_request address1 city level number state_ tag zipcode])
       (logs st ++ [received address;
                    Log ERROR [Lit "Parcel data missing x/y coordinates: ";
                               Val (JObj record)]])) in
  Server.get_indy_trash_day http_get py_str (S fuel) address st = failed /\
  IndyTrashServer.get_indy_trash_day http_get py_str address st = failed.
Proof.
  intros failed. split.
  - eapply orchestrator_stage2_absent with (a := JObj candidate) (p := JNull).
    + eapply search_address_one_candidate; eauto.
    + apply the_candidate_is_truthy.
    + rewrite (get_parcel_info_reaches_try http_get candidate address1 city level number
                 state_ tag zipcode); auto.
      run_step. simpl in parcel_answered. rewrite parcel_answered. simpl.
      rewrite parcel_success. simpl. rewrite record_has_no_coordinates.
      simpl. rewrite <- !app_assoc. reflexivity.
    + reflexivity.
  - eapply indy_orchestrator_stage2_absent with (a := JObj candidate) (p := JNull).
    + eapply indy_search_address_one_candidate; eauto.
    + apply the_candidate_is_truthy.
    + rewrite (indy_get_parcel_info_reaches_try http_get candidate address1 city level
                 number state_ tag zipcode); auto.
      indy_step. simpl in parcel_answered. rewrite parcel_answered. simpl.
      rewrite (success_is_no_client_error _ parcel_success). simpl.
      rewrite record_has_no_coordinates.
      simpl. rewrite <- !app_assoc. reflexivity.
    + reflexivity.
Qed.

End PipelineFailures.
Section Stage3Faults.

Context {World : Type}.
Variable http_get : request -> World -> exc response * World.

Variables (fields : list (string * json)) (x y : json) (st : state World) (w : World).
Hypothesis has_x : Py.lookup "x" fields = Some x.
Hypothesis has_y : Py.lookup "y" fields = Some y.

(** X17: a transport fault on the schedule request makes Stage 3 of both
    variants return None after that single request, with an error record
    naming the trash pickup API. *)
Theorem X17_schedule_request_that_fails :
  (forall req, url req = "https://www.indy.gov/api/v1/indy_trash_pickup" ->
               http_get req (world st) = (Err RequestError, w)) ->
  Server.get_trash_pickup_details http_get (JObj fields) st =
    (Returns JNull,
     State w (calls st ++ [schedule_request x y])
       (logs st ++ [Log ERROR [Lit "Error calling trash pickup API: "; Exn RequestError]])) /\
  IndyTrashServer.get_trash_pickup_details http_get (JObj fields) st =
    (Returns JNull,
     State w (calls st ++ [indy_schedule_request x y])
       (logs st ++ [Log ERROR [Lit "Error calling trash pickup API: "; Exn RequestError]])).
Proof.
  intros Hget.
  destruct (located_parcel_reaches_request fields x y has_x has_y) as (Hl & Hp & Hp').
  split.
  - unfold Server.get_trash_pickup_details.
    rewrite Hl, bind_lift_ok, Hp, bind_lift_ok. run_step.
    now rewrite (Hget (Get Server.TRASH_PICKUP_URL [("x", x); ("y", y)]) eq_refl).
  - unfold IndyTrashServer.get_trash_pickup_details.
    change IndyTrashServer.lacks_coordinates with Server.lacks_coordinates.
    rewrite Hl, bind_lift_ok, Hp', bind_lift_ok. indy_step.
    now rewrite (Hget (Get IndyTrashServer.TRASH_PICKUP_URL
                         [("__workflow_id", JStr IndyTrashServer.WORKFLOW_ID);
                          ("x", x); ("y", y)]) eq_refl).
Qed.

End Stage3Faults.

(** ** The properties at work *)

Lemma X9_witness :
  Server.get_parcel_info (stateless server_error) main_street fresh =
  (Returns JNull,
   State tt [parcel_request (JStr "1234 MAIN ST") (JStr "INDIANAPOLIS") JNull (JInt 1234)
               (JStr "IN") (JStr "ADDRESS") (JStr "46204")]
     [Log ERROR [Lit "Unexpected error in get_parcel_info: "; Exn (HTTPStatusError 500)]]).
Proof.
  exact (proj1 (X9_parcel_http_error (stateless server_error) main_street_fields
                  (JStr "1234 MAIN ST") (JStr "INDIANAPOLIS") JNull (JInt 1234) (JStr "IN")
                  (JStr "ADDRESS") (JStr "46204")
                  eq_refl eq_refl eq_refl eq_refl eq_refl eq_refl eq_refl
                  fresh tt 500 (Err ValueError) eq_refl eq_refl)).
Defined.

Lemma X10_witness :
  Server.get_parcel_info (stateless second_parcel_located) main_street fresh =
  (Returns JNull,
   State tt [parcel_request (JStr "1234 MAIN ST") (JStr "INDIANAPOLIS") JNull (JInt 1234)
               (JStr "IN") (JStr "ADDRESS") (JStr "46204")]
     [Log ERROR [Lit "Parcel data missing x/y coordinates: ";
                 Val (JObj [("parcel", JStr "1001234")])]]).
Proof.
  exact (proj1 (proj2 (X10_only_the_first_parcel_record_counts
                         (stateless second_parcel_located) main_street_fields
                         (JStr "1234 MAIN ST") (JStr "INDIANAPOLIS") JNull (JInt 1234)
                         (JStr "IN") (JStr "ADDRESS") (JStr "46204")
                         eq_refl eq_refl eq_refl eq_refl eq_refl eq_refl eq_refl
                         fresh tt 200 [("parcel", JStr "1001234")] [main_street_parcel]
                         eq_refl eq_refl)
                 (or_introl eq_refl))).
Defined.

Lemma X11_witness :
  Server.get_parcel_info (stateless no_parcels) main_street fresh =
  (Returns JNull,
   State tt [parcel_request (JStr "1234 MAIN ST") (JStr "INDIANAPOLIS") JNull (JInt 1234)
               (JStr "IN") (JStr "ADDRESS") (JStr "46204")]
     [Log ERROR [Lit "No parcel data found for details: ";
                 Val (JObj [("address1", JStr "1234 MAIN ST"); ("city", JStr "INDIANAPOLIS");
                            ("level", JNull); ("number", JInt 1234); ("state", JStr "IN");
                            ("tag_id", JStr "ADDRESS"); ("zipcode", JStr "46204")])]]).
Proof.
  exact (proj1 (X11_no_parcel_list (stateless no_parcels) main_street_fields
                  (JStr "1234 MAIN ST") (JStr "INDIANAPOLIS") JNull (JInt 1234) (JStr "IN")
                  (JStr "ADDRESS") (JStr "46204")
                  eq_refl eq_refl eq_refl eq_refl eq_refl eq_refl eq_refl
                  fresh tt 200 (JList []) eq_refl eq_refl (or_intror eq_refl))).
Defined.

Lemma X14_witness :
  Server.get_trash_pickup_details (stateless timing_out) (JObj [("x", JFloat 10.0%float)])
    fresh =
  (Returns JNull,
   State tt [] [missing_coordinates_error (JObj [("x", JFloat 10.0%float)])]).
Proof.
  exact (proj1 (X14_missing_coordinate_fails_locally (stateless timing_out)
                  [("x", JFloat 10.0%float)] fresh (or_intror eq_refl))).
Defined.

Lemma scenario_schedule_answer (schedule : json) (req : request) :
  url req = "https://www.indy.gov/api/v1/indy_trash_pickup" ->
  stateless (scenario schedule) req tt = (Ok (Response 200 (Ok schedule)), tt).
Proof. intros H. unfold stateless, scenario. now rewrite H. Defined.

Lemma X15_witness :
  Server.get_trash_pickup_details (stateless (scenario (JObj tuesday_only)))
    main_street_parcel fresh =
  (Returns (JObj tuesday_only),
   State tt [schedule_request (JFloat 10.0%float) (JFloat 20.0%float)] []).
Proof.
  exact (proj1 (proj1 (X15_schedule_payload_is_returned_as_it_is
                         (stateless (scenario (JObj tuesday_only)))
                         [("parcel", JStr "1001234"); ("x", JFloat 10.0%float);
                          ("y", JFloat 20.0%float)]
                         (JFloat 10.0%float) (JFloat 20.0%float) fresh 200
                         (JObj tuesday_only) tt eq_refl eq_refl
                         (scenario_schedule_answer (JObj tuesday_only)) eq_refl)
                 tuesday_only (JStr "Tuesday") eq_refl eq_refl)).
Defined.

Lemma X16_witness :
  Py.truthy (JObj tuesday_only) = true /\
  Py.in_ "pickup_day" (JObj tuesday_only) = Ok true.
Proof.
  destruct (X16_returned_schedule_has_a_pickup_day (stateless (scenario (JObj tuesday_only)))
              main_street_parcel (JObj tuesday_only) fresh
              (State tt [schedule_request (JFloat 10.0%float) (JFloat 20.0%float)] [])
              (or_introl eq_refl)
              (fun H : JObj tuesday_only = JNull =>
                 eq_ind (JObj tuesday_only)
                   (fun v => match v with JNull => False | _ => True end) I JNull H))
    as (T & P & _).
  exact (conj T P).
Defined.

Lemma X18_witness :
  Server.get_indy_trash_day (stateless second_parcel_located) str_plain 1 "1234 Main Street"
    fresh =
  (Returns "Sorry, I couldn't retrieve parcel information for that address.",
   State tt
     [geocode "1234 Main Street";
      parcel_request (JStr "1234 MAIN ST") (JStr "INDIANAPOLIS") JNull (JInt 1234)
        (JStr "IN") (JStr "ADDRESS") (JStr "46204")]
     [received "1234 Main Street";
      Log ERROR [Lit "Parcel data missing x/y coordinates: ";
                 Val (JObj [("parcel", JStr "1001234")])]]).
Proof.
  exact (proj1 (X18_parcel_without_coordinates_stops_the_pipeline
                  (stateless second_parcel_located) str_plain "1234 Main Street" fresh
                  200 [("addresses", JList [main_street])] tt eq_refl eq_refl
                  main_street_fields
                  (JStr "1234 MAIN ST") (JStr "INDIANAPOLIS") JNull (JInt 1234) (JStr "IN")
                  (JStr "ADDRESS") (JStr "46204")
                  eq_refl eq_refl eq_refl eq_refl eq_refl eq_refl eq_refl eq_refl
                  200 [("parcel", JStr "1001234")] [main_street_parcel] tt
                  eq_refl eq_refl (or_introl eq_refl) 0)).
Defined.

Lemma X22_witness :
  Server.get_indy_trash_day (stateless timing_out) str_plain 1 "1234 Main Street" fresh =
  (Returns
     "Sorry, I couldn't validate that address. Please provide a valid Indianapolis address.",
   State tt [geocode "1234 Main Street"]
     [received "1234 Main Street";
      Log ERROR [Lit "Error calling search_gis_address API: "; Exn RequestError]]).
Proof.
  exact (proj1 (X22_unreachable_geocoding_service (stateless timing_out) str_plain
                  "1234 Main Street" fresh 0 tt eq_refl)).
Defined.

Lemma X17_witness :
  Server.get_trash_pickup_details (stateless timing_out) main_street_parcel fresh =
  (Returns JNull,
   State tt [schedule_request (JFloat 10.0%float) (JFloat 20.0%float)]
     [Log ERROR [Lit "Error calling trash pickup API: "; Exn RequestError]]).
Proof.
  exact (proj1 (X17_schedule_request_that_fails (stateless timing_out)
                  [("parcel", JStr "1001234"); ("x", JFloat 10.0%float);
                   ("y", JFloat 20.0%float)]
                  (JFloat 10.0%float) (JFloat 20.0%float) fresh tt eq_refl eq_refl
                  (fun req _ => eq_refl))).
Defined.
